(** * ditto_ros_bridge: the Ditto to ROS 2 bridge node

    A shallow embedding of [ditto_ros_bridge/bridge_node.py] (class
    [DittoROS2Bridge]) and the properties of its parts: the topic
    sanitizer, the publisher registry, the server-sent-event decoder, the
    feature router, the reconnecting stream supervisor and the credentials
    of the request.

    Conventions of the embedding.
    - A Python [str] is a [string]; every [ascii] stands for the code point
      of the same number, so the texts covered are those whose code points
      lie below 256.
    - Decoded JSON is the inductive [value]; a [dict] is an association list
      in insertion order, looked up by its first matching key.
    - The octets of an encoded text are numbers from 0 to 255, with the
      bit operations on them written out.
    - Python floats are IEEE binary64 numbers, as [spec_float] of the
      Standard Library with [prec = 53] and [emax = 1024].
    - Code with effects runs in the monad [M]: the world (the publisher
      dictionary and the serial of the middleware) is threaded through, the
      observable effects are collected in the order they happen, and a
      computation ends in a value or in a raised exception.
    - What lies outside the repository is a parameter or a script: [str()]
      of an object that is not a text, [json.loads] and [json.dumps], each
      of which returns or raises, the replies of the HTTP client and the
      answers of [rclpy.ok()]. Two things are taken not to fail: [str()]
      and the f-strings, on the objects that [json.loads] returned and on
      the messages made of them; and the middleware, when it creates a
      publisher, takes a value for a field of a message, or publishes. *)

From Stdlib Require Import ZArith String Ascii List Bool Lia.
From Stdlib Require Import Floats.SpecFloat.
From stdpp Require Import gmap strings list sorting.

Local Open Scope string_scope.
Local Open Scope Z_scope.

(** ** Python text *)

Module Py.

(** Exceptions, all of them subclasses of Python's [Exception].
    [JSONDecodeError] is [json.JSONDecodeError]: a handler for it catches
    neither a plain [ValueError] nor any of the others. *)
Inductive exn :=
| AttributeError
| TypeError
| ValueError
| KeyError
| OverflowError
| UnicodeDecodeError
| JSONDecodeError
| RecursionError
| OtherError (name : string).

Inductive result (A : Type) :=
| Ok (a : A)
| Raise (e : exn).
Arguments Ok {A} a.
Arguments Raise {A} e.

Definition code (c : ascii) : Z := Z.of_N (N_of_ascii c).

Definition in_range (lo hi : Z) (c : ascii) : bool :=
  (lo <=? code c) && (code c <=? hi).

Definition is_digit (c : ascii) : bool := in_range 48 57 c.
Definition is_upper (c : ascii) : bool := in_range 65 90 c.
Definition is_lower (c : ascii) : bool := in_range 97 122 c.

(** [str.isspace] on one code point below 256: TAB to CR, FS to US,
    SPACE, NEL and NBSP. *)
Definition isspace (c : ascii) : bool :=
  in_range 9 13 c || in_range 28 32 c
  || (code c =? 133) || (code c =? 160).

Fixpoint map_chars (f : ascii -> ascii) (s : string) : string :=
  match s with
  | EmptyString => EmptyString
  | String c r => String (f c) (map_chars f r)
  end.

Fixpoint all_chars (p : ascii -> bool) (s : string) : bool :=
  match s with
  | EmptyString => true
  | String c r => p c && all_chars p r
  end.

(** [s.replace(old, new)] for one-character [old] and [new]. *)
Definition replace (old new : ascii) (s : string) : string :=
  map_chars (fun c => if Ascii.eqb c old then new else c) s.

(** [s.startswith(c)] for a one-character prefix. *)
Definition startswith (c : ascii) (s : string) : bool :=
  match s with
  | String d _ => Ascii.eqb d c
  | EmptyString => false
  end.

Fixpoint lstrip (s : string) : string :=
  match s with
  | String c r => if isspace c then lstrip r else s
  | EmptyString => EmptyString
  end.

Fixpoint rstrip (s : string) : string :=
  match s with
  | EmptyString => EmptyString
  | String c r =>
      match rstrip r with
      | EmptyString => if isspace c then EmptyString else String c EmptyString
      | r' => String c r'
      end
  end.

(** [s.strip()] *)
Definition strip (s : string) : string := rstrip (lstrip s).

(** [s.split(sep)] for a one-character separator: never empty, one more
    piece than there are separators. *)
Fixpoint split (sep : ascii) (s : string) : list string :=
  match s with
  | EmptyString => [EmptyString]
  | String c r =>
      if Ascii.eqb c sep then EmptyString :: split sep r
      else match split sep r with
           | p :: ps => String c p :: ps
           | [] => [String c EmptyString]
           end
  end.

(** [sep in s] together with [s.split(sep, 1)]: the text before and the
    text after the first separator, [None] when [s] has none. *)
Fixpoint split_once (sep : ascii) (s : string) : option (string * string) :=
  match s with
  | EmptyString => None
  | String c r =>
      if Ascii.eqb c sep then Some (EmptyString, r)
      else match split_once sep r with
           | Some (k, v) => Some (String c k, v)
           | None => None
           end
  end.

(** [sub in s] on two texts. *)
Fixpoint has_prefix (p s : string) : bool :=
  match p, s with
  | EmptyString, _ => true
  | String a p', String b s' => Ascii.eqb a b && has_prefix p' s'
  | String _ _, EmptyString => false
  end.

Fixpoint contains (sub s : string) : bool :=
  has_prefix sub s ||
  match s with
  | EmptyString => false
  | String _ r => contains sub r
  end.

(** *** Numbers *)

Definition prec : Z := 53.
Definition emax : Z := 1024.

(** The binary64 number nearest to [(-1)^neg * m * 10^e10], ties to even,
    an infinity beyond the largest finite number: what CPython's
    correctly rounded string conversion returns. *)
Definition float_of_decimal (neg : bool) (m e10 : Z) : spec_float :=
  if m <=? 0 then S754_zero neg
  else if 0 <=? e10 then
    let n := m * 10 ^ e10 in
    binary_normalize prec emax (if neg then - n else n) 0 neg
  else
    let '(q, e, l) := SFdiv_core_binary prec emax m 0 (10 ^ (- e10)) 0 in
    binary_round_aux prec emax neg q e l.

(** [float(n)] on an [int]: [None] stands for [OverflowError]. *)
Definition float_of_int (n : Z) : option spec_float :=
  match binary_normalize prec emax n 0 false with
  | S754_infinity _ => None
  | f => Some f
  end.

(** [int(f)] on a [float]: truncation towards zero. *)
Definition int_of_float (f : spec_float) : result Z :=
  match f with
  | S754_zero _ => Ok 0
  | S754_infinity _ => Raise OverflowError
  | S754_nan => Raise ValueError
  | S754_finite s m e =>
      let a := if 0 <=? e then Z.pos m * 2 ^ e else Z.pos m / 2 ^ (- e) in
      Ok (if s then - a else a)
  end.

(** The white space that the conversions of a text to a number strip:
    the C locale's, and NEL and NBSP, which CPython turns into spaces
    beforehand. *)
Definition is_num_space (c : ascii) : bool :=
  in_range 9 13 c || (code c =? 32) || (code c =? 133) || (code c =? 160).

Fixpoint lstrip_num (s : string) : string :=
  match s with
  | String c r => if is_num_space c then lstrip_num r else s
  | EmptyString => EmptyString
  end.

Fixpoint rstrip_num (s : string) : string :=
  match s with
  | EmptyString => EmptyString
  | String c r =>
      match rstrip_num r with
      | EmptyString =>
          if is_num_space c then EmptyString else String c EmptyString
      | r' => String c r'
      end
  end.

Definition digit_value (c : ascii) : Z := code c - 48.

(** Reads the longest run of digits: the number read so far, the count of
    digits read so far, and what follows the run. *)
Fixpoint read_digits (acc cnt : Z) (s : string) : Z * Z * string :=
  match s with
  | String c r =>
      if is_digit c then read_digits (10 * acc + digit_value c) (cnt + 1) r
      else (acc, cnt, s)
  | EmptyString => (acc, cnt, s)
  end.

Definition read_sign (s : string) : bool * string :=
  match s with
  | String "-" r => (true, r)
  | String "+" r => (false, r)
  | _ => (false, s)
  end.

(** Digit separators: an underscore must stand between two digits. On
    success the text without its underscores. *)
Fixpoint drop_underscores (prev : ascii) (s : string) : option string :=
  match s with
  | EmptyString => if Ascii.eqb prev "_" then None else Some EmptyString
  | String c r =>
      if Ascii.eqb c "_" then
        if is_digit prev then drop_underscores c r else None
      else if Ascii.eqb prev "_" && negb (is_digit c) then None
      else option_map (String c) (drop_underscores c r)
  end.

Definition lower (c : ascii) : ascii :=
  if is_upper c then ascii_of_N (N_of_ascii c + 32) else c.

(** The optional exponent of a decimal literal, which must end the text. *)
Definition read_exponent (s : string) : option Z :=
  match s with
  | EmptyString => Some 0
  | String c r =>
      if Ascii.eqb (lower c) "e" then
        let '(neg, r1) := read_sign r in
        match read_digits 0 0 r1 with
        | (x, cnt, EmptyString) =>
            if 0 <? cnt then Some (if neg then - x else x) else None
        | _ => None
        end
      else None
  end.

(** The text is [inf], [infinity] or [nan], whatever the case, after an
    optional sign; otherwise a decimal literal: digits with an optional
    point and an optional exponent, at least one digit before the
    exponent. *)
Definition parse_float (s : string) : option spec_float :=
  let '(neg, body) := read_sign s in
  let word := map_chars lower body in
  if String.eqb word "inf" || String.eqb word "infinity" then
    Some (S754_infinity neg)
  else if String.eqb word "nan" then Some S754_nan
  else
    let '(ip, icnt, r1) := read_digits 0 0 body in
    let '(m, fcnt, r2) :=
      match r1 with
      | String "." r => read_digits ip 0 r
      | _ => (ip, 0, r1)
      end in
    if 0 <? icnt + fcnt then
      match read_exponent r2 with
      | Some x => Some (float_of_decimal neg m (x - fcnt))
      | None => None
      end
    else None.

(** [float(s)] on a [str]: [None] stands for [ValueError]. *)
Definition float_of_string (s : string) : option spec_float :=
  match drop_underscores " " (rstrip_num (lstrip_num s)) with
  | Some t => parse_float t
  | None => None
  end.

(** The digits of an integer literal in base ten, single underscores
    allowed between two of them: the number read, the count of its digits,
    underscores left out, and what follows. *)
Fixpoint read_int_digits (acc cnt : Z) (prev : ascii) (s : string)
  : option (Z * Z * string) :=
  match s with
  | String c r =>
      if is_digit c
      then read_int_digits (10 * acc + digit_value c) (cnt + 1) c r
      else if Ascii.eqb c "_" then
        if is_digit prev then read_int_digits acc cnt c r else None
      else if Ascii.eqb prev "_" then None
      else Some (acc, cnt, s)
  | EmptyString => if Ascii.eqb prev "_" then None else Some (acc, cnt, s)
  end.

(** The ceiling on the number of digits of a text that is converted to an
    [int]: [sys.int_info.default_max_str_digits]. *)
Definition int_max_str_digits : Z := 4300.

(** [int(s)] on a [str]: [None] stands for [ValueError], which a literal
    of more digits than the ceiling raises as well. *)
Definition int_of_string (s : string) : option Z :=
  let '(neg, body) := read_sign (lstrip_num s) in
  match body with
  | String c _ =>
      if is_digit c then
        match read_int_digits 0 0 " " body with
        | Some (n, cnt, rest) =>
            match lstrip_num rest with
            | EmptyString =>
                if int_max_str_digits <? cnt then None
                else Some (if neg then - n else n)
            | _ => None
            end
        | None => None
        end
      else None
  | EmptyString => None
  end.

(** *** Objects: what [json.loads] returns *)

#[local] Unset Elimination Schemes.
Inductive value :=
| VNone
| VBool (b : bool)
| VInt (n : Z)
| VFloat (f : spec_float)
| VStr (s : string)
| VList (l : list value)
| VDict (d : list (string * value)).
#[local] Set Elimination Schemes.

Fixpoint lookup_key (k : string) (d : list (string * value)) : option value :=
  match d with
  | [] => None
  | (k', v) :: r => if String.eqb k k' then Some v else lookup_key k r
  end.

Definition is_str (k : string) (v : value) : bool :=
  match v with
  | VStr s => String.eqb k s
  | _ => false
  end.

(** [o.get(k, default)] *)
Definition get (o : value) (k : string) (default : value) : result value :=
  match o with
  | VDict d => Ok (match lookup_key k d with Some v => v | None => default end)
  | _ => Raise AttributeError
  end.

(** [k in o] for a text [k] *)
Definition has (k : string) (o : value) : result bool :=
  match o with
  | VDict d => Ok (match lookup_key k d with Some _ => true | None => false end)
  | VStr s => Ok (contains k s)
  | VList l => Ok (existsb (is_str k) l)
  | VNone | VBool _ | VInt _ | VFloat _ => Raise TypeError
  end.

(** [o[k]] for a text [k] *)
Definition getitem (o : value) (k : string) : result value :=
  match o with
  | VDict d =>
      match lookup_key k d with
      | Some v => Ok v
      | None => Raise KeyError
      end
  | _ => Raise TypeError
  end.

(** [o.items()] *)
Definition items (o : value) : result (list (string * value)) :=
  match o with
  | VDict d => Ok d
  | _ => Raise AttributeError
  end.

Definition zero : spec_float := S754_zero false.
Definition one : spec_float := S754_finite false 4503599627370496 (-52).

(** [float(o)] *)
Definition float_ (o : value) : result spec_float :=
  match o with
  | VBool b => Ok (if b then one else zero)
  | VInt n =>
      match float_of_int n with
      | Some f => Ok f
      | None => Raise OverflowError
      end
  | VFloat f => Ok f
  | VStr s =>
      match float_of_string s with
      | Some f => Ok f
      | None => Raise ValueError
      end
  | VNone | VList _ | VDict _ => Raise TypeError
  end.

(** [int(o)] *)
Definition int_ (o : value) : result Z :=
  match o with
  | VBool b => Ok (if b then 1 else 0)
  | VInt n => Ok n
  | VFloat f => int_of_float f
  | VStr s =>
      match int_of_string s with
      | Some n => Ok n
      | None => Raise ValueError
      end
  | VNone | VList _ | VDict _ => Raise TypeError
  end.

(** [bool(o)]: the truth value of an object. *)
Definition bool_ (o : value) : bool :=
  match o with
  | VNone => false
  | VBool b => b
  | VInt n => negb (n =? 0)
  | VFloat (S754_zero _) => false
  | VFloat _ => true
  | VStr EmptyString => false
  | VStr (String _ _) => true
  | VList [] => false
  | VList (_ :: _) => true
  | VDict [] => false
  | VDict (_ :: _) => true
  end.

End Py.

(** ** Topic sanitizer *)

(** The characters the pattern [[^0-9a-zA-Z_/~{}]] leaves alone. *)
Definition topic_char (c : ascii) : bool :=
  Py.is_digit c || Py.is_lower c || Py.is_upper c
  || Ascii.eqb c "_" || Ascii.eqb c "/" || Ascii.eqb c "~"
  || Ascii.eqb c "{" || Ascii.eqb c "}".

(** [re.sub(r'[^0-9a-zA-Z_/~{}]', '_', name)] *)
Definition sub_invalid (name : string) : string :=
  Py.map_chars (fun c => if topic_char c then c else "_"%char) name.

Definition sanitize_topic_name (name : string) : string :=
  let name := Py.replace "." "_" (Py.replace ":" "_" name) in
  let name := if negb (Py.startswith "/" name) then String "/" name else name in
  sub_invalid name.

(** Regular expressions over code points, with the usual language
    semantics; [topic_pattern] is [^/[0-9a-zA-Z_/~{}]*$]. *)
Inductive regex :=
| Chr (c : ascii)
| Class (p : ascii -> bool)
| Cat (r1 r2 : regex)
| Star (r : regex).

Inductive re_match : regex -> string -> Prop :=
| MChr c : re_match (Chr c) (String c EmptyString)
| MClass p c : p c = true -> re_match (Class p) (String c EmptyString)
| MCat r1 r2 s1 s2 :
    re_match r1 s1 -> re_match r2 s2 -> re_match (Cat r1 r2) (s1 ++ s2)
| MStarNil r : re_match (Star r) EmptyString
| MStarApp r s1 s2 :
    re_match r s1 -> re_match (Star r) s2 -> re_match (Star r) (s1 ++ s2).

Definition topic_pattern : regex := Cat (Chr "/") (Star (Class topic_char)).

(** ** Messages *)

(** Modelled from the spec: the message classes of [ditto_ros_msgs] (and
    [Point] of [geometry_msgs]) are not among the sources. Each is the
    fixed-shape record of the named fields that the router assigns: a field
    assigned through [float], [int] or [bool] holds the coerced number or
    truth value, a field assigned an f-string holds a text, and a field
    assigned straight from the payload holds whatever object the payload
    had there. *)
Module Msg.
Import Py.

Record Point := { x : spec_float; y : spec_float; z : spec_float }.

Record AssetMetadata := { asset_id : value; type : value; location : Point }.
Record Temperature := { temperature : spec_float }.
Record TrafficLight := { current_state : value; time_to_change : spec_float }.
Record Humidity := { humidity : spec_float }.
Record Pressure := { pressure : spec_float }.
Record Imu := {
  linear_acceleration_x : spec_float;
  linear_acceleration_y : spec_float;
  linear_acceleration_z : spec_float;
  angular_velocity_x : spec_float;
  angular_velocity_y : spec_float;
  angular_velocity_z : spec_float }.
Record Alert := { message : string; severity : Z }.
Record Relationship := {
  child_thing_id : value;
  parent_thing_id : value;
  relationship_type : string }.
Record MachineStatus := {
  machine_id : value;
  status : value;
  uptime : spec_float;
  efficiency : spec_float }.
Record EnvironmentalData := {
  air_quality_index : spec_float;
  noise_level : spec_float;
  light_intensity : spec_float;
  co2_level : spec_float }.
Record TrafficData := {
  vehicle_count : Z;
  average_speed : spec_float;
  congestion_level : Z }.
Record CropData := {
  crop_type : value;
  soil_moisture : spec_float;
  soil_ph : spec_float;
  growth_stage : spec_float }.
Record WaterManagement := {
  water_level : spec_float;
  flow_rate : spec_float;
  turbidity : spec_float;
  valve_status : bool }.
Record EnergyConsumption := {
  total_consumption : spec_float;
  renewable_percentage : spec_float;
  grid_load : spec_float }.
Record ProductionLine := {
  line_id : value;
  units_produced : Z;
  defect_count : Z;
  overall_equipment_effectiveness : spec_float }.

(** The classes, as handed to [create_publisher]. *)
Inductive msg_type :=
| TAssetMetadata | TTemperature | TTrafficLight | THumidity | TPressure
| TImu | TAlert | TRelationship | TMachineStatus | TEnvironmentalData
| TTrafficData | TCropData | TWaterManagement | TEnergyConsumption
| TProductionLine.

(** An instance of one of the classes. *)
Inductive msg :=
| OfAssetMetadata (m : AssetMetadata)
| OfTemperature (m : Temperature)
| OfTrafficLight (m : TrafficLight)
| OfHumidity (m : Humidity)
| OfPressure (m : Pressure)
| OfImu (m : Imu)
| OfAlert (m : Alert)
| OfRelationship (m : Relationship)
| OfMachineStatus (m : MachineStatus)
| OfEnvironmentalData (m : EnvironmentalData)
| OfTrafficData (m : TrafficData)
| OfCropData (m : CropData)
| OfWaterManagement (m : WaterManagement)
| OfEnergyConsumption (m : EnergyConsumption)
| OfProductionLine (m : ProductionLine).
End Msg.

(** ** The world of the node and the monad of its methods *)

(** A publisher object of the middleware. [pub_serial] is its identity:
    two handles are the same object exactly when their serials agree. *)
Record Publisher := {
  pub_serial : nat;
  pub_type : Msg.msg_type;
  pub_topic : string;
  pub_depth : Z }.

Inductive level := Debug | Info | Warn | Error.

(** One constructor for each logging call of the node, with the objects its
    text is formatted from; the two lines that show a payload hold the text
    that [json.dumps] made of it. *)
Inductive log_record :=
| CreatedPublisher (topic_name : string)
| Connecting (url : string)
| ConnectFailed (status : Z)
| Connected
| ReceivedEvent (event : gmap string string)
| NonJsonData (data : string)
| ConnectionError (e : Py.exn)
| ConnectionClosed
| ProcessingThing (dump : string)
| Published (thing_id : Py.value) (m : Msg.msg)
| ErrorProcessing (e : Py.exn)
| ThingCausedError (dump : string).

(** What the node does to the outside, in the order it does it. *)
Inductive effect :=
| CreatePublisher (p : Publisher)
| Publish (p : Publisher) (m : Msg.msg)
| Log (l : level) (r : log_record)
| Sleep (seconds : Z)
| HttpGet (url : string).

(** The state of the node that the methods read and write:
    [self._topic_publishers], and the number of publishers the middleware
    has handed out so far. *)
Record World := {
  topic_publishers : gmap string Publisher;
  serial : nat }.

(** A method call that has run: the world it leaves, the effects it had,
    oldest first, and the value it returned or the exception it raised. *)
Record run (A : Type) := {
  after : World;
  effects : list effect;
  outcome : Py.result A }.
Arguments after {A} r.
Arguments effects {A} r.
Arguments outcome {A} r.

Definition M (A : Type) : Type := World -> run A.

Definition ret {A} (a : A) : M A :=
  fun w => {| after := w; effects := []; outcome := Py.Ok a |}.

Definition raise {A} (e : Py.exn) : M A :=
  fun w => {| after := w; effects := []; outcome := Py.Raise e |}.

(** Running [k] after [m]: the effects add up. *)
Definition and_then {A B} (first : run A) (k : A -> M B) : run B :=
  match outcome first with
  | Py.Ok a =>
      let second := k a (after first) in
      {| after := after second;
         effects := effects first ++ effects second;
         outcome := outcome second |}
  | Py.Raise e =>
      {| after := after first; effects := effects first;
         outcome := Py.Raise e |}
  end.

Definition bind {A B} (m : M A) (k : A -> M B) : M B :=
  fun w => and_then (m w) k.

Declare Scope py_scope.
Delimit Scope py_scope with py.
Notation "x <- m ;; k" := (bind m (fun x => k))
  (at level 100, m at next level, right associativity) : py_scope.
Notation "m ;; k" := (bind m (fun _ => k))
  (at level 100, right associativity) : py_scope.
Local Open Scope py_scope.

(** [try: body except Exception as e: handler(e)] *)
Definition try_except {A} (body : M A) (handler : Py.exn -> M A) : M A :=
  fun w =>
    let first := body w in
    match outcome first with
    | Py.Ok a => first
    | Py.Raise e =>
        let second := handler e (after first) in
        {| after := after second;
           effects := effects first ++ effects second;
           outcome := outcome second |}
    end.

(** [try: body except cls: handler], where [caught] tells the exceptions
    of the class [cls]: any other exception leaves the statement. *)
Definition try_except_only {A} (caught : Py.exn -> bool) (body : M A)
    (handler : M A) : M A :=
  fun w =>
    let first := body w in
    match outcome first with
    | Py.Ok a => first
    | Py.Raise e =>
        if caught e then
          let second := handler (after first) in
          {| after := after second;
             effects := effects first ++ effects second;
             outcome := outcome second |}
        else first
    end.

(** A pure built-in, which returns or raises. *)
Definition lift {A} (r : Py.result A) : M A :=
  fun w => {| after := w; effects := []; outcome := r |}.

Definition when (b : bool) (m : M unit) : M unit := if b then m else ret tt.

Fixpoint for_each {A} (l : list A) (body : A -> M unit) : M unit :=
  match l with
  | [] => ret tt
  | a :: r => body a ;; for_each r body
  end.

Definition emit (e : effect) : M unit :=
  fun w => {| after := w; effects := [e]; outcome := Py.Ok tt |}.

Definition log (l : level) (r : log_record) : M unit := emit (Log l r).

(** [await asyncio.sleep(seconds)] *)
Definition sleep (seconds : Z) : M unit := emit (Sleep seconds).

(** [pub.publish(msg)] *)
Definition publish (pub : Publisher) (m : Msg.msg) : M unit :=
  emit (Publish pub m).

(** [self.create_publisher(msg_type, topic_name, depth)] of the middleware:
    a new object each time. *)
Definition create_publisher (t : Msg.msg_type) (topic_name : string)
    (depth : Z) : M Publisher :=
  fun w =>
    let p := {| pub_serial := serial w; pub_type := t;
                pub_topic := topic_name; pub_depth := depth |} in
    {| after := {| topic_publishers := topic_publishers w;
                   serial := S (serial w) |};
       effects := [CreatePublisher p];
       outcome := Py.Ok p |}.

(** Reading [self._topic_publishers] and assigning one of its keys. *)
Definition publishers : M (gmap string Publisher) :=
  fun w => {| after := w; effects := []; outcome := Py.Ok (topic_publishers w) |}.

Definition set_publisher (topic_name : string) (p : Publisher) : M unit :=
  fun w =>
    {| after := {| topic_publishers := <[topic_name := p]> (topic_publishers w);
                   serial := serial w |};
       effects := [];
       outcome := Py.Ok tt |}.

(** ** Publisher registry *)

Definition get_or_create_publisher (msg_type : Msg.msg_type)
    (topic_name : string) : M Publisher :=
  let topic_name := sanitize_topic_name topic_name in
  pubs <- publishers ;;
  when (negb (bool_decide (is_Some (pubs !! topic_name)))) (
    p <- create_publisher msg_type topic_name 10 ;;
    set_publisher topic_name p ;;
    log Info (CreatedPublisher topic_name)) ;;
  pubs <- publishers ;;
  match pubs !! topic_name with
  | Some p => ret p
  | None => raise Py.KeyError
  end.

(** ** Stream decoder *)

(** An iterator that was run to its end: the items it yielded, and then
    whether it was exhausted or raised. *)
Inductive gen (A : Type) :=
| Done
| Fail (e : Py.exn)
| Yield (a : A) (rest : gen A).
Arguments Done {A}.
Arguments Fail {A} e.
Arguments Yield {A} a rest.

(** The items of [l], then what [g] does. *)
Fixpoint gen_app {A} (l : list A) (g : gen A) : gen A :=
  match l with
  | [] => g
  | a :: r => Yield a (gen_app r g)
  end.

(** The items of [l], then exhaustion. *)
Definition gen_of_list {A} (l : list A) : gen A := gen_app l Done.

(** A [bytes] object, by the text it is the UTF-8 encoding of; [Malformed]
    is one that is not valid UTF-8. *)
Inductive bytes :=
| Utf8 (text : string)
| Malformed.

(** [line.decode('utf-8')] *)
Definition decode (line : bytes) : Py.result string :=
  match line with
  | Utf8 text => Py.Ok text
  | Malformed => Py.Raise Py.UnicodeDecodeError
  end.

Definition LF : string := String "010" EmptyString.

Definition nonempty (s : string) : bool :=
  match s with
  | EmptyString => false
  | String _ _ => true
  end.

(** The loop over [buffer.split("\n")] that fills [event]. *)
Definition parse_lines (lines : list string) : gmap string string :=
  fold_left
    (fun event line =>
       match Py.split_once ":" line with
       | Some (key, value) => <[Py.strip key := Py.strip value]> event
       | None => event
       end)
    lines ∅.

Fixpoint sse_parse_from (buffer : string) (content : gen bytes)
  : gen (gmap string string) :=
  match content with
  | Done => Done
  | Fail e => Fail e
  | Yield line content =>
      match decode line with
      | Py.Raise e => Fail e
      | Py.Ok line =>
          let line := Py.strip line in
          if nonempty line then sse_parse_from (buffer ++ line ++ LF) content
          else if nonempty buffer then
            let event := parse_lines (Py.split "010" buffer) in
            if bool_decide (event ≠ ∅)
            then Yield event (sse_parse_from EmptyString content)
            else sse_parse_from EmptyString content
          else sse_parse_from buffer content
      end
  end.

Definition sse_parse (content : gen bytes) : gen (gmap string string) :=
  sse_parse_from EmptyString content.

(** ** Feature router and stream supervisor *)

Section Node.
Import Py Msg.

(** The [debug] parameter of the node. *)
Variable debug : bool.
(** Python's [str(o)] on an object that is not itself a text. *)
Variable str_of_object : value -> string.
(** [json.dumps(o, indent=2)]: the text, or the exception it raises, as
    [RecursionError] on an object nested too deeply. *)
Variable json_dumps : value -> result string.
(** [json.loads]: the object, or the exception it raises, which is
    [JSONDecodeError] on a text that is not JSON, and may be another one,
    as [ValueError] on a number of too many digits or [RecursionError]. *)
Variable json_loads : string -> result value.
(** The address of the change feed, built from the parameters. *)
Variable sse_url : string.

(** [f"{o}"] *)
Definition format (o : value) : string :=
  match o with
  | VStr s => s
  | _ => str_of_object o
  end.

(** [float(o.get(k, 0.0))] *)
Definition float_at (o : value) (k : string) : M spec_float :=
  v <- lift (get o k (VFloat zero)) ;;
  lift (float_ v).

(** [int(o.get(k, 0))] *)
Definition int_at (o : value) (k : string) : M Z :=
  v <- lift (get o k (VInt 0)) ;;
  lift (int_ v).

(** [pub = self.get_or_create_publisher(t, f"{thing_id}/<suffix>")],
    [pub.publish(m)] and the log line that follows. *)
Definition send (t : msg_type) (thing_id : value) (suffix : string)
    (m : msg) : M unit :=
  pub <- get_or_create_publisher t (format thing_id ++ "/" ++ suffix) ;;
  publish pub m ;;
  log Info (Published thing_id m).

(** [if name in features: props = features[name].get('properties', {})]
    and the body of the branch. *)
Definition on_feature (features : value) (name : string)
    (body : value -> M unit) : M unit :=
  present <- lift (has name features) ;;
  when present (
    feature <- lift (getitem features name) ;;
    props <- lift (get feature "properties" (VDict [])) ;;
    body props).

(** [if self.debug: self.get_logger().debug(f"...: {json.dumps(thing,
    indent=2)}")], for either of the two lines that show the payload. *)
Definition debug_dump (line : string -> log_record) (thing : value)
  : M unit :=
  when debug (
    dump <- lift (json_dumps thing) ;;
    log Debug (line dump)).

(** The branches of the [try] block, one for the location and one for
    each feature, in the order of the source. *)

Definition location_branch (thing_id attributes : value) : M unit :=
  present <- lift (has "location" attributes) ;;
  when present (
    location <- lift (getitem attributes "location") ;;
    px <- float_at location "longitude" ;;
    py <- float_at location "latitude" ;;
    pz <- float_at location "elevation" ;;
    asset_type <- lift (get attributes "asset_type" (VStr EmptyString)) ;;
    send TAssetMetadata thing_id "metadata"
      (OfAssetMetadata
         {| asset_id := thing_id; type := asset_type;
            location := {| x := px; y := py; z := pz |} |})).

Definition temperature_branch (thing_id features : value) : M unit :=
  on_feature features "temperature" (fun temp =>
    v <- float_at temp "value" ;;
    send TTemperature thing_id "sensor/temperature"
      (OfTemperature {| temperature := v |})).

Definition traffic_light_branch (thing_id features : value) : M unit :=
  on_feature features "traffic_light_status" (fun traffic_light =>
    state <- lift (get traffic_light "current_state" (VStr "unknown")) ;;
    t <- float_at traffic_light "time_to_change" ;;
    send TTrafficLight thing_id "traffic_light_status"
      (OfTrafficLight {| current_state := state; time_to_change := t |})).

Definition humidity_branch (thing_id features : value) : M unit :=
  on_feature features "humidity" (fun hum =>
    v <- float_at hum "value" ;;
    send THumidity thing_id "sensor/humidity"
      (OfHumidity {| humidity := v |})).

Definition pressure_branch (thing_id features : value) : M unit :=
  on_feature features "pressure" (fun pre =>
    v <- float_at pre "value" ;;
    send TPressure thing_id "sensor/pressure"
      (OfPressure {| pressure := v |})).

Definition imu_branch (thing_id features : value) : M unit :=
  on_feature features "imu" (fun imu =>
    ax <- float_at imu "accel_x" ;;
    ay <- float_at imu "accel_y" ;;
    az <- float_at imu "accel_z" ;;
    gx <- float_at imu "gyro_x" ;;
    gy <- float_at imu "gyro_y" ;;
    gz <- float_at imu "gyro_z" ;;
    send TImu thing_id "sensor/imu"
      (OfImu {| linear_acceleration_x := ax; linear_acceleration_y := ay;
                linear_acceleration_z := az; angular_velocity_x := gx;
                angular_velocity_y := gy; angular_velocity_z := gz |})).

Definition alerts_branch (thing_id features : value) : M unit :=
  on_feature features "alerts" (fun inbox =>
    entries <- lift (items inbox) ;;
    for_each entries (fun '(message_id, message) =>
      kind <- lift (get message "type" (VStr "unknown")) ;;
      sev <- int_at message "severity" ;;
      send TAlert thing_id "alerts"
        (OfAlert {| Msg.message := format thing_id ++ ":" ++ format kind;
                    severity := sev |}))).

Definition relationships_branch (thing_id features : value) : M unit :=
  on_feature features "relationships" (fun relationships =>
    entries <- lift (items relationships) ;;
    for_each entries (fun '(rel_type, rel_data) =>
      target <- lift (get rel_data "target" (VStr EmptyString)) ;;
      send TRelationship thing_id "relationships"
        (OfRelationship {| child_thing_id := thing_id;
                           parent_thing_id := target;
                           relationship_type := rel_type |}))).

Definition status_branch (thing_id features : value) : M unit :=
  on_feature features "status" (fun status =>
    v <- lift (get status "value" (VStr EmptyString)) ;;
    up <- float_at status "uptime" ;;
    eff <- float_at status "efficiency" ;;
    send TMachineStatus thing_id "status"
      (OfMachineStatus {| machine_id := thing_id; Msg.status := v;
                          uptime := up; efficiency := eff |})).

Definition environment_branch (thing_id features : value) : M unit :=
  on_feature features "environment" (fun env =>
    aqi <- float_at env "aqi" ;;
    noise <- float_at env "noise" ;;
    light <- float_at env "light" ;;
    co2 <- float_at env "co2" ;;
    send TEnvironmentalData thing_id "sensor/environment"
      (OfEnvironmentalData {| air_quality_index := aqi; noise_level := noise;
                              light_intensity := light; co2_level := co2 |})).

Definition traffic_branch (thing_id features : value) : M unit :=
  on_feature features "traffic" (fun traffic =>
    count <- int_at traffic "count" ;;
    speed <- float_at traffic "avg_speed" ;;
    congestion <- int_at traffic "congestion" ;;
    send TTrafficData thing_id "traffic"
      (OfTrafficData {| vehicle_count := count; average_speed := speed;
                        congestion_level := congestion |})).

Definition crop_branch (thing_id features : value) : M unit :=
  on_feature features "crop" (fun crop =>
    kind <- lift (get crop "type" (VStr EmptyString)) ;;
    moisture <- float_at crop "moisture" ;;
    ph <- float_at crop "ph" ;;
    growth <- float_at crop "growth" ;;
    send TCropData thing_id "sensor/crop"
      (OfCropData {| crop_type := kind; soil_moisture := moisture;
                     soil_ph := ph; growth_stage := growth |})).

Definition water_branch (thing_id features : value) : M unit :=
  on_feature features "water" (fun water =>
    lvl <- float_at water "level" ;;
    flow <- float_at water "flow" ;;
    turb <- float_at water "turbidity" ;;
    valve <- lift (get water "valve_open" (VBool false)) ;;
    send TWaterManagement thing_id "sensor/water"
      (OfWaterManagement {| water_level := lvl; flow_rate := flow;
                            turbidity := turb;
                            valve_status := bool_ valve |})).

Definition energy_branch (thing_id features : value) : M unit :=
  on_feature features "energy" (fun energy =>
    total <- float_at energy "total" ;;
    renewable <- float_at energy "renewable" ;;
    load <- float_at energy "grid_load" ;;
    send TEnergyConsumption thing_id "energy"
      (OfEnergyConsumption {| total_consumption := total;
                              renewable_percentage := renewable;
                              grid_load := load |})).

Definition production_branch (thing_id features : value) : M unit :=
  on_feature features "production" (fun prod =>
    units <- int_at prod "units" ;;
    defects <- int_at prod "defects" ;;
    oee <- float_at prod "oee" ;;
    send TProductionLine thing_id "production"
      (OfProductionLine {| line_id := thing_id; units_produced := units;
                           defect_count := defects;
                           overall_equipment_effectiveness := oee |})).

(** The [try] block of [process_thing]. *)
Definition route (thing : value) : M unit :=
  debug_dump ProcessingThing thing ;;
  thing_id <- lift (get thing "thingId" (VStr EmptyString)) ;;
  attributes <- lift (get thing "attributes" (VDict [])) ;;
  features <- lift (get thing "features" (VDict [])) ;;
  location_branch thing_id attributes ;;
  temperature_branch thing_id features ;;
  traffic_light_branch thing_id features ;;
  humidity_branch thing_id features ;;
  pressure_branch thing_id features ;;
  imu_branch thing_id features ;;
  alerts_branch thing_id features ;;
  relationships_branch thing_id features ;;
  status_branch thing_id features ;;
  environment_branch thing_id features ;;
  traffic_branch thing_id features ;;
  crop_branch thing_id features ;;
  water_branch thing_id features ;;
  energy_branch thing_id features ;;
  production_branch thing_id features.

(** The whole body of [process_thing] is the [try] block [route]; the
    handler logs the exception and, with [debug], the payload as well,
    which it formats anew: an exception of [json.dumps] there leaves the
    method. *)
Definition process_thing (thing : value) : M unit :=
  try_except (route thing)
    (fun e =>
       log Error (ErrorProcessing e) ;;
       debug_dump ThingCausedError thing).

(** What [except json.JSONDecodeError] catches. *)
Definition is_json_decode_error (e : exn) : bool :=
  match e with
  | JSONDecodeError => true
  | _ => false
  end.

(** The body of [async for event in self.sse_parse(response.content)]:
    the inner [try] holds both [json.loads] and the call of
    [process_thing], and its handler is for [json.JSONDecodeError]
    alone. *)
Definition on_event (event : gmap string string) : M unit :=
  when debug (log Debug (ReceivedEvent event)) ;;
  match event !! "data" with
  | Some data =>
      try_except_only is_json_decode_error
        (thing_data <- lift (json_loads data) ;;
         process_thing thing_data)
        (when (nonempty data) (log Warn (NonJsonData data)))
  | None => ret tt
  end.

Fixpoint consume (events : gen (gmap string string)) : M unit :=
  match events with
  | Done => ret tt
  | Fail e => raise e
  | Yield event rest => on_event event ;; consume rest
  end.

(** What one [session.get] meets: an exception of the client, or a
    response with its status and the lines of its body. *)
Inductive reply :=
| Refused (e : exn)
| Response (status : Z) (content : gen bytes).

(** How the [try] block of the loop is left: by [continue], or by
    running to its end. *)
Inductive flow := Continue | Through.

Definition attempt (r : reply) : M flow :=
  log Info (Connecting sse_url) ;;
  emit (HttpGet sse_url) ;;
  match r with
  | Refused e => raise e
  | Response status content =>
      if negb (status =? 200) then
        log Error (ConnectFailed status) ;;
        sleep 5 ;;
        ret Continue
      else
        log Info Connected ;;
        consume (sse_parse content) ;;
        ret Through
  end.

(** One turn of the [while] loop. *)
Definition turn (r : reply) : M unit :=
  f <- try_except (attempt r)
         (fun e => log Error (ConnectionError e) ;; ret Through) ;;
  match f with
  | Continue => ret tt
  | Through =>
      log Info ConnectionClosed ;;
      sleep 5
  end.

(** What the environment holds for one turn: the answer of [rclpy.ok()]
    at the head of the loop, and the reply to the request. *)
Record round := { ok : bool; answer : reply }.

(** Where the worker is when the script of the environment is used up:
    back at the head of the loop, or returned. *)
Inductive worker := Looping | Returned.

Fixpoint subscribe_to_changes (script : list round) : M worker :=
  match script with
  | [] => ret Looping
  | r :: rest =>
      if ok r then turn (answer r) ;; subscribe_to_changes rest
      else ret Returned
  end.

End Node.


(** ** Observations on runs *)

(** The node as [__init__] leaves it: no publisher yet. *)
Definition initial : World := {| topic_publishers := ∅; serial := 0 |}.

(** The publishers the middleware was asked to create. *)
Definition created (effs : list effect) : list Publisher :=
  omap (fun e => match e with CreatePublisher p => Some p | _ => None end) effs.

(** The topics of the lines "Created new publisher for topic". *)
Definition announced (effs : list effect) : list string :=
  omap (fun e => match e with
                 | Log Info (CreatedPublisher n) => Some n
                 | _ => None
                 end) effs.

(** The messages handed to publishers, each with the topic of its
    publisher. *)
Definition published (effs : list effect) : list (string * Msg.msg) :=
  omap (fun e => match e with
                 | Publish p m => Some (pub_topic p, m)
                 | _ => None
                 end) effs.

(** The delays waited. *)
Definition sleeps (effs : list effect) : list Z :=
  omap (fun e => match e with Sleep s => Some s | _ => None end) effs.

(** The requests sent. *)
Definition requests (effs : list effect) : list string :=
  omap (fun e => match e with HttpGet u => Some u | _ => None end) effs.

(** Every entry of the dictionary sits under the topic it was created
    for. *)
Definition registry_ok (w : World) : Prop :=
  forall n p, topic_publishers w !! n = Some p -> pub_topic p = n.

(** How the dictionary of [w'] stands to that of an earlier [w], given the
    effects in between: entries are kept as they were, a new entry is a
    publisher created in between for that very topic, a publisher is only
    created for a topic that had none and is then stored under it, no topic
    gets two, and each creation is announced by one log line. *)
Record grown (w w' : World) (effs : list effect) : Prop := {
  kept : forall n p,
    topic_publishers w !! n = Some p -> topic_publishers w' !! n = Some p;
  added : forall n p,
    topic_publishers w !! n = None -> topic_publishers w' !! n = Some p ->
    p ∈ created effs /\ pub_topic p = n;
  fresh : forall p,
    p ∈ created effs ->
    topic_publishers w !! pub_topic p = None
    /\ topic_publishers w' !! pub_topic p = Some p;
  once : NoDup (pub_topic <$> created effs);
  told : announced effs = pub_topic <$> created effs }.

(** A method all of whose runs leave the dictionary grown. *)
Definition grows {A} (m : M A) : Prop :=
  forall w, grown w (after (m w)) (effects (m w)).

(** A series of requests to the registry, each for a class and a raw
    topic. *)
Definition serve (calls : list (Msg.msg_type * string)) : M unit :=
  for_each calls (fun c => get_or_create_publisher c.1 c.2 ;; ret tt).

(** A line that is empty once stripped. *)
Definition blank (line : string) : bool := negb (nonempty (Py.strip line)).

(** A text without a line feed. *)
Definition one_line (s : string) : bool :=
  Py.all_chars (fun c => negb (Ascii.eqb c "010")) s.

(** The key and the value of each line that has a colon: what stands
    before the first colon and what stands after it, both stripped. *)
Definition fields (lines : list string) : list (string * string) :=
  omap (fun line =>
          match Py.split_once ":" line with
          | Some (k, v) => Some (Py.strip k, Py.strip v)
          | None => None
          end) lines.

(** The dictionary of a list of pairs, a later pair overriding an earlier
    one that has the same key. *)
Definition event_of (kvs : list (string * string)) : gmap string string :=
  fold_left (fun event kv => <[kv.1 := kv.2]> event) kvs ∅.

(** A double quote. *)
Definition dq : string := String "034" EmptyString.

(** The payloads of the examples. *)
Definition temperature_payload : Py.value :=
  Py.VDict
    [("thingId", Py.VStr "org.x:dev1");
     ("features",
      Py.VDict
        [("temperature",
          Py.VDict [("properties", Py.VDict [("value", Py.VStr "21.5")])])])].

(** A thing whose only feature is [alerts], with two entries. *)
Definition alerts_payload (thing_id k1 : string) (m1 : Py.value) (k2 : string)
    (m2 : Py.value) : Py.value :=
  Py.VDict
    [("thingId", Py.VStr thing_id);
     ("features",
      Py.VDict
        [("alerts",
          Py.VDict [("properties", Py.VDict [(k1, m1); (k2, m2)])])])].

(** A thing whose only feature is [water], with a level given as a text
    and a valve. *)
Definition water_payload (thing_id : string) (valve_open : Py.value)
  : Py.value :=
  Py.VDict
    [("thingId", Py.VStr thing_id);
     ("features",
      Py.VDict
        [("water",
          Py.VDict
            [("properties",
              Py.VDict [("level", Py.VStr "3.5");
                        ("valve_open", valve_open)])])])].

(** A thing with three features, the second of which cannot be coerced. *)
Definition damp_payload : Py.value :=
  Py.VDict
    [("thingId", Py.VStr "t1");
     ("features",
      Py.VDict
        [("temperature",
          Py.VDict [("properties", Py.VDict [("value", Py.VStr "21.5")])]);
         ("humidity",
          Py.VDict [("properties", Py.VDict [("value", Py.VStr "damp")])]);
         ("pressure",
          Py.VDict [("properties", Py.VDict [("value", Py.VInt 1013)])])])].

(** 21.5, that is 6051711999279104 / 2^48, and 3.5, that is
    7881299347898368 / 2^51. *)
Definition f21_5 : spec_float := S754_finite false 6051711999279104 (-48).
Definition f3_5 : spec_float := S754_finite false 7881299347898368 (-51).

(** The buffer of the decoder after lines none of which is blank. *)
Definition joined (lines : list string) : string :=
  fold_right (fun l acc => Py.strip l ++ LF ++ acc) EmptyString lines.

(** The exception an iterator ends with, if it ends with one. *)
Fixpoint raises {A} (g : gen A) : option Py.exn :=
  match g with
  | Done => None
  | Fail e => Some e
  | Yield _ rest => raises rest
  end.

(** An effect that is neither a delay nor a request. *)
Definition calm (e : effect) : Prop :=
  match e with
  | Sleep _ | HttpGet _ => False
  | _ => True
  end.

(** A method that never waits and never sends a request. *)
Definition quiet {A} (m : M A) : Prop :=
  forall w, Forall calm (effects (m w)).

(** What a turn of the supervisor's loop does between its request and its
    delay, for each reply: the error log of a refused connection or of a
    status other than 200, or the consumption of the stream, with the error
    log of the exception that ended it if one did, whether it came from the
    stream, from [json.loads] or from [process_thing]. *)
Definition between (debug : bool) (str_of_object : Py.value -> string)
    (json_dumps : Py.value -> Py.result string)
    (json_loads : string -> Py.result Py.value) (r : reply) (w : World)
  : list effect :=
  match r with
  | Refused e => [Log Error (ConnectionError e); Log Info ConnectionClosed]
  | Response status content =>
      if negb (status =? 200) then [Log Error (ConnectFailed status)]
      else
        let stream :=
          consume debug str_of_object json_dumps json_loads
            (sse_parse content) w in
        (Log Info Connected
         :: effects stream
         ++ match outcome stream with
            | Py.Raise e => [Log Error (ConnectionError e)]
            | Py.Ok _ => []
            end
         ++ [Log Info ConnectionClosed])%list
  end.

(** A script of five turns that all fail: a status 503, a refused
    connection, a stream that breaks after one event, and two streams with
    one event each, whose data the witness takes for a text that
    [json.loads] rejects with an exception other than [JSONDecodeError] and
    for a payload that [process_thing] lets an exception escape from. *)
Definition failing_script : list round :=
  [ {| ok := true; answer := Response 503 Done |};
    {| ok := true; answer := Refused (Py.OtherError "ClientConnectorError") |};
    {| ok := true;
       answer := Response 200
                   (Yield (Utf8 "data: {}")
                      (Yield (Utf8 EmptyString)
                         (Fail (Py.OtherError "ClientPayloadError")))) |};
    {| ok := true;
       answer := Response 200
                   (Yield (Utf8 "data: long")
                      (Yield (Utf8 EmptyString) Done)) |};
    {| ok := true;
       answer := Response 200
                   (Yield (Utf8 "data: deep")
                      (Yield (Utf8 EmptyString) Done)) |} ].

(** ** Further observations *)

(** A name with a slash in front, unless it starts with one. *)
Definition rooted (name : string) : string :=
  if Py.startswith "/" name then name else String "/" name.

(** A name without its first slash, if it starts with one. *)
Definition unslash (name : string) : string :=
  match name with
  | String "/" r => r
  | _ => name
  end.

(** [s.endswith(suffix)] *)
Fixpoint ends_with (suffix s : string) : bool :=
  String.eqb suffix s ||
  match s with
  | String _ r => ends_with suffix r
  | EmptyString => false
  end.

(** The class a message is an instance of. *)
Definition class_of (m : Msg.msg) : Msg.msg_type :=
  match m with
  | Msg.OfAssetMetadata _ => Msg.TAssetMetadata
  | Msg.OfTemperature _ => Msg.TTemperature
  | Msg.OfTrafficLight _ => Msg.TTrafficLight
  | Msg.OfHumidity _ => Msg.THumidity
  | Msg.OfPressure _ => Msg.TPressure
  | Msg.OfImu _ => Msg.TImu
  | Msg.OfAlert _ => Msg.TAlert
  | Msg.OfRelationship _ => Msg.TRelationship
  | Msg.OfMachineStatus _ => Msg.TMachineStatus
  | Msg.OfEnvironmentalData _ => Msg.TEnvironmentalData
  | Msg.OfTrafficData _ => Msg.TTrafficData
  | Msg.OfCropData _ => Msg.TCropData
  | Msg.OfWaterManagement _ => Msg.TWaterManagement
  | Msg.OfEnergyConsumption _ => Msg.TEnergyConsumption
  | Msg.OfProductionLine _ => Msg.TProductionLine
  end.

(** What the router puts after [{thing_id}/] in the topic it asks for when
    it publishes a message of the class. *)
Definition suffix_of (t : Msg.msg_type) : string :=
  match t with
  | Msg.TAssetMetadata => "metadata"
  | Msg.TTemperature => "sensor/temperature"
  | Msg.TTrafficLight => "traffic_light_status"
  | Msg.THumidity => "sensor/humidity"
  | Msg.TPressure => "sensor/pressure"
  | Msg.TImu => "sensor/imu"
  | Msg.TAlert => "alerts"
  | Msg.TRelationship => "relationships"
  | Msg.TMachineStatus => "status"
  | Msg.TEnvironmentalData => "sensor/environment"
  | Msg.TTrafficData => "traffic"
  | Msg.TCropData => "sensor/crop"
  | Msg.TWaterManagement => "sensor/water"
  | Msg.TEnergyConsumption => "energy"
  | Msg.TProductionLine => "production"
  end.

(** The names the router looks for among the features, in the order it
    looks for them. *)
Definition feature_names : list string :=
  ["temperature"; "traffic_light_status"; "humidity"; "pressure"; "imu";
   "alerts"; "relationships"; "status"; "environment"; "traffic"; "crop";
   "water"; "energy"; "production"].

(** Every entry of the dictionary sits under its topic, and was created
    for the class that the router publishes on a topic with that ending. *)
Definition typed (w : World) : Prop :=
  forall n p,
    topic_publishers w !! n = Some p ->
    pub_topic p = n
    /\ forall t, ends_with (String "/" (suffix_of t)) n = true -> pub_type p = t.

(** A method that keeps a property of the world and has only effects of
    one kind. *)
Definition keeps (I : World -> Prop) (P : effect -> Prop) {A} (m : M A)
  : Prop :=
  forall w, I w -> I (after (m w)) /\ Forall P (effects (m w)).

(** An effect other than the creation of a publisher and the publishing of
    a message. *)
Definition plain (e : effect) : Prop :=
  match e with
  | CreatePublisher _ | Publish _ _ => False
  | _ => True
  end.

(** A message goes out through a publisher of its own class. *)
Definition well_typed (e : effect) : Prop :=
  match e with
  | Publish p m => pub_type p = class_of m
  | _ => True
  end.

(** A message goes out on the topic of its class under [thing_id]. *)
Definition under (str_of_object : Py.value -> string) (thing_id : Py.value)
    (e : effect) : Prop :=
  match e with
  | Publish p m =>
      pub_topic p =
      sanitize_topic_name
        (format str_of_object thing_id ++ "/" ++ suffix_of (class_of m))
  | _ => True
  end.

(** [thing.get('thingId', '')], the empty text when [thing] has no such
    method. *)
Definition thing_id_of (thing : Py.value) : Py.value :=
  match Py.get thing "thingId" (Py.VStr EmptyString) with
  | Py.Ok v => v
  | Py.Raise _ => Py.VStr EmptyString
  end.

(** The items an iterator yields before it ends. *)
Fixpoint yields {A} (g : gen A) : list A :=
  match g with
  | Done | Fail _ => []
  | Yield a rest => a :: yields rest
  end.

(** What holds of a key and its value in an event of the decoder: both are
    stripped, and the key has no colon. *)
Definition tidy (k v : string) : Prop :=
  Py.strip k = k /\ Py.strip v = v
  /\ Py.all_chars (fun c => negb (Ascii.eqb c ":")) k = true.

(** The buffer of the decoder after the lines, from the buffer before. *)
Fixpoint buffer_after (buffer : string) (lines : list string) : string :=
  match lines with
  | [] => buffer
  | l :: r =>
      if nonempty (Py.strip l)
      then buffer_after (buffer ++ Py.strip l ++ LF) r
      else buffer_after EmptyString r
  end.

(** A thing with one feature. *)
Definition feature_payload (thing_id : string) (name : string)
    (feature : Py.value) : Py.value :=
  Py.VDict
    [("thingId", Py.VStr thing_id);
     ("features", Py.VDict [(name, feature)])].

(** The results up to the first exception, and that exception. *)
Fixpoint collect {A} (l : list (Py.result A)) : list A * option Py.exn :=
  match l with
  | [] => ([], None)
  | Py.Ok a :: r => let '(oks, e) := collect r in (a :: oks, e)
  | Py.Raise e :: _ => ([], Some e)
  end.

(** [float(o.get(k, 0.0))] and [int(o.get(k, 0))] as results. *)
Definition float_of_key (o : Py.value) (k : string) : Py.result spec_float :=
  match Py.get o k (Py.VFloat Py.zero) with
  | Py.Ok v => Py.float_ v
  | Py.Raise e => Py.Raise e
  end.

Definition int_of_key (o : Py.value) (k : string) : Py.result Z :=
  match Py.get o k (Py.VInt 0) with
  | Py.Ok v => Py.int_ v
  | Py.Raise e => Py.Raise e
  end.

(** The point that the router makes of a location: [longitude] is read
    first, then [latitude], then [elevation]. *)
Definition location_point (location : Py.value) : Py.result Msg.Point :=
  match float_of_key location "longitude" with
  | Py.Ok px =>
      match float_of_key location "latitude" with
      | Py.Ok py =>
          match float_of_key location "elevation" with
          | Py.Ok pz => Py.Ok {| Msg.x := px; Msg.y := py; Msg.z := pz |}
          | Py.Raise e => Py.Raise e
          end
      | Py.Raise e => Py.Raise e
      end
  | Py.Raise e => Py.Raise e
  end.

(** The message that the router makes of one entry of the alerts, and of
    one entry of the relationships. *)
Definition alert_message (str_of_object : Py.value -> string)
    (thing_id : Py.value) (entry : string * Py.value) : Py.result Msg.msg :=
  match Py.get entry.2 "type" (Py.VStr "unknown") with
  | Py.Ok kind =>
      match int_of_key entry.2 "severity" with
      | Py.Ok sev =>
          Py.Ok (Msg.OfAlert
                   {| Msg.message :=
                        format str_of_object thing_id ++ ":"
                        ++ format str_of_object kind;
                      Msg.severity := sev |})
      | Py.Raise e => Py.Raise e
      end
  | Py.Raise e => Py.Raise e
  end.

Definition relationship_message (thing_id : Py.value)
    (entry : string * Py.value) : Py.result Msg.msg :=
  match Py.get entry.2 "target" (Py.VStr EmptyString) with
  | Py.Ok target =>
      Py.Ok (Msg.OfRelationship
               {| Msg.child_thing_id := thing_id;
                  Msg.parent_thing_id := target;
                  Msg.relationship_type := entry.1 |})
  | Py.Raise e => Py.Raise e
  end.

(** The features whose branch publishes one message, each with the message
    its branch publishes when the feature has no property at all. *)
Definition default_messages (thing_id : Py.value) : list (string * Msg.msg) :=
  [("temperature", Msg.OfTemperature {| Msg.temperature := Py.zero |});
   ("traffic_light_status",
    Msg.OfTrafficLight {| Msg.current_state := Py.VStr "unknown";
                          Msg.time_to_change := Py.zero |});
   ("humidity", Msg.OfHumidity {| Msg.humidity := Py.zero |});
   ("pressure", Msg.OfPressure {| Msg.pressure := Py.zero |});
   ("imu",
    Msg.OfImu {| Msg.linear_acceleration_x := Py.zero;
                 Msg.linear_acceleration_y := Py.zero;
                 Msg.linear_acceleration_z := Py.zero;
                 Msg.angular_velocity_x := Py.zero;
                 Msg.angular_velocity_y := Py.zero;
                 Msg.angular_velocity_z := Py.zero |});
   ("status",
    Msg.OfMachineStatus {| Msg.machine_id := thing_id;
                           Msg.status := Py.VStr EmptyString;
                           Msg.uptime := Py.zero;
                           Msg.efficiency := Py.zero |});
   ("environment",
    Msg.OfEnvironmentalData {| Msg.air_quality_index := Py.zero;
                               Msg.noise_level := Py.zero;
                               Msg.light_intensity := Py.zero;
                               Msg.co2_level := Py.zero |});
   ("traffic",
    Msg.OfTrafficData {| Msg.vehicle_count := 0;
                         Msg.average_speed := Py.zero;
                         Msg.congestion_level := 0 |});
   ("crop",
    Msg.OfCropData {| Msg.crop_type := Py.VStr EmptyString;
                      Msg.soil_moisture := Py.zero;
                      Msg.soil_ph := Py.zero;
                      Msg.growth_stage := Py.zero |});
   ("water",
    Msg.OfWaterManagement {| Msg.water_level := Py.zero;
                             Msg.flow_rate := Py.zero;
                             Msg.turbidity := Py.zero;
                             Msg.valve_status := false |});
   ("energy",
    Msg.OfEnergyConsumption {| Msg.total_consumption := Py.zero;
                               Msg.renewable_percentage := Py.zero;
                               Msg.grid_load := Py.zero |});
   ("production",
    Msg.OfProductionLine {| Msg.line_id := thing_id;
                            Msg.units_produced := 0;
                            Msg.defect_count := 0;
                            Msg.overall_equipment_effectiveness := Py.zero |})].

(** A log line that is written with [debug] only. *)
Definition debug_line (debug : bool) (r : log_record) : list effect :=
  if debug then [Log Debug r] else [].

(** The payload can be shown in a debug line: [debug] is off, or
    [json.dumps] returns a text for it. *)
Definition shown (debug : bool) (json_dumps : Py.value -> Py.result string)
    (thing : Py.value) : Prop :=
  debug = true -> exists dump, json_dumps thing = Py.Ok dump.

(** The debug line that shows a payload, where it can be shown. *)
Definition dump_line (debug : bool)
    (json_dumps : Py.value -> Py.result string)
    (line : string -> log_record) (thing : Py.value) : list effect :=
  if debug then
    match json_dumps thing with
    | Py.Ok dump => [Log Debug (line dump)]
    | Py.Raise _ => []
    end
  else [].

(** How such a debug line ends: with the exception of [json.dumps] when
    [debug] is on and the payload cannot be shown. *)
Definition dump_result (debug : bool)
    (json_dumps : Py.value -> Py.result string) (thing : Py.value)
  : Py.result unit :=
  if debug then
    match json_dumps thing with
    | Py.Ok _ => Py.Ok tt
    | Py.Raise e => Py.Raise e
    end
  else Py.Ok tt.

(** The [try] block up to the alerts: the debug line, the three parts of
    the payload, the location and the five features that come first. *)
Definition before_alerts (debug : bool) (str_of_object : Py.value -> string)
    (json_dumps : Py.value -> Py.result string) (thing : Py.value)
  : M unit :=
  debug_dump debug json_dumps ProcessingThing thing ;;
  thing_id <- lift (Py.get thing "thingId" (Py.VStr EmptyString)) ;;
  attributes <- lift (Py.get thing "attributes" (Py.VDict [])) ;;
  features <- lift (Py.get thing "features" (Py.VDict [])) ;;
  location_branch str_of_object thing_id attributes ;;
  temperature_branch str_of_object thing_id features ;;
  traffic_light_branch str_of_object thing_id features ;;
  humidity_branch str_of_object thing_id features ;;
  pressure_branch str_of_object thing_id features ;;
  imu_branch str_of_object thing_id features.

(** The [try] block from the relationships on. *)
Definition after_alerts (str_of_object : Py.value -> string)
    (thing_id features : Py.value) : M unit :=
  relationships_branch str_of_object thing_id features ;;
  status_branch str_of_object thing_id features ;;
  environment_branch str_of_object thing_id features ;;
  traffic_branch str_of_object thing_id features ;;
  crop_branch str_of_object thing_id features ;;
  water_branch str_of_object thing_id features ;;
  energy_branch str_of_object thing_id features ;;
  production_branch str_of_object thing_id features.

(** A message on a topic that is an alert. *)
Definition is_alert (tm : string * Msg.msg) : bool :=
  match tm.2 with
  | Msg.OfAlert _ => true
  | _ => false
  end.

(** ** Credentials *)

(** [s.encode()]: the octets of the UTF-8 encoding of a text, one for a
    code point below 128, two for a code point from 128 to 255. *)
Definition encode_char (c : ascii) : list Z :=
  let n := Py.code c in
  if n <? 128 then [n]
  else [Z.lor 192 (Z.shiftr n 6); Z.lor 128 (Z.land n 63)].

Fixpoint encode (s : string) : list Z :=
  match s with
  | EmptyString => []
  | String c r => encode_char c ++ encode r
  end.

Definition ascii_of_Z (n : Z) : ascii := ascii_of_N (Z.to_N n).

(** [b.decode()]: the text that the octets are the UTF-8 encoding of.
    [None] stands for [UnicodeDecodeError], and also for the octets of a
    code point from 256 up, which the texts of this embedding do not
    have. *)
Fixpoint decode_octets (b : list Z) : option string :=
  match b with
  | [] => Some EmptyString
  | o :: r =>
      if (0 <=? o) && (o <? 128) then
        option_map (String (ascii_of_Z o)) (decode_octets r)
      else if (194 <=? o) && (o <=? 195) then
        match r with
        | o' :: r' =>
            if (128 <=? o') && (o' <=? 191) then
              option_map
                (String (ascii_of_Z (Z.lor (Z.shiftl (Z.land o 31) 6)
                                       (Z.land o' 63))))
                (decode_octets r')
            else None
        | [] => None
        end
      else None
  end.

(** An octet: a number from 0 to 255. *)
Definition octet (o : Z) : Prop := 0 <= o < 256.

(** The table of [base64]: the character of each number from 0 to 63. *)
Definition b64_alphabet : string :=
  "ABCDEFGHIJKLMNOPQRSTUVWXYZabcdefghijklmnopqrstuvwxyz0123456789+/".

Definition b64_octet (i : Z) : Z :=
  match String.get (Z.to_nat i) b64_alphabet with
  | Some c => Py.code c
  | None => 61
  end.

(** [base64.b64encode(data)]: four characters for each three octets; a
    last group of one or two octets is padded with [=]. *)
Fixpoint b64encode (data : list Z) : list Z :=
  match data with
  | [] => []
  | [a] =>
      [b64_octet (Z.shiftr a 2); b64_octet (Z.shiftl (Z.land a 3) 4); 61; 61]
  | [a; b] =>
      [b64_octet (Z.shiftr a 2);
       b64_octet (Z.lor (Z.shiftl (Z.land a 3) 4) (Z.shiftr b 4));
       b64_octet (Z.shiftl (Z.land b 15) 2); 61]
  | a :: b :: c :: rest =>
      b64_octet (Z.shiftr a 2)
      :: b64_octet (Z.lor (Z.shiftl (Z.land a 3) 4) (Z.shiftr b 4))
      :: b64_octet (Z.lor (Z.shiftl (Z.land b 15) 2) (Z.shiftr c 6))
      :: b64_octet (Z.land c 63)
      :: b64encode rest
  end.

(** [base64.b64encode(f"{username}:{password}".encode()).decode()] *)
Definition get_basic_auth (username password : string) : option string :=
  decode_octets (b64encode (encode (username ++ ":" ++ password))).

(** The number of a character of the table. *)
Definition b64_index (c : ascii) : option Z :=
  if Py.is_upper c then Some (Py.code c - 65)
  else if Py.is_lower c then Some (Py.code c - 71)
  else if Py.is_digit c then Some (Py.code c + 4)
  else if Ascii.eqb c "+" then Some 62
  else if Ascii.eqb c "/" then Some 63
  else None.

(** What the receiver of a header does to read the credentials back: the
    decoding of a text made of whole groups of four characters of the
    table, the last group padded or not; [None] for any other text. *)
Fixpoint b64decode (s : string) : option (list Z) :=
  match s with
  | EmptyString => Some []
  | String c1 (String c2 (String c3 (String c4 r))) =>
      match b64_index c1, b64_index c2 with
      | Some x, Some y =>
          let o1 := Z.lor (Z.shiftl x 2) (Z.shiftr y 4) in
          if Ascii.eqb c3 "=" then
            if Ascii.eqb c4 "=" && negb (nonempty r) then Some [o1] else None
          else
            match b64_index c3 with
            | Some z =>
                let o2 := Z.lor (Z.shiftl (Z.land y 15) 4) (Z.shiftr z 2) in
                if Ascii.eqb c4 "=" then
                  if negb (nonempty r) then Some [o1; o2] else None
                else
                  match b64_index c4, b64decode r with
                  | Some t, Some l =>
                      Some (o1 :: o2
                            :: Z.lor (Z.shiftl (Z.land z 3) 6) t :: l)
                  | _, _ => None
                  end
            | None => None
            end
      | _, _ => None
      end
  | _ => None
  end.

(** A character of a Base64 text: of the table, or the padding. *)
Definition b64_text_char (c : ascii) : bool :=
  Py.is_upper c || Py.is_lower c || Py.is_digit c
  || Ascii.eqb c "+" || Ascii.eqb c "/" || Ascii.eqb c "=".

(** A property that holds of every number from 0 up to [n], [n] left
    out. *)
Definition below (n : nat) (P : Z -> bool) : bool :=
  forallb P (Z.of_nat <$> seq 0 n).

(** The place of a class in the order in which the router deals with the
    location and the features. *)
Definition rank (t : Msg.msg_type) : nat :=
  match t with
  | Msg.TAssetMetadata => 0
  | Msg.TTemperature => 1
  | Msg.TTrafficLight => 2
  | Msg.THumidity => 3
  | Msg.TPressure => 4
  | Msg.TImu => 5
  | Msg.TAlert => 6
  | Msg.TRelationship => 7
  | Msg.TMachineStatus => 8
  | Msg.TEnvironmentalData => 9
  | Msg.TTrafficData => 10
  | Msg.TCropData => 11
  | Msg.TWaterManagement => 12
  | Msg.TEnergyConsumption => 13
  | Msg.TProductionLine => 14
  end%nat.

(** The places of the classes of the messages published, in the order in
    which they were published. *)
Definition ranks (effs : list effect) : list nat :=
  (fun tm : string * Msg.msg => rank (class_of tm.2)) <$> published effs.

(** A method that publishes nothing. *)
Definition silent {A} (m : M A) : Prop :=
  forall w, published (effects (m w)) = [].

(** A method that publishes in the order of the router, and only classes
    whose places lie between two bounds. *)
Definition in_order (lo hi : nat) {A} (m : M A) : Prop :=
  forall w,
    StronglySorted le (ranks (effects (m w)))
    /\ Forall (fun r => (lo <= r <= hi)%nat) (ranks (effects (m w))).

(** A method that returns and publishes the same from any two
    dictionaries whose entries sit under their topics, and leaves such
    dictionaries. *)
Definition steady {A} (m : M A) : Prop :=
  forall w w',
    registry_ok w -> registry_ok w' ->
    (outcome (m w) = outcome (m w')
     /\ published (effects (m w)) = published (effects (m w')))
    /\ registry_ok (after (m w)) /\ registry_ok (after (m w')).

Local Open Scope list_scope.

(** * Properties *)

(** ** Topic sanitizer *)

Section Sanitizer.

Lemma topic_char_underscore : topic_char "_" = true.
Proof. reflexivity. Qed.

Lemma topic_char_not_colon c : topic_char c = true -> Ascii.eqb c ":" = false.
Proof.
  intros H. destruct (Ascii.eqb_spec c ":") as [->|]; [discriminate H | reflexivity].
Qed.

Lemma topic_char_not_dot c : topic_char c = true -> Ascii.eqb c "." = false.
Proof.
  intros H. destruct (Ascii.eqb_spec c ".") as [->|]; [discriminate H | reflexivity].
Qed.

Lemma sub_invalid_valid s : Py.all_chars topic_char (sub_invalid s) = true.
Proof.
  induction s as [|c s IH]; [reflexivity|].
  cbn. destruct (topic_char c) eqn:E.
  - rewrite E. exact IH.
  - rewrite topic_char_underscore. exact IH.
Qed.

Lemma map_chars_fixed f s :
  (forall c, topic_char c = true -> f c = c) ->
  Py.all_chars topic_char s = true -> Py.map_chars f s = s.
Proof.
  intros Hf. induction s as [|c s IH]; [reflexivity|].
  cbn. intros [Hc Hs]%andb_prop. rewrite (Hf c Hc), (IH Hs). reflexivity.
Qed.

(** What the sanitizer answers: a slash, then characters of the class. *)
Lemma sanitize_shape name :
  exists r, sanitize_topic_name name = String "/" r
            /\ Py.all_chars topic_char r = true.
Proof.
  unfold sanitize_topic_name.
  set (n := Py.replace "." "_" (Py.replace ":" "_" name)).
  destruct n as [|c r] eqn:E; cbn.
  - exists EmptyString. split; reflexivity.
  - destruct (Ascii.eqb_spec c "/") as [->|Hc]; cbn.
    + exists (sub_invalid r). split; [reflexivity | apply sub_invalid_valid].
    + exists (sub_invalid (String c r)). split; [reflexivity | apply sub_invalid_valid].
Qed.

(** A text that already has that shape is left as it is. *)
Lemma sanitize_fixed r :
  Py.all_chars topic_char r = true ->
  sanitize_topic_name (String "/" r) = String "/" r.
Proof.
  intros Hr. unfold sanitize_topic_name, Py.replace.
  assert (Hall : Py.all_chars topic_char (String "/" r) = true) by exact Hr.
  rewrite (map_chars_fixed _ (String "/" r)); [ | | exact Hall].
  2:{ intros c Hc. rewrite (topic_char_not_colon c Hc). reflexivity. }
  rewrite (map_chars_fixed _ (String "/" r)); [ | | exact Hall].
  2:{ intros c Hc. rewrite (topic_char_not_dot c Hc). reflexivity. }
  cbn [Py.startswith]. cbn [Ascii.eqb Bool.eqb negb].
  unfold sub_invalid. apply map_chars_fixed; [ | exact Hall].
  intros c Hc. rewrite Hc. reflexivity.
Qed.

Lemma star_class p s :
  Py.all_chars p s = true -> re_match (Star (Class p)) s.
Proof.
  induction s as [|c s IH]; intros H.
  - constructor.
  - cbn in H. apply andb_prop in H as [Hc Hs].
    change (String c s) with (String c EmptyString ++ s)%string.
    apply MStarApp; [constructor; exact Hc | exact (IH Hs)].
Qed.

End Sanitizer.

(** C8. Whatever the text, what the topic sanitizer returns matches
    [^/[0-9a-zA-Z_/~{}]*$]: a slash first, then only alphanumerics,
    underscores, tildes, braces and slashes; and [org.acme:thing-1] becomes
    [/org_acme_thing_1]. *)
Theorem sanitize_matches_topic_pattern :
  (forall name, re_match topic_pattern (sanitize_topic_name name))
  /\ sanitize_topic_name "org.acme:thing-1" = "/org_acme_thing_1".
Proof.
  split; [ | reflexivity].
  intros name. destruct (sanitize_shape name) as (r & -> & Hr).
  change (String "/" r) with (String "/" EmptyString ++ r)%string.
  apply MCat; [constructor | apply star_class, Hr].
Qed.

(** C9. The topic sanitizer is idempotent. *)
Theorem sanitize_idempotent x :
  sanitize_topic_name (sanitize_topic_name x) = sanitize_topic_name x.
Proof.
  destruct (sanitize_shape x) as (r & -> & Hr). apply sanitize_fixed, Hr.
Qed.

(** ** The monad *)

Lemma run_eta {A} (r : run A) :
  {| after := after r; effects := effects r; outcome := outcome r |} = r.
Proof. destruct r; reflexivity. Qed.

Section Monad.
Context {A B : Type}.

Lemma bind_ok (m : M A) (k : A -> M B) w a :
  outcome (m w) = Py.Ok a ->
  bind m k w =
    {| after := after (k a (after (m w)));
       effects := effects (m w) ++ effects (k a (after (m w)));
       outcome := outcome (k a (after (m w))) |}.
Proof. intros H. unfold bind, and_then. rewrite H. reflexivity. Qed.

Lemma bind_raise (m : M A) (k : A -> M B) w e :
  outcome (m w) = Py.Raise e ->
  bind m k w =
    {| after := after (m w); effects := effects (m w);
       outcome := Py.Raise e |}.
Proof. intros H. unfold bind, and_then. rewrite H. reflexivity. Qed.

(** A step that returns without effect and leaves the world alone. *)
Lemma bind_pure (m : M A) (k : A -> M B) w a :
  m w = ret a w -> bind m k w = k a w.
Proof.
  intros H. unfold bind, and_then. rewrite H. cbn. apply run_eta.
Qed.

Lemma bind_lift (r : Py.result A) (k : A -> M B) w a :
  r = Py.Ok a -> bind (lift r) k w = k a w.
Proof. intros ->. apply bind_pure. reflexivity. Qed.

Lemma bind_lift_raise (r : Py.result A) (k : A -> M B) w e :
  r = Py.Raise e -> bind (lift r) k w = raise e w.
Proof. intros ->. reflexivity. Qed.

End Monad.

Lemma bind_emit {B} (e : effect) (k : unit -> M B) w :
  bind (emit e) k w =
    {| after := after (k tt w); effects := e :: effects (k tt w);
       outcome := outcome (k tt w) |}.
Proof. reflexivity. Qed.

(** ** Publisher registry *)

Section Registry.
Implicit Types (w : World) (p : Publisher) (n : string).

Lemma get_or_create_found t raw w p :
  topic_publishers w !! sanitize_topic_name raw = Some p ->
  get_or_create_publisher t raw w = ret p w.
Proof.
  intros H. unfold get_or_create_publisher, bind, and_then, publishers.
  cbn. rewrite H. cbn. rewrite H. reflexivity.
Qed.

Lemma get_or_create_fresh t raw w :
  topic_publishers w !! sanitize_topic_name raw = None ->
  let n := sanitize_topic_name raw in
  let p := {| pub_serial := serial w; pub_type := t;
              pub_topic := n; pub_depth := 10 |} in
  get_or_create_publisher t raw w =
    {| after := {| topic_publishers := <[n := p]> (topic_publishers w);
                   serial := S (serial w) |};
       effects := [CreatePublisher p; Log Info (CreatedPublisher n)];
       outcome := Py.Ok p |}.
Proof.
  intros H. unfold get_or_create_publisher, bind, and_then, publishers.
  cbn. rewrite H. cbn. rewrite lookup_insert_eq. reflexivity.
Qed.

End Registry.

(** ** The dictionary only grows *)

Section Grows.

Lemma created_app e1 e2 : created (e1 ++ e2) = created e1 ++ created e2.
Proof. apply omap_app. Qed.

Lemma announced_app e1 e2 : announced (e1 ++ e2) = announced e1 ++ announced e2.
Proof. apply omap_app. Qed.

Lemma grown_refl w : grown w w [].
Proof.
  split; cbn; try done.
  - intros n p H1 H2. congruence.
  - intros p H. by apply elem_of_nil in H.
  - constructor.
Qed.

Lemma grown_trans w w1 w2 e1 e2 :
  grown w w1 e1 -> grown w1 w2 e2 -> grown w w2 (e1 ++ e2).
Proof.
  intros G1 G2. split.
  - intros n p H. by apply (kept _ _ _ G2), (kept _ _ _ G1).
  - intros n p Hn H2. rewrite created_app, elem_of_app.
    destruct (topic_publishers w1 !! n) as [q|] eqn:E.
    + pose proof (kept _ _ _ G2 _ _ E) as H2'.
      assert (q = p) as -> by congruence.
      destruct (added _ _ _ G1 _ _ Hn E). auto.
    + destruct (added _ _ _ G2 _ _ E H2). auto.
  - intros p. rewrite created_app, elem_of_app. intros [H|H].
    + destruct (fresh _ _ _ G1 _ H) as [Ha Hb]. split; [done|].
      by apply (kept _ _ _ G2).
    + destruct (fresh _ _ _ G2 _ H) as [Ha Hb]. split; [|done].
      destruct (topic_publishers w !! pub_topic p) as [q|] eqn:E; [|done].
      apply (kept _ _ _ G1) in E. congruence.
  - rewrite created_app, fmap_app. apply NoDup_app.
    split; [apply (once _ _ _ G1)|]. split; [|apply (once _ _ _ G2)].
    intros n [p1 [-> H1]]%list_elem_of_fmap [p2 [E H2]]%list_elem_of_fmap.
    destruct (fresh _ _ _ G1 _ H1) as [_ Hb].
    destruct (fresh _ _ _ G2 _ H2) as [Ha _].
    rewrite <- E in Ha. congruence.
  - rewrite announced_app, created_app, fmap_app.
    by rewrite (told _ _ _ G1), (told _ _ _ G2).
Qed.

Lemma grows_ret {A} (a : A) : grows (ret a).
Proof. intros w. apply grown_refl. Qed.

Lemma grows_raise {A} e : grows (@raise A e).
Proof. intros w. apply grown_refl. Qed.

Lemma grows_lift {A} (r : Py.result A) : grows (lift r).
Proof. intros w. apply grown_refl. Qed.

Lemma grows_bind {A B} (m : M A) (k : A -> M B) :
  grows m -> (forall a, grows (k a)) -> grows (bind m k).
Proof.
  intros Hm Hk w. unfold bind, and_then.
  destruct (outcome (m w)) as [a|e] eqn:E; cbn.
  - eapply grown_trans; [apply Hm | apply Hk].
  - apply Hm.
Qed.

Lemma grows_try {A} (m : M A) (h : Py.exn -> M A) :
  grows m -> (forall e, grows (h e)) -> grows (try_except m h).
Proof.
  intros Hm Hh w. unfold try_except.
  destruct (outcome (m w)) as [a|e] eqn:E; cbn.
  - apply Hm.
  - eapply grown_trans; [apply Hm | apply Hh].
Qed.

Lemma grows_try_only {A} caught (m h : M A) :
  grows m -> grows h -> grows (try_except_only caught m h).
Proof.
  intros Hm Hh w. unfold try_except_only.
  destruct (outcome (m w)) as [a|e] eqn:E; cbn.
  - apply Hm.
  - destruct (caught e); [ | apply Hm].
    eapply grown_trans; [apply Hm | apply Hh].
Qed.

Lemma grows_when b (m : M unit) : grows m -> grows (when b m).
Proof. intros Hm. destruct b; [exact Hm | apply grows_ret]. Qed.

Lemma grows_for_each {A} (l : list A) (body : A -> M unit) :
  (forall a, grows (body a)) -> grows (for_each l body).
Proof.
  intros Hb. induction l as [|a l IH]; cbn.
  - apply grows_ret.
  - apply grows_bind; [apply Hb | intros _; exact IH].
Qed.

Lemma grows_emit e :
  (forall p, e <> CreatePublisher p) ->
  (forall n, e <> Log Info (CreatedPublisher n)) ->
  grows (emit e).
Proof.
  intros H1 H2 w. cbn.
  assert (created [e] = []) as Hc.
  { destruct e; try reflexivity. by destruct (H1 p). }
  assert (announced [e] = []) as Ha.
  { destruct e as [| |l r| |]; try reflexivity.
    destruct l, r; try reflexivity. by destruct (H2 topic_name). }
  split; rewrite ?Hc, ?Ha; try done.
  - intros n p ??. congruence.
  - intros p H. by apply elem_of_nil in H.
  - constructor.
Qed.

Lemma grows_get_or_create t raw : grows (get_or_create_publisher t raw).
Proof.
  intros w.
  destruct (topic_publishers w !! sanitize_topic_name raw) as [p|] eqn:E.
  - rewrite (get_or_create_found _ _ _ _ E). apply grown_refl.
  - rewrite (get_or_create_fresh _ _ _ E). cbn.
    set (n := sanitize_topic_name raw) in *.
    set (p := Build_Publisher _ _ _ _).
    split; cbn.
    + intros n' q H. rewrite lookup_insert_ne; [done|].
      intros <-. congruence.
    + intros n' q Hn. destruct (decide (n = n')) as [<-|Hne].
      * rewrite lookup_insert_eq. intros [= <-].
        split; [apply list_elem_of_here | done].
      * rewrite lookup_insert_ne by done. congruence.
    + intros q ->%list_elem_of_singleton. cbn.
      split; [done | apply lookup_insert_eq].
    + apply NoDup_singleton.
    + reflexivity.
Qed.

End Grows.

Lemma initial_registry_ok : registry_ok initial.
Proof. intros n p H. cbn in H. rewrite lookup_empty in H. discriminate. Qed.

Lemma registry_ok_grown w w' effs :
  registry_ok w -> grown w w' effs -> registry_ok w'.
Proof.
  intros Hw G n p H.
  destruct (topic_publishers w !! n) as [q|] eqn:E.
  - pose proof (kept _ _ _ G _ _ E) as H'.
    assert (q = p) as -> by congruence. by apply Hw.
  - by destruct (added _ _ _ G _ _ E H).
Qed.

Create HintDb grows.
#[export] Hint Resolve grows_ret grows_raise grows_lift grows_bind grows_try
  grows_try_only grows_when grows_for_each grows_get_or_create : grows.

Ltac grows_emit := apply grows_emit; intros; discriminate.

Ltac grows_step :=
  match goal with
  | |- grows (bind _ _) => apply grows_bind; [ | intros ? ]
  | |- grows (when _ _) => apply grows_when
  | |- grows (try_except _ _) => apply grows_try; [ | intros ? ]
  | |- grows (try_except_only _ _ _) => apply grows_try_only
  | |- grows (for_each _ _) => apply grows_for_each; intros [? ?]
  | |- grows (lift _) => apply grows_lift
  | |- grows (ret _) => apply grows_ret
  | |- grows (raise _) => apply grows_raise
  | |- grows (get_or_create_publisher _ _) => apply grows_get_or_create
  | |- grows (emit _) => grows_emit
  | |- grows (log _ _) => grows_emit
  | |- grows (sleep _) => grows_emit
  | |- grows (publish _ _) => grows_emit
  | |- grows (if ?b then _ else _) => destruct b
  | |- grows (match ?x with _ => _ end) => destruct x
  end.

Section GrowsNode.
Variable debug : bool.
Variable str_of_object : Py.value -> string.
Variable json_dumps : Py.value -> Py.result string.
Variable json_loads : string -> Py.result Py.value.
Variable sse_url : string.

Lemma grows_send t thing_id suffix m :
  grows (send str_of_object t thing_id suffix m).
Proof. unfold send. repeat grows_step. Qed.

Lemma grows_float_at o k : grows (float_at o k).
Proof. unfold float_at. repeat grows_step. Qed.

Lemma grows_int_at o k : grows (int_at o k).
Proof. unfold int_at. repeat grows_step. Qed.

Lemma grows_on_feature features name body :
  (forall props, grows (body props)) ->
  grows (on_feature features name body).
Proof. intros H. unfold on_feature. repeat grows_step. apply H. Qed.

Ltac grows_route :=
  repeat first
    [ apply grows_send | apply grows_float_at | apply grows_int_at
    | apply grows_on_feature; intros ?
    | grows_step ].

Lemma grows_debug_dump line thing :
  grows (debug_dump debug json_dumps line thing).
Proof. unfold debug_dump. repeat grows_step. Qed.

Lemma grows_route_thing thing :
  grows (route debug str_of_object json_dumps thing).
Proof.
  unfold route, location_branch, temperature_branch, traffic_light_branch,
    humidity_branch, pressure_branch, imu_branch, alerts_branch,
    relationships_branch, status_branch, environment_branch, traffic_branch,
    crop_branch, water_branch, energy_branch, production_branch.
  repeat first [apply grows_debug_dump | grows_route].
Qed.

Lemma grows_process_thing thing :
  grows (process_thing debug str_of_object json_dumps thing).
Proof.
  unfold process_thing. apply grows_try.
  - apply grows_route_thing.
  - intros e. repeat first [apply grows_debug_dump | grows_step].
Qed.

Lemma grows_on_event event :
  grows (on_event debug str_of_object json_dumps json_loads event).
Proof.
  unfold on_event. repeat first [apply grows_process_thing | grows_step].
Qed.

Lemma grows_consume events :
  grows (consume debug str_of_object json_dumps json_loads events).
Proof.
  induction events as [|e|event rest IH]; cbn.
  - apply grows_ret.
  - apply grows_raise.
  - apply grows_bind; [apply grows_on_event | intros _; exact IH].
Qed.

Lemma grows_turn r :
  grows (turn debug str_of_object json_dumps json_loads sse_url r).
Proof.
  unfold turn, attempt.
  repeat first [apply grows_consume | grows_step].
Qed.

Lemma grows_subscribe script :
  grows
    (subscribe_to_changes debug str_of_object json_dumps json_loads sse_url
       script).
Proof.
  induction script as [|r rest IH]; cbn.
  - apply grows_ret.
  - destruct (ok r); [ | apply grows_ret].
    apply grows_bind; [apply grows_turn | intros _; exact IH].
Qed.

(** In every world the worker can reach, the entries of the dictionary
    sit under their topics. *)
Lemma worker_registry_ok script :
  registry_ok
    (after (subscribe_to_changes debug str_of_object json_dumps json_loads
              sse_url script initial)).
Proof.
  eapply registry_ok_grown; [apply initial_registry_ok | apply grows_subscribe].
Qed.

End GrowsNode.

Section RegistryClaims.

Lemma get_or_create_returns t raw w :
  exists p,
    outcome (get_or_create_publisher t raw w) = Py.Ok p
    /\ topic_publishers (after (get_or_create_publisher t raw w))
         !! sanitize_topic_name raw = Some p.
Proof.
  destruct (topic_publishers w !! sanitize_topic_name raw) as [p|] eqn:E.
  - exists p. rewrite (get_or_create_found _ _ _ _ E). done.
  - rewrite (get_or_create_fresh _ _ _ E). cbn.
    eexists. split; [reflexivity | apply lookup_insert_eq].
Qed.

Lemma serve_cons c calls w :
  serve (c :: calls) w =
    and_then (get_or_create_publisher c.1 c.2 w) (fun _ => serve calls).
Proof.
  unfold serve. cbn [for_each]. unfold bind.
  destruct (get_or_create_publisher c.1 c.2 w) as [w1 e1 [p|x]];
    unfold and_then; cbn; rewrite ?app_nil_r; reflexivity.
Qed.

(** A line announces a topic exactly when the topic was asked for and had
    no publisher at the start. *)
Lemma serve_announced calls : forall w n,
  n ∈ announced (effects (serve calls w)) <->
  n ∈ (fun c => sanitize_topic_name c.2) <$> calls
  /\ topic_publishers w !! n = None.
Proof.
  induction calls as [|c calls IH]; intros w n.
  - cbn. rewrite !elem_of_nil. tauto.
  - rewrite serve_cons, fmap_cons, elem_of_cons.
    destruct (topic_publishers w !! sanitize_topic_name c.2) as [p|] eqn:E.
    + rewrite (get_or_create_found _ _ _ _ E). cbn. rewrite IH.
      split; [tauto|]. intros [[->|H] Hn]; [congruence | tauto].
    + rewrite (get_or_create_fresh _ _ _ E). cbn.
      rewrite elem_of_cons, IH. cbn.
      destruct (decide (n = sanitize_topic_name c.2)) as [->|Hne].
      * tauto.
      * rewrite lookup_insert_ne by done. tauto.
Qed.

Lemma grows_serve calls : grows (serve calls).
Proof.
  unfold serve. auto with grows.
Qed.

End RegistryClaims.

(** C5. Asked twice for the same raw topic, the registry returns the same
    publisher object both times, and the second request changes nothing and
    has no effect, whatever class it names; over any series of requests to
    a new node one log line announces each distinct sanitized topic, no more
    and no less; and whatever the node runs, a request or the whole worker,
    the dictionary keeps every entry as it was, gets new entries only by
    the creation of a publisher for a topic that had none, and no topic
    gets two publishers. *)
Theorem registry_one_publisher_per_topic :
  (forall t1 t2 raw w,
      exists p,
        outcome (get_or_create_publisher t1 raw w) = Py.Ok p
        /\ let w1 := after (get_or_create_publisher t1 raw w) in
           get_or_create_publisher t2 raw w1 = ret p w1)
  /\ (forall calls,
        let effs := effects (serve calls initial) in
        NoDup (announced effs)
        /\ forall n, n ∈ announced effs <->
                     n ∈ (fun c => sanitize_topic_name c.2) <$> calls)
  /\ (forall t raw, grows (get_or_create_publisher t raw))
  /\ (forall debug str_of_object json_dumps json_loads sse_url script,
        grows (subscribe_to_changes debug str_of_object json_dumps json_loads
                 sse_url script)).
Proof.
  split; [ | split; [ | split]].
  - intros t1 t2 raw w.
    destruct (get_or_create_returns t1 raw w) as (p & Hp & Hl).
    exists p. split; [exact Hp|]. cbn. by apply get_or_create_found.
  - intros calls effs. split.
    + unfold effs. rewrite (told _ _ _ (grows_serve calls initial)).
      apply (once _ _ _ (grows_serve calls initial)).
    + intros n. unfold effs. rewrite serve_announced. cbn.
      rewrite lookup_empty. tauto.
  - apply grows_get_or_create.
  - apply grows_subscribe.
Qed.

(** ** Stream decoder *)

Section Decoder.

Lemma append_cons c (s t : string) :
  (String c s ++ t)%string = String c (s ++ t)%string.
Proof. reflexivity. Qed.

Lemma append_nil (t : string) : (EmptyString ++ t)%string = t.
Proof. reflexivity. Qed.

Lemma append_assoc (s t u : string) :
  ((s ++ t) ++ u)%string = (s ++ (t ++ u))%string.
Proof.
  induction s as [|c s IH]; [reflexivity|].
  rewrite !append_cons, IH. reflexivity.
Qed.

Lemma nonempty_append_LF (s : string) : nonempty (s ++ LF)%string = true.
Proof. destruct s; reflexivity. Qed.

Lemma sse_parse_block block : forall buffer rest,
  Forall (fun l => blank l = false) block ->
  sse_parse_from buffer (gen_app (Utf8 <$> block) rest) =
  sse_parse_from (buffer ++ joined block)%string rest.
Proof.
  induction block as [|l block IH]; intros buffer rest H.
  - cbn. replace (buffer ++ EmptyString)%string with buffer; [done|].
    clear. induction buffer as [|c b IHb]; [done|].
    rewrite append_cons, <- IHb. done.
  - apply Forall_cons in H as [Hl H].
    cbn [fmap list_fmap gen_app sse_parse_from decode].
    unfold blank in Hl. apply negb_false_iff in Hl. rewrite Hl.
    rewrite (IH _ _ H). cbn [joined fold_right].
    rewrite !append_assoc. reflexivity.
Qed.

Lemma split_line (s rest : string) :
  one_line s = true ->
  Py.split "010" (s ++ LF ++ rest)%string = s :: Py.split "010" rest.
Proof.
  induction s as [|c s IH]; intros H.
  - reflexivity.
  - cbn in H. apply andb_prop in H as [Hc Hs].
    rewrite append_cons. cbn [Py.split].
    apply negb_true_iff in Hc. rewrite Hc, (IH Hs). reflexivity.
Qed.

Lemma split_joined block :
  Forall (fun l => one_line (Py.strip l) = true) block ->
  Py.split "010" (joined block) = (Py.strip <$> block) ++ [EmptyString].
Proof.
  induction block as [|l block IH]; intros H.
  - reflexivity.
  - apply Forall_cons in H as [Hl H]. cbn [joined fold_right].
    rewrite (split_line _ _ Hl). fold (joined block).
    rewrite (IH H). reflexivity.
Qed.

Lemma parse_lines_fields lines :
  parse_lines lines = event_of (fields lines).
Proof.
  unfold parse_lines, event_of. generalize (∅ : gmap string string).
  induction lines as [|l lines IH]; intros acc; [reflexivity|].
  cbn [fold_left fields omap list_omap].
  destruct (Py.split_once ":" l) as [[k v]|]; cbn; apply IH.
Qed.

Lemma fields_app l1 l2 : fields (l1 ++ l2) = fields l1 ++ fields l2.
Proof. apply omap_app. Qed.

Lemma fold_insert_nonempty (kvs : list (string * string)) :
  forall acc : gmap string string,
    acc <> ∅ ->
    fold_left (fun event kv => <[kv.1 := kv.2]> event) kvs acc <> ∅.
Proof.
  induction kvs as [|kv kvs IH]; intros acc H; [exact H|].
  cbn. apply IH, insert_non_empty.
Qed.

Lemma event_of_empty kvs : event_of kvs = ∅ <-> kvs = [].
Proof.
  split; [ | intros ->; reflexivity].
  destruct kvs as [|kv kvs]; [done|]. intros H. exfalso.
  unfold event_of in H. cbn [fold_left] in H.
  revert H. apply fold_insert_nonempty, insert_non_empty.
Qed.

Lemma sse_parse_tail tail : forall buffer,
  Forall (fun l => blank l = false) tail ->
  sse_parse_from buffer (gen_of_list (Utf8 <$> tail)) = Done.
Proof.
  intros buffer H. unfold gen_of_list. rewrite sse_parse_block by done.
  reflexivity.
Qed.

Lemma sse_parse_trailing content tail : forall buffer,
  Forall (fun l => blank l = false) tail ->
  sse_parse_from buffer (gen_of_list (content ++ (Utf8 <$> tail))) =
  sse_parse_from buffer (gen_of_list content).
Proof.
  intros buffer H. revert buffer.
  induction content as [|line content IH]; intros buffer.
  - cbn [app]. by rewrite sse_parse_tail.
  - unfold gen_of_list in *. cbn [app gen_app sse_parse_from].
    destruct (decode line) as [text|e]; [ | reflexivity].
    destruct (nonempty (Py.strip text)); [apply IH|].
    destruct (nonempty buffer); [ | apply IH].
    cbn zeta. case_bool_decide; [f_equal|]; apply IH.
Qed.

End Decoder.

(** C3, as the code has it. After a run of lines none of which is blank
    and none of which holds a line feed, read into an empty buffer, a blank
    line makes the decoder yield one event when at least one of the lines
    has a colon, and none when no line has one. The event holds the key and
    the value of each line with a colon, split at its first colon and both
    stripped, a later line overriding an earlier one with the same key;
    lines without a colon leave no trace. Either way the decoder goes on
    with an empty buffer. *)
Theorem blank_line_yields_event_of_fields block line rest :
  Forall (fun l => blank l = false /\ one_line (Py.strip l) = true) block ->
  blank line = true ->
  sse_parse (gen_app (Utf8 <$> block ++ [line]) rest) =
    match fields (Py.strip <$> block) with
    | [] => sse_parse rest
    | kvs => Yield (event_of kvs) (sse_parse rest)
    end.
Proof.
  intros H Hline. unfold sse_parse.
  rewrite fmap_app. cbn [fmap list_fmap].
  assert (Hb : Forall (fun l => blank l = false) block).
  { eapply Forall_impl; [exact H | cbn; tauto]. }
  assert (Ho : Forall (fun l => one_line (Py.strip l) = true) block).
  { eapply Forall_impl; [exact H | cbn; tauto]. }
  replace (gen_app ((Utf8 <$> block) ++ [Utf8 line]) rest)
    with (gen_app (Utf8 <$> block) (Yield (Utf8 line) rest)).
  2:{ clear. induction block as [|l b IH]; [reflexivity|]. cbn. by rewrite IH. }
  rewrite (sse_parse_block _ _ _ Hb), append_nil.
  cbn [sse_parse_from decode].
  unfold blank in Hline. apply negb_true_iff in Hline. rewrite Hline.
  destruct block as [|l block].
  - reflexivity.
  - assert (nonempty (joined (l :: block)) = true) as ->.
    { cbn [joined fold_right]. destruct (Py.strip l); reflexivity. }
    cbn zeta. rewrite (split_joined _ Ho), parse_lines_fields, fields_app.
    cbn [fields omap list_omap Py.split_once]. rewrite app_nil_r.
    fold (fields (Py.strip <$> l :: block)).
    destruct (fields (Py.strip <$> l :: block)) as [|kv kvs] eqn:E.
    + rewrite bool_decide_eq_false_2; [reflexivity|]. intros Hne. by apply Hne.
    + rewrite bool_decide_eq_true_2; [reflexivity|].
      intros He. by apply event_of_empty in He.
Qed.

(** C3 as it is stated fails: a blank line arrives, the buffer holds the
    line [hello], and no event is yielded. *)
Lemma blank_line_without_colon_yields_nothing :
  sse_parse_from ("hello" ++ LF)%string (gen_of_list [Utf8 EmptyString]) = Done
  /\ sse_parse (gen_of_list [Utf8 "hello"; Utf8 EmptyString]) = Done.
Proof. split; vm_compute; reflexivity. Qed.

Lemma blank_line_yields_event_of_fields_witness :
  sse_parse (gen_app (Utf8 <$> ["id: 1"; "retry"; "id : 2 "] ++ [" "])
               (gen_of_list [Utf8 "nothing"; Utf8 EmptyString; Utf8 "a:b"])) =
  Yield (<["id" := "2"]> ∅) Done.
Proof.
  rewrite (blank_line_yields_event_of_fields ["id: 1"; "retry"; "id : 2 "] " ").
  - vm_compute. reflexivity.
  - repeat constructor.
  - reflexivity.
Defined.

(** C4. Fed the six lines [id: 1], [data: {"a":1}], an empty line,
    [id: 2], [data: {}] and an empty line, the decoder yields the event with
    id 1 and data [{"a":1}] and then the event with id 2 and data [{}], and
    nothing else; and lines after the last blank line, up to the end of the
    stream, add no event to those of the stream without them. *)
Theorem sse_parse_two_events_and_no_partial_event :
  sse_parse
    (gen_of_list
       (Utf8 <$> ["id: 1"; ("data: {" ++ dq ++ "a" ++ dq ++ ":1}")%string;
                  EmptyString; "id: 2"; "data: {}"; EmptyString])) =
    Yield (<["id" := "1"]> (<["data" := ("{" ++ dq ++ "a" ++ dq ++ ":1}")%string]> ∅))
      (Yield (<["id" := "2"]> (<["data" := "{}"]> ∅)) Done)
  /\ forall content tail,
       Forall (fun l => blank l = false) tail ->
       sse_parse (gen_of_list (content ++ (Utf8 <$> tail))) =
       sse_parse (gen_of_list content).
Proof.
  split.
  - vm_compute. reflexivity.
  - intros content tail H. apply sse_parse_trailing, H.
Qed.

Lemma sse_parse_two_events_and_no_partial_event_witness :
  sse_parse (gen_of_list ([Utf8 "id: 1"; Utf8 EmptyString]
                            ++ (Utf8 <$> ["id: 2"; "data: {}"]))) =
  Yield (<["id" := "1"]> ∅) Done.
Proof.
  rewrite (proj2 sse_parse_two_events_and_no_partial_event
             [Utf8 "id: 1"; Utf8 EmptyString] ["id: 2"; "data: {}"]).
  - vm_compute. reflexivity.
  - repeat constructor.
Defined.

(** ** Feature router *)

Section TryExcept.
Context {A : Type}.

Lemma try_ok (m : M A) (h : Py.exn -> M A) w a :
  outcome (m w) = Py.Ok a -> try_except m h w = m w.
Proof. intros H. unfold try_except. rewrite H. reflexivity. Qed.

Lemma try_raise (m : M A) (h : Py.exn -> M A) w e :
  outcome (m w) = Py.Raise e ->
  try_except m h w =
    {| after := after (h e (after (m w)));
       effects := effects (m w) ++ effects (h e (after (m w)));
       outcome := outcome (h e (after (m w))) |}.
Proof. intros H. unfold try_except. rewrite H. reflexivity. Qed.

End TryExcept.

Lemma published_app e1 e2 :
  published (e1 ++ e2) = published e1 ++ published e2.
Proof. apply omap_app. Qed.

Section Router.
Import Py Msg.
Variable debug : bool.
Variable str_of_object : value -> string.
Variable json_dumps : value -> Py.result string.

Abbreviation post := (send str_of_object).
Abbreviation routed := (route debug str_of_object json_dumps).
Abbreviation process := (process_thing debug str_of_object json_dumps).

Lemma registry_ok_insert w n p :
  registry_ok w -> pub_topic p = n ->
  registry_ok {| topic_publishers := <[n := p]> (topic_publishers w);
                 serial := S (serial w) |}.
Proof.
  intros Hw Hp n' q. cbn. destruct (decide (n = n')) as [<-|Hne].
  - rewrite lookup_insert_eq. intros [= <-]. exact Hp.
  - rewrite lookup_insert_ne by done. apply Hw.
Qed.

(** One [post]: no exception, one message published, on the sanitized
    topic. *)
Lemma send_run t thing_id suffix m w :
  registry_ok w ->
  let n :=
    sanitize_topic_name
      (format str_of_object thing_id ++ "/" ++ suffix)%string in
  outcome (post t thing_id suffix m w) = Ok tt
  /\ published (effects (post t thing_id suffix m w)) = [(n, m)]
  /\ registry_ok (after (post t thing_id suffix m w)).
Proof.
  intros Hw n. unfold send. fold n. unfold bind, and_then.
  destruct (topic_publishers w !! n) as [p|] eqn:E.
  - rewrite (get_or_create_found _ _ _ _ E). cbn.
    rewrite (Hw _ _ E). done.
  - rewrite (get_or_create_fresh _ _ _ E). cbn.
    split; [done|]. split; [done|]. by apply registry_ok_insert.
Qed.

Lemma send_ok t thing_id suffix m w :
  outcome (post t thing_id suffix m w) = Ok tt.
Proof.
  unfold send, bind, and_then.
  destruct (get_or_create_returns t
              (format str_of_object thing_id ++ "/" ++ suffix)%string w)
    as (p & -> & _).
  reflexivity.
Qed.

Lemma on_feature_absent features name body w :
  has name features = Ok false ->
  on_feature features name body w = ret tt w.
Proof.
  intros H. unfold on_feature. rewrite (bind_lift _ _ _ _ H). reflexivity.
Qed.

Lemma on_feature_present features name body w feature props :
  has name features = Ok true ->
  getitem features name = Ok feature ->
  get feature "properties" (VDict []) = Ok props ->
  on_feature features name body w = body props w.
Proof.
  intros H1 H2 H3. unfold on_feature. rewrite (bind_lift _ _ _ _ H1).
  cbn [when]. rewrite (bind_lift _ _ _ _ H2), (bind_lift _ _ _ _ H3).
  reflexivity.
Qed.

(** A step with effects, followed by steps that return without any. *)
Lemma bind_then_pure {A B} (m : M A) (k : A -> M B) w a b :
  outcome (m w) = Ok a ->
  (forall w', k a w' = ret b w') ->
  bind m k w =
    {| after := after (m w); effects := effects (m w); outcome := Ok b |}.
Proof.
  intros H Hk. rewrite (bind_ok _ _ _ _ H), Hk. cbn.
  rewrite app_nil_r. reflexivity.
Qed.

Lemma when_debug_log r {B} (k : unit -> M B) w :
  bind (when debug (log Debug r)) k w =
    {| after := after (k tt w);
       effects := (if debug then [Log Debug r] else []) ++ effects (k tt w);
       outcome := outcome (k tt w) |}.
Proof.
  destruct debug; cbn; [reflexivity | ]. unfold bind, and_then. reflexivity.
Qed.

(** A debug line that shows a payload: the line is written when the
    payload can be dumped, and the exception of [json.dumps] is raised
    when it cannot. *)
Lemma debug_dump_run line thing w :
  debug_dump debug json_dumps line thing w =
    {| after := w;
       effects := dump_line debug json_dumps line thing;
       outcome := dump_result debug json_dumps thing |}.
Proof.
  unfold debug_dump, dump_line, dump_result. destruct debug; [ | reflexivity].
  cbn [when]. unfold bind, and_then, lift. cbn.
  destruct (json_dumps thing); reflexivity.
Qed.

Lemma debug_dump_ok line thing w :
  shown debug json_dumps thing ->
  outcome (debug_dump debug json_dumps line thing w) = Ok tt.
Proof.
  intros H. rewrite debug_dump_run. cbn. unfold shown in H.
  unfold dump_result. destruct debug; [ | reflexivity].
  destruct (H eq_refl) as [dump ->]. reflexivity.
Qed.

Lemma debug_dump_raise line thing e w :
  debug = true -> json_dumps thing = Raise e ->
  debug_dump debug json_dumps line thing w = raise e w.
Proof.
  intros Hd He. rewrite debug_dump_run. unfold dump_line, dump_result.
  rewrite Hd, He. reflexivity.
Qed.

Lemma debug_dump_shown line thing {B} (k : unit -> M B) w :
  shown debug json_dumps thing ->
  bind (debug_dump debug json_dumps line thing) k w =
    {| after := after (k tt w);
       effects := dump_line debug json_dumps line thing ++ effects (k tt w);
       outcome := outcome (k tt w) |}.
Proof.
  intros H. unfold bind, and_then.
  rewrite (debug_dump_ok line thing w H). rewrite debug_dump_run.
  reflexivity.
Qed.

Lemma published_dump_line line thing :
  published (dump_line debug json_dumps line thing) = [].
Proof.
  unfold dump_line. destruct debug; [ | reflexivity].
  destruct (json_dumps thing); reflexivity.
Qed.

End Router.

Lemma bind_assoc {A B C} (m : M A) (f : A -> M B) (g : B -> M C) w :
  bind (bind m f) g w = bind m (fun x => bind (f x) g) w.
Proof.
  unfold bind, and_then.
  destruct (m w) as [w1 e1 [a|e]]; cbn; [ | reflexivity].
  destruct (f a w1) as [w2 e2 [b|e]]; cbn; [ | reflexivity].
  by rewrite app_assoc.
Qed.

Section Features.
Import Py.
Context {B : Type}.
Variable str_of_object : value -> string.

Lemma bind_ret {A} (a : A) (k : A -> M B) w : bind (ret a) k w = k a w.
Proof. by apply bind_pure. Qed.

Lemma bind_float_at o key (k : spec_float -> M B) w :
  bind (float_at o key) k w =
  bind (lift (get o key (VFloat zero)))
    (fun v => bind (lift (float_ v)) k) w.
Proof. unfold float_at. apply bind_assoc. Qed.

Lemma bind_int_at o key (k : Z -> M B) w :
  bind (int_at o key) k w =
  bind (lift (get o key (VInt 0))) (fun v => bind (lift (int_ v)) k) w.
Proof. unfold int_at. apply bind_assoc. Qed.

Lemma bind_feature_absent features name body (k : unit -> M B) w :
  has name features = Ok false ->
  bind (on_feature features name body) k w = k tt w.
Proof. intros H. apply bind_pure. by apply on_feature_absent. Qed.

Lemma bind_feature_present features name body (k : unit -> M B) w
    feature props :
  has name features = Ok true ->
  getitem features name = Ok feature ->
  get feature "properties" (VDict []) = Ok props ->
  bind (on_feature features name body) k w = bind (body props) k w.
Proof.
  intros H1 H2 H3. unfold bind.
  by rewrite (on_feature_present _ _ _ _ _ _ H1 H2 H3).
Qed.

End Features.

(** Running the router on a payload whose shape is known: pure steps are
    evaluated, the steps with effects are left standing. *)
Ltac lift_step :=
  match goal with
  | |- context [bind (lift ?r) ?k ?w] =>
      let v := eval cbn in r in
      lazymatch v with
      | Py.Ok ?a => rewrite (bind_lift r k w a eq_refl)
      | Py.Raise ?e => rewrite (bind_lift_raise r k w e eq_refl)
      | _ =>
          let h := eval hnf in r in
          lazymatch h with
          | Py.Ok _ =>
              let v' := eval vm_compute in r in
              lazymatch v' with
              | Py.Ok ?a => rewrite (bind_lift r k w a eq_refl)
              end
          | Py.Raise ?e => rewrite (bind_lift_raise r k w e eq_refl)
          end
      end
  end.

Ltac feature_step :=
  match goal with
  | |- context [bind (on_feature ?f ?name ?body) ?k ?w] =>
      let h := eval cbn in (Py.has name f) in
      lazymatch h with
      | Py.Ok false => rewrite (bind_feature_absent f name body k w eq_refl)
      | Py.Ok true =>
          let x := eval cbn in (Py.getitem f name) in
          lazymatch x with
          | Py.Ok ?feature =>
              let y := eval cbn in (Py.get feature "properties" (Py.VDict [])) in
              lazymatch y with
              | Py.Ok ?props =>
                  rewrite (bind_feature_present f name body k w feature props
                             eq_refl eq_refl eq_refl)
              end
          end
      end
  | |- context [on_feature ?f ?name ?body ?w] =>
      let h := eval cbn in (Py.has name f) in
      lazymatch h with
      | Py.Ok false => rewrite (on_feature_absent f name body w eq_refl)
      | Py.Ok true =>
          let x := eval cbn in (Py.getitem f name) in
          lazymatch x with
          | Py.Ok ?feature =>
              let y := eval cbn in (Py.get feature "properties" (Py.VDict [])) in
              lazymatch y with
              | Py.Ok ?props =>
                  rewrite (on_feature_present f name body w feature props
                             eq_refl eq_refl eq_refl)
              end
          end
      end
  end.

Lemma bind_raise_now {A B} e (k : A -> M B) w : bind (raise e) k w = raise e w.
Proof. reflexivity. Qed.

(** The [try] block with its branches written out. *)
Ltac unfold_route :=
  unfold route, location_branch, temperature_branch, traffic_light_branch,
    humidity_branch, pressure_branch, imu_branch, alerts_branch,
    relationships_branch, status_branch, environment_branch, traffic_branch,
    crop_branch, water_branch, energy_branch, production_branch.

Ltac route_step :=
  first
    [ rewrite bind_ret
    | rewrite bind_raise_now
    | rewrite bind_float_at
    | rewrite bind_int_at
    | rewrite bind_assoc
    | lift_step
    | feature_step
    | progress cbn beta iota
    | progress cbn [when for_each] ].

Section RouterClaims.
Import Py Msg.
Variable debug : bool.
Variable str_of_object : value -> string.
Variable json_dumps : value -> Py.result string.

Abbreviation post := (send str_of_object).
Abbreviation routed := (route debug str_of_object json_dumps).
Abbreviation process := (process_thing debug str_of_object json_dumps).

Lemma route_temperature w :
  shown debug json_dumps temperature_payload ->
  routed temperature_payload w =
  let r := post TTemperature (VStr "org.x:dev1") "sensor/temperature"
             (OfTemperature {| temperature := f21_5 |}) w in
  {| after := after r;
     effects :=
       dump_line debug json_dumps ProcessingThing temperature_payload
       ++ effects r;
     outcome := Ok tt |}.
Proof.
  intros Hs. unfold_route.
  rewrite (debug_dump_shown _ _ _ _ _ _ Hs). cbn zeta.
  unfold temperature_payload.
  repeat route_step.
  rewrite (bind_then_pure _ _ _ tt tt (send_ok _ _ _ _ _ _)).
  - reflexivity.
  - intros w'. repeat route_step. reflexivity.
Qed.

Lemma route_water thing_id valve w :
  shown debug json_dumps (water_payload thing_id valve) ->
  routed (water_payload thing_id valve) w =
  let r := post TWaterManagement (VStr thing_id) "sensor/water"
             (OfWaterManagement
                {| water_level := f3_5; flow_rate := zero;
                   turbidity := zero; valve_status := bool_ valve |}) w in
  {| after := after r;
     effects :=
       dump_line debug json_dumps ProcessingThing
         (water_payload thing_id valve)
       ++ effects r;
     outcome := Ok tt |}.
Proof.
  intros Hs. unfold_route.
  rewrite (debug_dump_shown _ _ _ _ _ _ Hs). cbn zeta.
  unfold water_payload.
  repeat route_step.
  rewrite (bind_then_pure _ _ _ tt tt (send_ok _ _ _ _ _ _)).
  - reflexivity.
  - intros w'. repeat route_step. reflexivity.
Qed.

(** Where the payload can be shown, no exception leaves
    [process_thing]. *)
Lemma process_thing_ok thing w :
  shown debug json_dumps thing ->
  outcome (process thing w) = Ok tt.
Proof.
  intros Hs. unfold process_thing, try_except.
  destruct (outcome (route debug str_of_object json_dumps thing w))
    as [[]|e] eqn:E.
  - exact E.
  - cbn [outcome]. unfold bind, and_then. cbn.
    rewrite debug_dump_ok by exact Hs. reflexivity.
Qed.

(** A payload that the router gets through with one [post]. *)
Lemma one_send thing t thing_id suffix m pre w :
  routed thing w =
    (let r := post t thing_id suffix m w in
     {| after := after r; effects := pre ++ effects r; outcome := Ok tt |}) ->
  published pre = [] ->
  registry_ok w ->
  outcome (process thing w) = Ok tt
  /\ published (effects (process thing w)) =
     [(sanitize_topic_name
         (format str_of_object thing_id ++ "/" ++ suffix)%string, m)].
Proof.
  intros Hr Hpre Hw.
  unfold process_thing.
  rewrite (try_ok _ _ _ tt) by (rewrite Hr; reflexivity).
  split; [rewrite Hr; reflexivity|].
  rewrite Hr. cbn [effects]. rewrite published_app, Hpre.
  apply (send_run str_of_object t thing_id suffix m w Hw).
Qed.

End RouterClaims.

(** C6. On the payload with thing [org.x:dev1] and a temperature whose
    value is the text [21.5], the router publishes exactly once, on the topic
    [/org_x_dev1/sensor/temperature], a message whose field is the number
    21.5, the text coerced; this with [debug] off, and with [debug] on
    where [json.dumps] makes a text of the payload for the debug line. *)
Theorem temperature_published_once debug str_of_object json_dumps w :
  registry_ok w ->
  shown debug json_dumps temperature_payload ->
  let r :=
    process_thing debug str_of_object json_dumps temperature_payload w in
  outcome r = Py.Ok tt
  /\ published (effects r) =
     [("/org_x_dev1/sensor/temperature",
       Msg.OfTemperature {| Msg.temperature := f21_5 |})]
  /\ Py.float_ (Py.VStr "21.5") = Py.Ok f21_5
  /\ Py.float_of_decimal false 215 (-1) = f21_5.
Proof.
  intros Hw Hs r.
  destruct (one_send debug str_of_object json_dumps _ _ _ _ _ _ w
              (route_temperature debug str_of_object json_dumps w Hs)
              (published_dump_line debug json_dumps _ _) Hw) as [H1 H2].
  split; [exact H1|]. split; [exact H2|]. split; vm_compute; reflexivity.
Qed.

Lemma temperature_published_once_witness :
  published
    (effects (process_thing true (fun _ => EmptyString)
                (fun _ => Py.Ok "{...}") temperature_payload initial)) =
  [("/org_x_dev1/sensor/temperature",
    Msg.OfTemperature {| Msg.temperature := f21_5 |})].
Proof.
  exact (proj1 (proj2 (temperature_published_once true (fun _ => EmptyString)
                         (fun _ => Py.Ok "{...}") initial initial_registry_ok
                         (fun _ => ex_intro _ "{...}" eq_refl)))).
Defined.

(** C10. For the water feature the valve is taken by its truth value, not
    parsed: whatever object the payload has under [valve_open], the message
    published carries its truth value, so every text that is not empty,
    [false] included, gives a true valve status, and the number 0 and the
    empty text give a false one; the level, given as the text [3.5], is
    parsed to the number 3.5. This with [debug] off, and with [debug] on
    where [json.dumps] makes a text of the payload for the debug line. *)
Theorem water_valve_is_truth_value debug str_of_object json_dumps thing_id
    valve w :
  registry_ok w ->
  shown debug json_dumps (water_payload thing_id valve) ->
  let r :=
    process_thing debug str_of_object json_dumps
      (water_payload thing_id valve) w in
  outcome r = Py.Ok tt
  /\ published (effects r) =
     [(sanitize_topic_name (thing_id ++ "/sensor/water")%string,
       Msg.OfWaterManagement
         {| Msg.water_level := f3_5; Msg.flow_rate := Py.zero;
            Msg.turbidity := Py.zero; Msg.valve_status := Py.bool_ valve |})]
  /\ (forall s, s <> EmptyString -> Py.bool_ (Py.VStr s) = true)
  /\ Py.bool_ (Py.VStr "false") = true
  /\ Py.bool_ (Py.VInt 0) = false
  /\ Py.bool_ (Py.VStr EmptyString) = false
  /\ Py.float_ (Py.VStr "3.5") = Py.Ok f3_5
  /\ Py.float_of_decimal false 35 (-1) = f3_5.
Proof.
  intros Hw Hs r.
  destruct (one_send debug str_of_object json_dumps _ _ _ _ _ _ w
              (route_water debug str_of_object json_dumps thing_id valve w Hs)
              (published_dump_line debug json_dumps _ _) Hw) as [H1 H2].
  split; [exact H1|]. split; [exact H2|].
  split; [ | repeat split; vm_compute; reflexivity].
  intros [|c s] Hne; [by destruct Hne | reflexivity].
Qed.

Lemma water_valve_is_truth_value_witness :
  published
    (effects (process_thing true (fun _ => EmptyString)
                (fun _ => Py.Ok "{...}")
                (water_payload "farm:pump" (Py.VStr "false")) initial)) =
  [("/farm_pump/sensor/water",
    Msg.OfWaterManagement
      {| Msg.water_level := f3_5; Msg.flow_rate := Py.zero;
         Msg.turbidity := Py.zero; Msg.valve_status := true |})].
Proof.
  exact (proj1 (proj2 (water_valve_is_truth_value true (fun _ => EmptyString)
                         (fun _ => Py.Ok "{...}")
                         "farm:pump" (Py.VStr "false") initial
                         initial_registry_ok
                         (fun _ => ex_intro _ "{...}" eq_refl)))).
Defined.

Section FailureClaims.
Import Py Msg.
Variable debug : bool.
Variable str_of_object : value -> string.
Variable json_dumps : value -> Py.result string.
Variable json_loads : string -> Py.result value.

Abbreviation routed := (route debug str_of_object json_dumps).
Abbreviation process := (process_thing debug str_of_object json_dumps).
Abbreviation handle := (on_event debug str_of_object json_dumps json_loads).
Abbreviation drain := (consume debug str_of_object json_dumps json_loads).

(** When a step of the routing raises, the handler logs the exception and
    then shows the payload, which ends as [json.dumps] ends. *)
Lemma process_thing_raise thing w e :
  outcome (routed thing w) = Raise e ->
  after (process thing w) = after (routed thing w)
  /\ effects (process thing w) =
     effects (routed thing w)
     ++ Log Error (ErrorProcessing e)
        :: dump_line debug json_dumps ThingCausedError thing
  /\ outcome (process thing w) = dump_result debug json_dumps thing.
Proof.
  intros H. unfold process_thing.
  rewrite (try_raise _ _ _ _ H). unfold log. rewrite bind_emit.
  rewrite debug_dump_run. cbn. done.
Qed.

(** With [debug] on, a payload of which [json.dumps] makes no text stops
    the routing at its first line, and the exception that the handler
    meets when it formats the payload anew leaves [process_thing]. *)
Lemma route_dump_fails thing e w :
  debug = true -> json_dumps thing = Raise e ->
  routed thing w = raise e w.
Proof.
  intros Hd He. unfold route.
  rewrite (bind_raise _ _ _ e);
    rewrite (debug_dump_raise _ _ _ _ _ _ Hd He); reflexivity.
Qed.

Lemma process_thing_dump_fails thing e w :
  debug = true -> json_dumps thing = Raise e ->
  process thing w =
    {| after := w; effects := [Log Error (ErrorProcessing e)];
       outcome := Raise e |}.
Proof.
  intros Hd He.
  assert (outcome (routed thing w) = Raise e) as Hr
    by (rewrite (route_dump_fails _ _ _ Hd He); reflexivity).
  unfold process_thing. rewrite (try_raise _ _ _ _ Hr).
  rewrite (route_dump_fails _ _ _ Hd He).
  unfold log. rewrite bind_emit.
  rewrite (debug_dump_raise _ _ _ _ _ _ Hd He). reflexivity.
Qed.

(** An exception leaves [process_thing] in that one case only. *)
Lemma process_thing_outcome thing w :
  outcome (process thing w) = Ok tt
  \/ exists e,
       debug = true /\ json_dumps thing = Raise e
       /\ outcome (process thing w) = Raise e.
Proof.
  destruct debug eqn:Hd.
  - destruct (json_dumps thing) as [dump|e] eqn:He.
    + left. apply process_thing_ok. intros _. by exists dump.
    + right. exists e. split; [done|]. split; [done|].
      rewrite <- Hd in *.
      by rewrite (process_thing_dump_fails _ _ _ Hd He).
  - left. apply process_thing_ok. intros ?. discriminate.
Qed.

(** The body of the loop over the events. *)

Lemma on_event_no_data event w :
  event !! "data" = None ->
  handle event w =
    {| after := w; effects := debug_line debug (ReceivedEvent event);
       outcome := Ok tt |}.
Proof.
  intros H. unfold on_event. rewrite when_debug_log, H. cbn.
  by rewrite app_nil_r.
Qed.

Lemma on_event_thing event data thing w :
  event !! "data" = Some data -> json_loads data = Ok thing ->
  outcome (process thing w) = Ok tt ->
  handle event w =
    {| after := after (process thing w);
       effects :=
         debug_line debug (ReceivedEvent event) ++ effects (process thing w);
       outcome := Ok tt |}.
Proof.
  intros H Hl Hp. unfold on_event. rewrite when_debug_log, H.
  unfold try_except_only. rewrite (bind_lift _ _ _ _ Hl), Hp.
  unfold debug_line. by rewrite Hp.
Qed.

Lemma on_event_thing_raise event data thing e w :
  event !! "data" = Some data -> json_loads data = Ok thing ->
  outcome (process thing w) = Raise e ->
  is_json_decode_error e = false ->
  handle event w =
    {| after := after (process thing w);
       effects :=
         debug_line debug (ReceivedEvent event) ++ effects (process thing w);
       outcome := Raise e |}.
Proof.
  intros H Hl Hp He. unfold on_event. rewrite when_debug_log, H.
  unfold try_except_only. rewrite (bind_lift _ _ _ _ Hl), Hp, He.
  unfold debug_line. by rewrite Hp.
Qed.

Lemma on_event_not_json event data e w :
  event !! "data" = Some data -> json_loads data = Raise e ->
  is_json_decode_error e = true ->
  handle event w =
    {| after := w;
       effects :=
         debug_line debug (ReceivedEvent event)
         ++ (if nonempty data then [Log Warn (NonJsonData data)] else []);
       outcome := Ok tt |}.
Proof.
  intros H Hl He. unfold on_event. rewrite when_debug_log, H.
  unfold try_except_only. rewrite (bind_lift_raise _ _ _ _ Hl). cbn.
  rewrite He. destruct (nonempty data); reflexivity.
Qed.

Lemma on_event_loads_raise event data e w :
  event !! "data" = Some data -> json_loads data = Raise e ->
  is_json_decode_error e = false ->
  handle event w =
    {| after := w; effects := debug_line debug (ReceivedEvent event);
       outcome := Raise e |}.
Proof.
  intros H Hl He. unfold on_event. rewrite when_debug_log, H.
  unfold try_except_only. rewrite (bind_lift_raise _ _ _ _ Hl). cbn.
  rewrite He. by rewrite app_nil_r.
Qed.

(** The loop over the events: an event that is dealt with is followed by
    the next one, and an exception ends the loop. *)
Lemma consume_next event rest w :
  outcome (handle event w) = Ok tt ->
  drain (Yield event rest) w =
    let r := drain rest (after (handle event w)) in
    {| after := after r;
       effects := effects (handle event w) ++ effects r;
       outcome := outcome r |}.
Proof. intros H. cbn [consume]. by rewrite (bind_ok _ _ _ _ H). Qed.

Lemma consume_stop event rest e w :
  outcome (handle event w) = Raise e ->
  drain (Yield event rest) w =
    {| after := after (handle event w);
       effects := effects (handle event w);
       outcome := Raise e |}.
Proof. intros H. cbn [consume]. by rewrite (bind_raise _ _ _ _ H). Qed.

End FailureClaims.

(** C2. When a step of the routing raises, the routing stops there: the
    world and the effects are those reached at that step, followed by the
    error log and, with [debug], by the line that shows the payload. With
    [debug] off, and with [debug] on where [json.dumps] makes a text of the
    payload, no exception leaves [process_thing], and the loop over the
    events goes on to the next event. With [debug] on and a payload of which
    [json.dumps] makes no text, and in that case only, its exception leaves
    [process_thing] after the error log, for the handler formats the payload
    without protection; the loop over the events ends with it, and the
    events that follow in the stream are not looked at. *)
Theorem process_thing_contains_failure
    debug str_of_object json_dumps json_loads thing w :
  (forall e,
      outcome (route debug str_of_object json_dumps thing w) = Py.Raise e ->
      after (process_thing debug str_of_object json_dumps thing w) =
        after (route debug str_of_object json_dumps thing w)
      /\ effects (process_thing debug str_of_object json_dumps thing w) =
         effects (route debug str_of_object json_dumps thing w)
         ++ Log Error (ErrorProcessing e)
            :: dump_line debug json_dumps ThingCausedError thing)
  /\ (shown debug json_dumps thing ->
      outcome (process_thing debug str_of_object json_dumps thing w)
      = Py.Ok tt)
  /\ (forall e,
        debug = true -> json_dumps thing = Py.Raise e ->
        process_thing debug str_of_object json_dumps thing w =
          {| after := w; effects := [Log Error (ErrorProcessing e)];
             outcome := Py.Raise e |})
  /\ (outcome (process_thing debug str_of_object json_dumps thing w)
      = Py.Ok tt
      \/ exists e,
           debug = true /\ json_dumps thing = Py.Raise e
           /\ outcome (process_thing debug str_of_object json_dumps thing w)
              = Py.Raise e)
  /\ (forall event data rest,
        event !! "data" = Some data -> json_loads data = Py.Ok thing ->
        shown debug json_dumps thing ->
        let r1 := process_thing debug str_of_object json_dumps thing w in
        let r2 :=
          consume debug str_of_object json_dumps json_loads rest (after r1) in
        consume debug str_of_object json_dumps json_loads
          (Yield event rest) w =
          {| after := after r2;
             effects :=
               debug_line debug (ReceivedEvent event)
               ++ effects r1 ++ effects r2;
             outcome := outcome r2 |})
  /\ (forall event data rest e,
        event !! "data" = Some data -> json_loads data = Py.Ok thing ->
        debug = true -> json_dumps thing = Py.Raise e ->
        is_json_decode_error e = false ->
        consume debug str_of_object json_dumps json_loads
          (Yield event rest) w =
          {| after := w;
             effects :=
               [Log Debug (ReceivedEvent event);
                Log Error (ErrorProcessing e)];
             outcome := Py.Raise e |}).
Proof.
  split; [ | split; [ | split; [ | split; [ | split]]]].
  - intros e H.
    destruct (process_thing_raise debug str_of_object json_dumps thing w e H)
      as (H1 & H2 & _).
    by split.
  - apply process_thing_ok.
  - intros e. apply process_thing_dump_fails.
  - apply process_thing_outcome.
  - intros event data rest Hd Hl Hs r1 r2.
    pose proof (process_thing_ok debug str_of_object json_dumps thing w Hs)
      as Hp.
    pose proof (on_event_thing debug str_of_object json_dumps json_loads
                  event data thing w Hd Hl Hp) as He.
    rewrite consume_next by (rewrite He; reflexivity).
    rewrite He. cbn. by rewrite <- app_assoc.
  - intros event data rest e Hd Hl Hdebug He Hj.
    pose proof (process_thing_dump_fails debug str_of_object json_dumps
                  thing e w Hdebug He) as Hp.
    assert (on_event debug str_of_object json_dumps json_loads event w =
            {| after := w;
               effects := [Log Debug (ReceivedEvent event);
                           Log Error (ErrorProcessing e)];
               outcome := Py.Raise e |}) as Hev.
    { rewrite (on_event_thing_raise debug str_of_object json_dumps
                 json_loads event data thing e w Hd Hl)
        by (rewrite ?Hp; done).
      rewrite Hp, Hdebug. reflexivity. }
    rewrite (consume_stop _ _ _ _ _ _ e) by (rewrite Hev; reflexivity).
    rewrite Hev. reflexivity.
Qed.

(** The temperature is published, the humidity cannot be coerced, the
    pressure is never looked at. *)
Lemma process_thing_contains_failure_witness :
  let p := {| pub_serial := 0; pub_type := Msg.TTemperature;
              pub_topic := "/t1/sensor/temperature"; pub_depth := 10 |} in
  let m := Msg.OfTemperature {| Msg.temperature := f21_5 |} in
  effects (process_thing true (fun _ => EmptyString)
             (fun _ => Py.Ok "{...}") damp_payload initial) =
  [Log Debug (ProcessingThing "{...}");
   CreatePublisher p;
   Log Info (CreatedPublisher "/t1/sensor/temperature");
   Publish p m;
   Log Info (Published (Py.VStr "t1") m);
   Log Error (ErrorProcessing Py.ValueError);
   Log Debug (ThingCausedError "{...}")].
Proof.
  intros p m.
  rewrite (proj2 (proj1 (process_thing_contains_failure true
                           (fun _ => EmptyString) (fun _ => Py.Ok "{...}")
                           (fun _ => Py.Raise Py.JSONDecodeError)
                           damp_payload initial)
                    Py.ValueError eq_refl)).
  vm_compute. reflexivity.
Defined.

(** With [debug] on and a payload that [json.dumps] cannot format, the
    first of two events ends the loop: its exception is raised after the
    error log, and the second event, a temperature that could be
    published, is never received. With [debug] off both are dealt with. *)
Lemma process_thing_lets_dump_failure_escape :
  let dumps := fun thing : Py.value =>
    match thing with
    | Py.VDict [_] => Py.Raise Py.RecursionError
    | _ => Py.Ok "{...}"
    end in
  let loads := fun data : string =>
    if String.eqb data "deep"
    then Py.Ok (Py.VDict [("thingId", Py.VList [Py.VList []])])
    else Py.Ok temperature_payload in
  let first : gmap string string := {[ "data" := "deep" ]} in
  let second : gmap string string := {[ "data" := "next" ]} in
  consume true (fun _ => EmptyString) dumps loads
    (Yield first (Yield second Done)) initial =
    {| after := initial;
       effects := [Log Debug (ReceivedEvent first);
                   Log Error (ErrorProcessing Py.RecursionError)];
       outcome := Py.Raise Py.RecursionError |}
  /\ published
       (effects (consume false (fun _ => EmptyString) dumps loads
                   (Yield first (Yield second Done)) initial)) =
     [("/org_x_dev1/sensor/temperature",
       Msg.OfTemperature {| Msg.temperature := f21_5 |})].
Proof. split; vm_compute; reflexivity. Qed.

(** ** Stream supervisor *)

Section Quiet.

Lemma quiet_ret {A} (a : A) : quiet (ret a).
Proof. intros w. constructor. Qed.

Lemma quiet_raise {A} e : quiet (@raise A e).
Proof. intros w. constructor. Qed.

Lemma quiet_lift {A} (r : Py.result A) : quiet (lift r).
Proof. intros w. constructor. Qed.

Lemma quiet_bind {A B} (m : M A) (k : A -> M B) :
  quiet m -> (forall a, quiet (k a)) -> quiet (bind m k).
Proof.
  intros Hm Hk w. unfold bind, and_then.
  destruct (outcome (m w)) as [a|e]; cbn.
  - apply Forall_app. split; [apply Hm | apply Hk].
  - apply Hm.
Qed.

Lemma quiet_try {A} (m : M A) (h : Py.exn -> M A) :
  quiet m -> (forall e, quiet (h e)) -> quiet (try_except m h).
Proof.
  intros Hm Hh w. unfold try_except.
  destruct (outcome (m w)) as [a|e]; cbn.
  - apply Hm.
  - apply Forall_app. split; [apply Hm | apply Hh].
Qed.

Lemma quiet_try_only {A} caught (m h : M A) :
  quiet m -> quiet h -> quiet (try_except_only caught m h).
Proof.
  intros Hm Hh w. unfold try_except_only.
  destruct (outcome (m w)) as [a|e]; cbn.
  - apply Hm.
  - destruct (caught e); [ | apply Hm].
    apply Forall_app. split; [apply Hm | apply Hh].
Qed.

Lemma quiet_when b (m : M unit) : quiet m -> quiet (when b m).
Proof. intros Hm. destruct b; [exact Hm | apply quiet_ret]. Qed.

Lemma quiet_for_each {A} (l : list A) (body : A -> M unit) :
  (forall a, quiet (body a)) -> quiet (for_each l body).
Proof.
  intros Hb. induction l as [|a l IH]; cbn.
  - apply quiet_ret.
  - apply quiet_bind; [apply Hb | intros _; exact IH].
Qed.

Lemma quiet_emit e : calm e -> quiet (emit e).
Proof. intros H w. cbn. by constructor. Qed.

Lemma quiet_get_or_create t raw : quiet (get_or_create_publisher t raw).
Proof.
  intros w.
  destruct (topic_publishers w !! sanitize_topic_name raw) as [p|] eqn:E.
  - rewrite (get_or_create_found _ _ _ _ E). constructor.
  - rewrite (get_or_create_fresh _ _ _ E). cbn. by repeat constructor.
Qed.

Lemma calm_silent effs :
  Forall calm effs -> sleeps effs = [] /\ requests effs = [].
Proof.
  induction 1 as [|e effs He _ [IH1 IH2]]; [done|].
  destruct e; try done; cbn; by rewrite ?IH1, ?IH2.
Qed.

End Quiet.

Ltac quiet_step :=
  match goal with
  | |- quiet (bind _ _) => apply quiet_bind; [ | intros ? ]
  | |- quiet (when _ _) => apply quiet_when
  | |- quiet (try_except _ _) => apply quiet_try; [ | intros ? ]
  | |- quiet (try_except_only _ _ _) => apply quiet_try_only
  | |- quiet (for_each _ _) => apply quiet_for_each; intros [? ?]
  | |- quiet (lift _) => apply quiet_lift
  | |- quiet (ret _) => apply quiet_ret
  | |- quiet (raise _) => apply quiet_raise
  | |- quiet (get_or_create_publisher _ _) => apply quiet_get_or_create
  | |- quiet (emit _) => apply quiet_emit; exact I
  | |- quiet (log _ _) => apply quiet_emit; exact I
  | |- quiet (publish _ _) => apply quiet_emit; exact I
  | |- quiet (if ?b then _ else _) => destruct b
  | |- quiet (match ?x with _ => _ end) => destruct x
  end.

Section Supervisor.
Import Py.
Variable debug : bool.
Variable str_of_object : value -> string.
Variable json_dumps : value -> Py.result string.
Variable json_loads : string -> Py.result value.
Variable sse_url : string.

Abbreviation drain := (consume debug str_of_object json_dumps json_loads).
Abbreviation try_once :=
  (attempt debug str_of_object json_dumps json_loads sse_url).
Abbreviation one_turn :=
  (turn debug str_of_object json_dumps json_loads sse_url).
Abbreviation worker :=
  (subscribe_to_changes debug str_of_object json_dumps json_loads sse_url).

Lemma quiet_process_thing thing :
  quiet (process_thing debug str_of_object json_dumps thing).
Proof.
  unfold process_thing. unfold_route.
  unfold debug_dump, on_feature, send, float_at, int_at.
  repeat quiet_step.
Qed.

Lemma quiet_consume events : quiet (drain events).
Proof.
  induction events as [|e|event rest IH]; cbn.
  - apply quiet_ret.
  - apply quiet_raise.
  - apply quiet_bind; [ | intros _; exact IH].
    unfold on_event. repeat first [apply quiet_process_thing | quiet_step].
Qed.

(** Consuming a stream that breaks never ends well: it ends with the
    exception of the stream, or with one that an event raised before. *)
Lemma consume_broken events : forall w e,
  raises events = Some e ->
  exists e', outcome (drain events w) = Raise e'.
Proof.
  induction events as [|x|event rest IH]; intros w e H; [done | by exists x | ].
  cbn [consume raises] in *. unfold bind, and_then.
  destruct (outcome (on_event _ _ _ _ event w)) as [[]|e'] eqn:E; cbn.
  - by apply (IH _ e).
  - by exists e'.
Qed.

Abbreviation midst := (between debug str_of_object json_dumps json_loads).

Lemma turn_run r w :
  outcome (one_turn r w) = Ok tt
  /\ effects (one_turn r w) =
     [Log Info (Connecting sse_url); HttpGet sse_url]
     ++ midst r w ++ [Sleep 5].
Proof.
  destruct r as [e|status content]; [split; reflexivity|].
  unfold turn, attempt, between.
  destruct (negb (status =? 200)); [split; reflexivity|].
  unfold bind, try_except, and_then. cbn.
  destruct (outcome (drain (sse_parse content) w)) as [[]|e]; cbn.
  - split; [reflexivity|]. by rewrite !app_nil_r, <- !app_assoc.
  - split; [reflexivity|]. by rewrite <- !app_assoc.
Qed.

Lemma between_calm r w : Forall calm (midst r w).
Proof.
  destruct r as [e|status content]; cbn; [by repeat constructor|].
  destruct (negb (status =? 200)); [by repeat constructor|].
  constructor; [exact I|]. apply Forall_app. split; [apply quiet_consume|].
  destruct (outcome (drain (sse_parse content) w)); by repeat constructor.
Qed.

Lemma subscribe_cons r rest w :
  ok r = true ->
  worker (r :: rest) w =
    and_then (one_turn (answer r) w) (fun _ => worker rest).
Proof. intros H. cbn. rewrite H. reflexivity. Qed.

Lemma subscribe_run script : forall w,
  Forall (fun r => ok r = true) script ->
  outcome (worker script w) = Ok Looping
  /\ sleeps (effects (worker script w)) =
     replicate (length script) 5
  /\ requests (effects (worker script w)) =
     replicate (length script) sse_url.
Proof.
  induction script as [|r rest IH]; intros w H; [done|].
  apply Forall_cons in H as [Hr H].
  rewrite (subscribe_cons _ _ _ Hr). unfold and_then.
  destruct (turn_run (answer r) w) as [Ho He]. rewrite Ho. cbn.
  destruct (IH (after (one_turn (answer r) w)) H) as (IH1 & IH2 & IH3).
  split; [exact IH1|].
  destruct (calm_silent _ (between_calm (answer r) w)) as [Hs Hq].
  unfold sleeps, requests in *. rewrite !omap_app, He, !omap_app.
  cbn. rewrite Hs, Hq, IH2, IH3. done.
Qed.

Lemma subscribe_total script : forall w,
  outcome (worker script w) =
    Ok (if forallb ok script then Looping else Returned).
Proof.
  induction script as [|r rest IH]; intros w; [reflexivity|].
  cbn [forallb]. destruct (ok r) eqn:Hr; cbn [andb].
  - rewrite (subscribe_cons _ _ _ Hr). unfold and_then.
    destruct (turn_run (answer r) w) as [-> _]. cbn. apply IH.
  - cbn. rewrite Hr. reflexivity.
Qed.

End Supervisor.

(** C1. Each turn of the worker's loop ends without an exception and with
    one delay of 5 as its last effect, whatever the reply: after a status
    other than 200 the turn logs the failure and waits; after an exception,
    raised by the request or while the stream is consumed, it logs the
    error and waits. While the stream is consumed an exception comes from
    the stream itself, from [json.loads] when it is not a
    [JSONDecodeError], or from [process_thing], and each of them ends the
    consumption and is logged by the turn. After the delay the loop goes on
    with its next turn. So as long as [rclpy.ok()] holds, whatever the
    replies and however many there are, the worker is still in its loop,
    has sent one request a turn and has waited 5 after each; it returns
    only when [rclpy.ok()] fails, and never raises. *)
Theorem worker_waits_five_and_retries
    debug str_of_object json_dumps json_loads sse_url :
  let worker :=
    subscribe_to_changes debug str_of_object json_dumps json_loads sse_url in
  let one_turn := turn debug str_of_object json_dumps json_loads sse_url in
  let midst := between debug str_of_object json_dumps json_loads in
  let drain := consume debug str_of_object json_dumps json_loads in
  (forall r w,
      outcome (one_turn r w) = Py.Ok tt
      /\ effects (one_turn r w) =
         [Log Info (Connecting sse_url); HttpGet sse_url]
         ++ midst r w ++ [Sleep 5]
      /\ sleeps (midst r w) = [] /\ requests (midst r w) = [])
  /\ (forall status content w,
        status <> 200 ->
        midst (Response status content) w = [Log Error (ConnectFailed status)])
  /\ (forall e w,
        midst (Refused e) w =
        [Log Error (ConnectionError e); Log Info ConnectionClosed])
  /\ (forall content e w,
        outcome (drain (sse_parse content) w) = Py.Raise e ->
        midst (Response 200 content) w =
        Log Info Connected
        :: effects (drain (sse_parse content) w)
        ++ [Log Error (ConnectionError e); Log Info ConnectionClosed])
  /\ (forall events e w,
        raises events = Some e ->
        exists e', outcome (drain events w) = Py.Raise e')
  /\ (forall event data e rest w,
        event !! "data" = Some data -> json_loads data = Py.Raise e ->
        is_json_decode_error e = false ->
        outcome (drain (Yield event rest) w) = Py.Raise e)
  /\ (forall event data thing e rest w,
        event !! "data" = Some data -> json_loads data = Py.Ok thing ->
        outcome (process_thing debug str_of_object json_dumps thing w)
        = Py.Raise e ->
        is_json_decode_error e = false ->
        outcome (drain (Yield event rest) w) = Py.Raise e)
  /\ (forall r rest w,
        ok r = true ->
        worker (r :: rest) w =
        and_then (one_turn (answer r) w) (fun _ => worker rest))
  /\ (forall script w,
        Forall (fun r => ok r = true) script ->
        outcome (worker script w) = Py.Ok Looping
        /\ sleeps (effects (worker script w)) = replicate (length script) 5
        /\ requests (effects (worker script w)) =
           replicate (length script) sse_url)
  /\ (forall script w,
        outcome (worker script w) =
        Py.Ok (if forallb ok script then Looping else Returned)).
Proof.
  intros worker one_turn midst drain.
  split; [ | split; [ | split; [ | split; [ | split; [ | split; [ | split;
    [ | split; [ | split]]]]]]]].
  - intros r w.
    destruct (turn_run debug str_of_object json_dumps json_loads sse_url r w)
      as [H1 H2].
    split; [exact H1|]. split; [exact H2|].
    apply calm_silent, between_calm.
  - intros status content w H. unfold midst, between.
    destruct (Z.eqb_spec status 200); [contradiction | reflexivity].
  - reflexivity.
  - intros content e w H. unfold midst, between.
    cbn [Z.eqb Pos.eqb negb]. cbn zeta. fold drain. rewrite H. reflexivity.
  - intros events e w. apply consume_broken.
  - intros event data e rest w Hd Hl He. unfold drain.
    rewrite (consume_stop _ _ _ _ _ _ e);
      rewrite (on_event_loads_raise _ _ _ _ _ _ _ _ Hd Hl He); reflexivity.
  - intros event data thing e rest w Hd Hl Hp He. unfold drain.
    rewrite (consume_stop _ _ _ _ _ _ e);
      rewrite (on_event_thing_raise _ _ _ _ _ _ _ _ _ Hd Hl Hp He);
      reflexivity.
  - intros r rest w. apply subscribe_cons.
  - intros script w. apply subscribe_run.
  - intros script w. apply subscribe_total.
Qed.

(** Five turns that all fail, the last two by [json.loads] and by
    [process_thing]: the worker waits after each and is still in its
    loop. *)
Lemma worker_waits_five_and_retries_witness :
  let dumps := fun thing : Py.value =>
    match thing with
    | Py.VDict [] => Py.Ok "{}"
    | _ => Py.Raise Py.RecursionError
    end in
  let loads := fun data : string =>
    if String.eqb data "{}" then Py.Ok (Py.VDict [])
    else if String.eqb data "deep"
    then Py.Ok (Py.VDict [("thingId", Py.VList [Py.VList []])])
    else if String.eqb data "long" then Py.Raise Py.ValueError
    else Py.Raise Py.JSONDecodeError in
  let r := subscribe_to_changes true (fun _ => EmptyString) dumps loads
             "http://localhost:8080/api/2/things" failing_script initial in
  outcome r = Py.Ok Looping /\ sleeps (effects r) = [5; 5; 5; 5; 5].
Proof.
  intros dumps loads.
  destruct (proj1 (proj2 (proj2 (proj2 (proj2 (proj2 (proj2 (proj2 (proj2
              (worker_waits_five_and_retries true (fun _ => EmptyString)
                 dumps loads
                 "http://localhost:8080/api/2/things")))))))))
              failing_script initial) as (H1 & H2 & _).
  - repeat constructor.
  - split; [exact H1 | exact H2].
Defined.

(** * Further properties *)

(** ** Topic sanitizer, character by character *)

Section SanitizerShape.

Lemma map_chars_compose f g s :
  Py.map_chars f (Py.map_chars g s) = Py.map_chars (fun c => f (g c)) s.
Proof.
  induction s as [|c s IH]; [reflexivity|]. cbn. by rewrite IH.
Qed.

Lemma map_chars_ext f g s :
  (forall c, f c = g c) -> Py.map_chars f s = Py.map_chars g s.
Proof.
  intros H. induction s as [|c s IH]; [reflexivity|]. cbn. by rewrite H, IH.
Qed.

Lemma map_chars_append f (s t : string) :
  Py.map_chars f (s ++ t)%string = (Py.map_chars f s ++ Py.map_chars f t)%string.
Proof.
  induction s as [|c s IH]; [reflexivity|].
  rewrite append_cons. cbn [Py.map_chars]. by rewrite append_cons, IH.
Qed.

Lemma sub_invalid_replaced name :
  sub_invalid (Py.replace "." "_" (Py.replace ":" "_" name)) = sub_invalid name.
Proof.
  unfold sub_invalid, Py.replace. rewrite !map_chars_compose.
  apply map_chars_ext. intros c.
  destruct (Ascii.eqb_spec c ":") as [->|Hc]; [reflexivity|].
  destruct (Ascii.eqb_spec c ".") as [->|Hd]; reflexivity.
Qed.

Lemma startswith_replaced name :
  Py.startswith "/" (Py.replace "." "_" (Py.replace ":" "_" name))
  = Py.startswith "/" name.
Proof.
  destruct name as [|c r]; [reflexivity|]. cbn.
  destruct (Ascii.eqb_spec c ":") as [->|Hc]; [reflexivity|].
  destruct (Ascii.eqb_spec c ".") as [->|Hd]; reflexivity.
Qed.

Lemma sanitize_rooted name :
  sanitize_topic_name name = sub_invalid (rooted name).
Proof.
  unfold sanitize_topic_name, rooted. rewrite startswith_replaced.
  destruct (Py.startswith "/" name); cbn [negb].
  - apply sub_invalid_replaced.
  - change (sub_invalid (String "/" ?s)) with (String "/" (sub_invalid s)).
    by rewrite sub_invalid_replaced.
Qed.

Lemma sanitize_unslash name :
  sanitize_topic_name name = String "/" (sub_invalid (unslash name)).
Proof.
  rewrite sanitize_rooted. unfold rooted, unslash.
  destruct name as [|c r]; [reflexivity|]. cbn [Py.startswith].
  destruct (Ascii.eqb_spec c "/") as [->|Hc]; [reflexivity|].
  destruct c as [[] [] [] [] [] [] [] []]; try reflexivity. by destruct Hc.
Qed.

Lemma sub_invalid_length s : String.length (sub_invalid s) = String.length s.
Proof.
  unfold sub_invalid. induction s as [|c s IH]; [reflexivity|].
  cbn [Py.map_chars].
  change (String.length (String ?a ?r)) with (S (String.length r)).
  by rewrite IH.
Qed.

End SanitizerShape.

(** X1. The sanitizer works character by character: the result is the
    name, with a slash put in front unless it starts with one, in which
    every character outside the class is replaced by an underscore. The two
    replacements that the method starts with change nothing in the result;
    so the result is as long as the name, or one longer, and a character of
    the class stays where it is. *)
Theorem sanitize_is_substitution_in_rooted_name name :
  sanitize_topic_name name = sub_invalid (rooted name)
  /\ String.length (sanitize_topic_name name) =
     (String.length name + (if Py.startswith "/" name then 0 else 1))%nat
  /\ forall i c,
       String.get i (rooted name) = Some c ->
       String.get i (sanitize_topic_name name) =
       Some (if topic_char c then c else "_"%char).
Proof.
  split; [apply sanitize_rooted|]. split.
  - rewrite sanitize_rooted, sub_invalid_length. unfold rooted.
    destruct (Py.startswith "/" name); cbn; lia.
  - rewrite sanitize_rooted. generalize (rooted name). intros s.
    induction s as [|d s IH]; intros i c H; [by destruct i|].
    destruct i as [|i]; cbn in *.
    + by injection H as ->.
    + by apply IH.
Qed.

(** X2. Two names get the same topic exactly when they agree, a leading
    slash apart, once every character outside the class is read as an
    underscore: the sanitizer tells neither a colon from a dot or an
    underscore, nor a name from the same name with a slash in front. *)
Theorem sanitize_same_topic a b :
  sanitize_topic_name a = sanitize_topic_name b
  <-> sub_invalid (unslash a) = sub_invalid (unslash b).
Proof.
  rewrite !sanitize_unslash. split; [by intros [= ->] | by intros ->].
Qed.

(** ** Publisher registry: what a request returns and leaves *)

Section RegistryEntries.
Implicit Types (w : World) (p : Publisher) (n : string).

Lemma get_or_create_entry t raw w :
  registry_ok w ->
  let r := get_or_create_publisher t raw w in
  let n := sanitize_topic_name raw in
  exists p,
    outcome r = Py.Ok p
    /\ pub_topic p = n
    /\ topic_publishers (after r) !! n = Some p
    /\ registry_ok (after r)
    /\ (topic_publishers w !! n = None ->
        p = {| pub_serial := serial w; pub_type := t;
               pub_topic := n; pub_depth := 10 |}
        /\ serial (after r) = S (serial w)).
Proof.
  intros Hw r n. subst r.
  destruct (topic_publishers w !! n) as [p|] eqn:E.
  - exists p. rewrite (get_or_create_found _ _ _ _ E). cbn.
    repeat split; try done. by apply Hw.
  - rewrite (get_or_create_fresh _ _ _ E). cbn. fold n.
    eexists. split; [reflexivity|]. split; [reflexivity|].
    split; [apply lookup_insert_eq|]. split; [ | done].
    by apply registry_ok_insert.
Qed.

Lemma serve_lookup calls : forall w n,
  is_Some (topic_publishers (after (serve calls w)) !! n)
  <-> is_Some (topic_publishers w !! n)
      \/ n ∈ (fun c => sanitize_topic_name c.2) <$> calls.
Proof.
  induction calls as [|c calls IH]; intros w n.
  - cbn. rewrite elem_of_nil. tauto.
  - rewrite serve_cons, fmap_cons, elem_of_cons.
    destruct (topic_publishers w !! sanitize_topic_name c.2) as [p|] eqn:E.
    + rewrite (get_or_create_found _ _ _ _ E). cbn. rewrite IH.
      split; [tauto|]. intros [H|[->|H]]; [tauto | | tauto].
      left. by rewrite E.
    + rewrite (get_or_create_fresh _ _ _ E). cbn. rewrite IH. cbn.
      destruct (decide (n = sanitize_topic_name c.2)) as [->|Hne].
      * rewrite lookup_insert_eq. split; [tauto|]. intros _. left. by eexists.
      * rewrite lookup_insert_ne by done. tauto.
Qed.

Lemma serve_serial calls : forall w,
  serial (after (serve calls w)) =
  (serial w + length (created (effects (serve calls w))))%nat.
Proof.
  induction calls as [|c calls IH]; intros w.
  - cbn. lia.
  - rewrite serve_cons.
    destruct (topic_publishers w !! sanitize_topic_name c.2) as [p|] eqn:E.
    + rewrite (get_or_create_found _ _ _ _ E). cbn. apply IH.
    + rewrite (get_or_create_fresh _ _ _ E). cbn. rewrite IH.
      unfold created. cbn. lia.
Qed.

Lemma serve_ok calls : forall w, outcome (serve calls w) = Py.Ok tt.
Proof.
  induction calls as [|c calls IH]; intros w; [reflexivity|].
  rewrite serve_cons.
  destruct (get_or_create_returns c.1 c.2 w) as (p & Hp & _).
  unfold and_then. rewrite Hp. cbn. apply IH.
Qed.

End RegistryEntries.

(** X3. In a dictionary whose entries sit under their topics, a request
    returns a publisher whose topic is the sanitized name and leaves it
    stored under that name; when the name had no entry, the publisher is a
    new one of the class asked for, with queue depth 10. *)
Theorem registry_returns_publisher_of_sanitized_topic t raw w :
  registry_ok w ->
  let r := get_or_create_publisher t raw w in
  let n := sanitize_topic_name raw in
  exists p,
    outcome r = Py.Ok p
    /\ pub_topic p = n
    /\ topic_publishers (after r) !! n = Some p
    /\ registry_ok (after r)
    /\ (topic_publishers w !! n = None ->
        p = {| pub_serial := serial w; pub_type := t;
               pub_topic := n; pub_depth := 10 |}
        /\ serial (after r) = S (serial w)).
Proof. apply get_or_create_entry. Qed.

Lemma registry_returns_publisher_of_sanitized_topic_witness :
  exists p,
    outcome (get_or_create_publisher Msg.TAlert "org.x:dev1/alerts" initial)
    = Py.Ok p
    /\ pub_topic p = "/org_x_dev1/alerts".
Proof.
  destruct (registry_returns_publisher_of_sanitized_topic Msg.TAlert
              "org.x:dev1/alerts" initial initial_registry_ok)
    as (p & H1 & H2 & _).
  exists p. split; [exact H1 | exact H2].
Defined.

(** X4. Two raw names with the same sanitized form share one publisher:
    after a request for the first, a request for the second returns the same
    object, creates nothing and logs nothing, whatever class it names; so
    the publisher keeps the class of the request that created it. *)
Theorem colliding_names_share_publisher t1 t2 a b w :
  sanitize_topic_name a = sanitize_topic_name b ->
  exists p,
    outcome (get_or_create_publisher t1 a w) = Py.Ok p
    /\ (let w1 := after (get_or_create_publisher t1 a w) in
        get_or_create_publisher t2 b w1 = ret p w1)
    /\ (topic_publishers w !! sanitize_topic_name a = None -> pub_type p = t1).
Proof.
  intros Hab.
  destruct (get_or_create_returns t1 a w) as (p & Hp & Hl).
  exists p. split; [exact Hp|]. split.
  - cbn. apply get_or_create_found. by rewrite <- Hab.
  - intros E. rewrite (get_or_create_fresh _ _ _ E) in Hp. cbn in Hp.
    by injection Hp as <-.
Qed.

Lemma colliding_names_share_publisher_witness :
  let w1 := after (get_or_create_publisher Msg.TAlert "org.x:dev/alerts"
                     initial) in
  exists p,
    get_or_create_publisher Msg.TTemperature "/org_x.dev/alerts" w1 = ret p w1
    /\ pub_type p = Msg.TAlert.
Proof.
  destruct (colliding_names_share_publisher Msg.TAlert Msg.TTemperature
              "org.x:dev/alerts" "/org_x.dev/alerts" initial eq_refl)
    as (p & _ & H2 & H3).
  exists p. split; [exact H2 | exact (H3 eq_refl)].
Defined.

(** X5. After any series of requests, the dictionary has an entry under a
    name exactly when it had one before or the name is the sanitized form of
    one of the names asked for; no request fails; and the middleware has
    handed out as many publishers more as were created. *)
Theorem serve_fills_dictionary calls w :
  outcome (serve calls w) = Py.Ok tt
  /\ (forall n,
        is_Some (topic_publishers (after (serve calls w)) !! n)
        <-> is_Some (topic_publishers w !! n)
            \/ n ∈ (fun c => sanitize_topic_name c.2) <$> calls)
  /\ serial (after (serve calls w)) =
     (serial w + length (created (effects (serve calls w))))%nat.
Proof.
  split; [apply serve_ok|]. split; [intros n; apply serve_lookup|].
  apply serve_serial.
Qed.

(** ** Stripping *)

Section Strip.

Lemma lstrip_shape s :
  Py.lstrip s = EmptyString
  \/ exists c r, Py.lstrip s = String c r /\ Py.isspace c = false.
Proof.
  induction s as [|c s IH]; [by left|].
  cbn. destruct (Py.isspace c) eqn:E; [exact IH|]. right. by exists c, s.
Qed.

Lemma rstrip_head c r :
  Py.isspace c = false -> Py.rstrip (String c r) = String c (Py.rstrip r).
Proof. intros H. cbn. rewrite H. by destruct (Py.rstrip r). Qed.

Lemma rstrip_rstrip s : Py.rstrip (Py.rstrip s) = Py.rstrip s.
Proof.
  induction s as [|c s IH]; [reflexivity|].
  cbn [Py.rstrip]. destruct (Py.rstrip s) as [|d r] eqn:E.
  - destruct (Py.isspace c) eqn:Hc; [reflexivity|]. cbn. by rewrite Hc.
  - cbn [Py.rstrip] in *. by rewrite IH.
Qed.

Lemma strip_strip s : Py.strip (Py.strip s) = Py.strip s.
Proof.
  unfold Py.strip. destruct (lstrip_shape s) as [->|(c & r & -> & Hc)].
  - reflexivity.
  - rewrite (rstrip_head _ _ Hc). cbn [Py.lstrip]. rewrite Hc.
    by rewrite (rstrip_head _ _ Hc), rstrip_rstrip.
Qed.

Lemma all_chars_lstrip p s :
  Py.all_chars p s = true -> Py.all_chars p (Py.lstrip s) = true.
Proof.
  induction s as [|c s IH]; [done|]. intros H. cbn.
  destruct (Py.isspace c); [ | exact H].
  cbn in H. apply andb_prop in H as [_ H]. by apply IH.
Qed.

Lemma all_chars_rstrip p s :
  Py.all_chars p s = true -> Py.all_chars p (Py.rstrip s) = true.
Proof.
  induction s as [|c s IH]; [done|]. intros H.
  cbn in H. apply andb_prop in H as [Hc H]. specialize (IH H).
  cbn [Py.rstrip]. destruct (Py.rstrip s) as [|d r].
  - destruct (Py.isspace c); [done|]. cbn. by rewrite Hc.
  - cbn [Py.all_chars] in *. by rewrite Hc.
Qed.

Lemma all_chars_strip p s :
  Py.all_chars p s = true -> Py.all_chars p (Py.strip s) = true.
Proof. intros H. by apply all_chars_rstrip, all_chars_lstrip. Qed.

Lemma split_once_key sep s k v :
  Py.split_once sep s = Some (k, v) ->
  Py.all_chars (fun c => negb (Ascii.eqb c sep)) k = true.
Proof.
  revert k. induction s as [|c s IH]; intros k; [done|]. cbn.
  destruct (Ascii.eqb c sep) eqn:E.
  - by intros [= <- <-].
  - destruct (Py.split_once sep s) as [[k' v']|]; [ | done].
    intros [= <- <-]. cbn. rewrite E. cbn. by apply IH.
Qed.

End Strip.

(** ** Stream decoder: what it yields, and where it starts afresh *)

Section DecoderMore.

Lemma parse_lines_tidy lines : map_Forall tidy (parse_lines lines).
Proof.
  unfold parse_lines.
  assert (map_Forall tidy (∅ : gmap string string)) as H
    by apply map_Forall_empty.
  revert H. generalize (∅ : gmap string string).
  induction lines as [|l lines IH]; intros acc H; [exact H|].
  cbn [fold_left]. apply IH.
  destruct (Py.split_once ":" l) as [[k v]|] eqn:E; [ | exact H].
  apply map_Forall_insert_2; [ | exact H].
  split; [apply strip_strip|]. split; [apply strip_strip|].
  apply all_chars_strip. by apply (split_once_key _ _ _ _ E).
Qed.

Lemma sse_parse_from_events content : forall buffer,
  Forall (fun event => event <> ∅ /\ map_Forall tidy event)
    (yields (sse_parse_from buffer content)).
Proof.
  induction content as [|e|line content IH]; intros buffer; cbn;
    [constructor | constructor | ].
  destruct (decode line) as [text|e]; [ | constructor].
  destruct (nonempty (Py.strip text)); [apply IH|].
  destruct (nonempty buffer); [ | apply IH].
  case_bool_decide as Hne; [ | apply IH].
  cbn. constructor; [ | apply IH].
  split; [exact Hne | apply parse_lines_tidy].
Qed.

Lemma nonempty_false s : nonempty s = false -> s = EmptyString.
Proof. by destruct s. Qed.

Lemma sse_parse_from_app lines : forall buffer rest,
  sse_parse_from buffer (gen_app (Utf8 <$> lines) rest) =
  gen_app (yields (sse_parse_from buffer (gen_of_list (Utf8 <$> lines))))
    (sse_parse_from (buffer_after buffer lines) rest).
Proof.
  unfold gen_of_list.
  induction lines as [|l lines IH]; intros buffer rest; [reflexivity|].
  cbn [fmap list_fmap gen_app sse_parse_from decode buffer_after].
  destruct (nonempty (Py.strip l)); [apply IH|].
  destruct (nonempty buffer) eqn:Hb.
  - cbn zeta. case_bool_decide; [ | apply IH].
    cbn [yields gen_app]. f_equal. apply IH.
  - apply nonempty_false in Hb as ->. apply IH.
Qed.

Lemma buffer_after_app l1 : forall buffer l2,
  buffer_after buffer (l1 ++ l2) = buffer_after (buffer_after buffer l1) l2.
Proof.
  induction l1 as [|l l1 IH]; intros buffer l2; [reflexivity|].
  cbn. destruct (nonempty (Py.strip l)); apply IH.
Qed.

Lemma buffer_after_blank lines l buffer :
  blank l = true -> buffer_after buffer (lines ++ [l]) = EmptyString.
Proof.
  intros H. rewrite buffer_after_app. cbn.
  unfold blank in H. apply negb_true_iff in H. by rewrite H.
Qed.

Lemma sse_parse_from_blanks blanks : forall rest,
  Forall (fun l => blank l = true) blanks ->
  sse_parse_from EmptyString (gen_app (Utf8 <$> blanks) rest) =
  sse_parse_from EmptyString rest.
Proof.
  induction blanks as [|l blanks IH]; intros rest H; [reflexivity|].
  apply Forall_cons in H as [Hl H].
  cbn [fmap list_fmap gen_app sse_parse_from decode].
  unfold blank in Hl. apply negb_true_iff in Hl. rewrite Hl. cbn [nonempty].
  by apply IH.
Qed.

Lemma sse_parse_from_stripped lines : forall buffer rest,
  sse_parse_from buffer (gen_app (Utf8 <$> (Py.strip <$> lines)) rest) =
  sse_parse_from buffer (gen_app (Utf8 <$> lines) rest).
Proof.
  induction lines as [|l lines IH]; intros buffer rest; [reflexivity|].
  cbn [fmap list_fmap gen_app sse_parse_from decode].
  rewrite strip_strip.
  destruct (nonempty (Py.strip l)); [apply IH|].
  destruct (nonempty buffer); [ | apply IH].
  cbn zeta. case_bool_decide; [f_equal|]; apply IH.
Qed.

End DecoderMore.

(** X6. The decoder never yields an empty event, whatever the stream and
    whatever the buffer it starts from. *)
Theorem sse_parse_never_yields_empty_event buffer content :
  Forall (fun event => event <> ∅) (yields (sse_parse_from buffer content))
  /\ Forall (fun event => event <> ∅) (yields (sse_parse content)).
Proof.
  split; [ | unfold sse_parse];
    (eapply Forall_impl; [apply sse_parse_from_events | cbn; tauto]).
Qed.

(** X7. In every event the decoder yields, every key and every value is
    stripped, with no white space left at either end, and no key has a
    colon; a value may have colons. *)
Theorem sse_parse_events_are_stripped content :
  Forall (fun event : gmap string string =>
            forall k v,
              event !! k = Some v ->
              Py.strip k = k /\ Py.strip v = v
              /\ Py.all_chars (fun c => negb (Ascii.eqb c ":")) k = true)
    (yields (sse_parse content))
  /\ yields (sse_parse (gen_of_list [Utf8 " a : b:c "; Utf8 EmptyString]))
     = [<["a" := "b:c"]> ∅].
Proof.
  split; [ | vm_compute; reflexivity].
  unfold sse_parse.
  eapply Forall_impl; [apply sse_parse_from_events|].
  intros event [_ H] k v Hk. exact (H k v Hk).
Qed.

(** X8. Blank lines at the start of a stream, and blank lines that follow
    a blank line, are passed over: the decoder yields what it yields
    without them. *)
Theorem sse_parse_skips_blank_lines blanks :
  Forall (fun l => blank l = true) blanks ->
  (forall rest,
      sse_parse (gen_app (Utf8 <$> blanks) rest) = sse_parse rest)
  /\ (forall buffer l rest,
        blank l = true ->
        sse_parse_from buffer
          (Yield (Utf8 l) (gen_app (Utf8 <$> blanks) rest))
        = sse_parse_from buffer (Yield (Utf8 l) rest)).
Proof.
  intros H. split.
  - intros rest. by apply sse_parse_from_blanks.
  - intros buffer l rest Hl. cbn [sse_parse_from decode].
    unfold blank in Hl. apply negb_true_iff in Hl. rewrite Hl.
    destruct (nonempty buffer) eqn:Hb.
    + cbn zeta. rewrite !(sse_parse_from_blanks _ _ H).
      by case_bool_decide.
    + apply nonempty_false in Hb as ->. by apply sse_parse_from_blanks.
Qed.

Lemma sse_parse_skips_blank_lines_witness :
  sse_parse (gen_app (Utf8 <$> [EmptyString; "  "; String "013" EmptyString])
               (gen_of_list [Utf8 "id: 7"; Utf8 EmptyString]))
  = Yield (<["id" := "7"]> ∅) Done.
Proof.
  rewrite (proj1 (sse_parse_skips_blank_lines
                    [EmptyString; "  "; String "013" EmptyString]
                    ltac:(repeat constructor))).
  vm_compute. reflexivity.
Defined.

(** X9. The white space around a line, its line ending included, never
    matters: the decoder yields the same from the lines as from the
    stripped lines. *)
Theorem sse_parse_ignores_surrounding_space lines buffer rest :
  sse_parse_from buffer (gen_app (Utf8 <$> (Py.strip <$> lines)) rest) =
  sse_parse_from buffer (gen_app (Utf8 <$> lines) rest)
  /\ sse_parse (gen_of_list (Utf8 <$> (Py.strip <$> lines))) =
     sse_parse (gen_of_list (Utf8 <$> lines)).
Proof. split; apply sse_parse_from_stripped. Qed.

(** X10. When a line of the stream is not valid UTF-8, or the stream
    itself raises, the decoder yields the events completed by the lines
    read before and then raises: [UnicodeDecodeError] in the first case, the
    exception of the stream in the second. Nothing of what follows is read,
    and the lines buffered are lost. *)
Theorem sse_parse_stops_at_failure lines :
  let before := yields (sse_parse (gen_of_list (Utf8 <$> lines))) in
  (forall rest,
      sse_parse (gen_app (Utf8 <$> lines) (Yield Malformed rest)) =
      gen_app before (Fail Py.UnicodeDecodeError))
  /\ (forall e,
        sse_parse (gen_app (Utf8 <$> lines) (Fail e)) = gen_app before (Fail e))
  /\ sse_parse (gen_of_list (Utf8 <$> lines)) = gen_of_list before.
Proof.
  intros before. unfold sse_parse, before.
  split; [ | split]; intros; unfold gen_of_list at 1;
    rewrite sse_parse_from_app; reflexivity.
Qed.

(** X11. After a blank line the decoder starts afresh: the events of a
    stream that goes on after a blank line are those of the lines up to the
    blank line, followed by those of the rest decoded on its own. *)
Theorem sse_parse_restarts_after_blank_line lines l rest :
  blank l = true ->
  sse_parse (gen_app (Utf8 <$> lines ++ [l]) rest) =
  gen_app (yields (sse_parse (gen_of_list (Utf8 <$> lines ++ [l]))))
    (sse_parse rest).
Proof.
  intros H. unfold sse_parse.
  by rewrite sse_parse_from_app, (buffer_after_blank _ _ _ H).
Qed.

Lemma sse_parse_restarts_after_blank_line_witness :
  sse_parse (gen_app (Utf8 <$> ["id: 1"] ++ [EmptyString])
               (gen_of_list [Utf8 "id: 2"; Utf8 EmptyString]))
  = Yield (<["id" := "1"]> ∅) (Yield (<["id" := "2"]> ∅) Done).
Proof.
  rewrite (sse_parse_restarts_after_blank_line ["id: 1"] EmptyString
             (gen_of_list [Utf8 "id: 2"; Utf8 EmptyString]) eq_refl).
  vm_compute. reflexivity.
Defined.

(** ** Methods that keep a property of the world *)

Section Keeps.
Variable I : World -> Prop.
Variable P : effect -> Prop.

Lemma keeps_ret {A} (a : A) : keeps I P (ret a).
Proof. intros w H. split; [exact H | constructor]. Qed.

Lemma keeps_raise {A} e : keeps I P (@raise A e).
Proof. intros w H. split; [exact H | constructor]. Qed.

Lemma keeps_lift {A} (r : Py.result A) : keeps I P (lift r).
Proof. intros w H. split; [exact H | constructor]. Qed.

Lemma keeps_bind {A B} (m : M A) (k : A -> M B) :
  keeps I P m ->
  (forall a w, outcome (m w) = Py.Ok a -> keeps I P (k a)) ->
  keeps I P (bind m k).
Proof.
  intros Hm Hk w Hw. unfold bind, and_then.
  destruct (Hm w Hw) as [H1 H2].
  destruct (outcome (m w)) as [a|e] eqn:E; cbn; [ | done].
  destruct (Hk a w E _ H1) as [H3 H4].
  split; [exact H3 | by apply Forall_app].
Qed.

Lemma keeps_try {A} (m : M A) (h : Py.exn -> M A) :
  keeps I P m -> (forall e, keeps I P (h e)) -> keeps I P (try_except m h).
Proof.
  intros Hm Hh w Hw. unfold try_except.
  destruct (Hm w Hw) as [H1 H2].
  destruct (outcome (m w)) as [a|e]; cbn; [done|].
  destruct (Hh e _ H1) as [H3 H4].
  split; [exact H3 | by apply Forall_app].
Qed.

Lemma keeps_try_only {A} caught (m h : M A) :
  keeps I P m -> keeps I P h -> keeps I P (try_except_only caught m h).
Proof.
  intros Hm Hh w Hw. unfold try_except_only.
  destruct (Hm w Hw) as [H1 H2].
  destruct (outcome (m w)) as [a|e]; cbn; [done|].
  destruct (caught e); [ | done].
  destruct (Hh _ H1) as [H3 H4].
  split; [exact H3 | by apply Forall_app].
Qed.

Lemma keeps_when b (m : M unit) : keeps I P m -> keeps I P (when b m).
Proof. intros Hm. destruct b; [exact Hm | apply keeps_ret]. Qed.

Lemma keeps_for_each {A} (l : list A) (body : A -> M unit) :
  (forall a, keeps I P (body a)) -> keeps I P (for_each l body).
Proof.
  intros Hb. induction l as [|a l IH]; cbn.
  - apply keeps_ret.
  - apply keeps_bind; [apply Hb | intros _ _ _; exact IH].
Qed.

Lemma keeps_emit e : P e -> keeps I P (emit e).
Proof. intros He w H. split; [exact H | by repeat constructor]. Qed.

End Keeps.

Lemma keeps_weaken (I : World -> Prop) (P Q : effect -> Prop) {A} (m : M A) :
  (forall e, P e -> Q e) -> keeps I P m -> keeps I Q m.
Proof.
  intros HPQ Hm w Hw. destruct (Hm w Hw) as [H1 H2].
  split; [exact H1 | by eapply Forall_impl].
Qed.

Ltac keeps_step plain_is :=
  match goal with
  | |- keeps _ _ (bind (lift ?r) _) =>
      apply keeps_bind; [apply keeps_lift | intros ? _ _ ]
  | |- keeps _ _ (bind _ _) => apply keeps_bind; [ | intros ? _ _ ]
  | |- keeps _ _ (when _ _) => apply keeps_when
  | |- keeps _ _ (try_except _ _) => apply keeps_try; [ | intros ? ]
  | |- keeps _ _ (try_except_only _ _ _) => apply keeps_try_only
  | |- keeps _ _ (for_each _ _) => apply keeps_for_each; intros [? ?]
  | |- keeps _ _ (lift _) => apply keeps_lift
  | |- keeps _ _ (ret _) => apply keeps_ret
  | |- keeps _ _ (raise _) => apply keeps_raise
  | |- keeps _ _ (emit _) => apply keeps_emit; apply plain_is; exact Logic.I
  | |- keeps _ _ (log _ _) => apply keeps_emit; apply plain_is; exact Logic.I
  | |- keeps _ _ (sleep _) => apply keeps_emit; apply plain_is; exact Logic.I
  | |- keeps _ _ (if ?b then _ else _) => destruct b
  | |- keeps _ _ (match ?x with _ => _ end) => destruct x
  end.

(** ** Every message through a publisher of its class, on its topic *)

Section Endings.

Lemma ends_with_intro suffix pre : ends_with suffix (pre ++ suffix)%string = true.
Proof.
  induction pre as [|c pre IH].
  - rewrite append_nil. destruct suffix; cbn [ends_with];
      by rewrite String.eqb_refl.
  - rewrite append_cons. cbn [ends_with]. rewrite IH. apply orb_true_r.
Qed.

Lemma ends_with_elim suffix s :
  ends_with suffix s = true -> exists pre, s = (pre ++ suffix)%string.
Proof.
  induction s as [|c s IH]; cbn [ends_with].
  - rewrite orb_false_r. intros ->%String.eqb_eq. by exists EmptyString.
  - intros [->%String.eqb_eq | H]%orb_prop; [by exists EmptyString|].
    destruct (IH H) as [pre ->]. by exists (String c pre).
Qed.

(** Of two endings of one text, one is an ending of the other. *)
Lemma endings_nest s : forall p1 p2 a b,
  s = (p1 ++ a)%string -> s = (p2 ++ b)%string ->
  ends_with a b = true \/ ends_with b a = true.
Proof.
  induction s as [|c s IH]; intros p1 p2 a b H1 H2.
  - destruct p1 as [|c1 p1]; [ | by rewrite append_cons in H1].
    destruct p2 as [|c2 p2]; [ | by rewrite append_cons in H2].
    rewrite append_nil in H1, H2. subst a b. by left.
  - destruct p1 as [|c1 p1].
    + rewrite append_nil in H1. subst a. right. rewrite H2.
      apply ends_with_intro.
    + destruct p2 as [|c2 p2].
      * rewrite append_nil in H2. subst b. left. rewrite H1.
        apply ends_with_intro.
      * rewrite append_cons in H1, H2.
        injection H1 as _ H1. injection H2 as _ H2.
        by apply (IH p1 p2).
Qed.

Lemma suffix_valid t : Py.all_chars topic_char (suffix_of t) = true.
Proof. by destruct t. Qed.

(** No ending of a topic of the router is the ending of a topic of
    another class. *)
Lemma suffix_unique t1 t2 :
  ends_with (String "/" (suffix_of t1)) (String "/" (suffix_of t2)) = true ->
  t1 = t2.
Proof. destruct t1, t2; vm_compute; congruence. Qed.

Lemma sub_invalid_fixed s :
  Py.all_chars topic_char s = true -> sub_invalid s = s.
Proof.
  intros H. unfold sub_invalid. apply map_chars_fixed; [ | exact H].
  intros c Hc. by rewrite Hc.
Qed.

Lemma sanitize_ending x t :
  ends_with (String "/" (suffix_of t))
    (sanitize_topic_name (x ++ "/" ++ suffix_of t)%string) = true.
Proof.
  rewrite sanitize_rooted.
  assert (exists pre, rooted (x ++ "/" ++ suffix_of t)%string
                      = (pre ++ String "/" (suffix_of t))%string) as [pre ->].
  { unfold rooted. destruct (Py.startswith _ _).
    - by exists x.
    - by exists (String "/" x). }
  unfold sub_invalid. rewrite map_chars_append.
  fold (sub_invalid (String "/" (suffix_of t))).
  rewrite (sub_invalid_fixed (String "/" (suffix_of t))).
  - apply ends_with_intro.
  - cbn. apply suffix_valid.
Qed.

(** A topic of the router has the ending of one class only. *)
Lemma topic_class x t t' :
  ends_with (String "/" (suffix_of t'))
    (sanitize_topic_name (x ++ "/" ++ suffix_of t)%string) = true ->
  t = t'.
Proof.
  intros H'. pose proof (sanitize_ending x t) as H.
  apply ends_with_elim in H as [p1 H1]. apply ends_with_elim in H' as [p2 H2].
  destruct (endings_nest _ _ _ _ _ H1 H2) as [E|E];
    [ | symmetry]; by apply suffix_unique.
Qed.

End Endings.

Section Discipline.
Import Py Msg.
Variable debug : bool.
Variable str_of_object : value -> string.
Variable json_dumps : value -> Py.result string.

Lemma initial_typed : typed initial.
Proof. intros n p H. cbn in H. by rewrite lookup_empty in H. Qed.

Lemma typed_registry_ok w : typed w -> registry_ok w.
Proof. intros H n p Hn. by destruct (H n p Hn). Qed.

(** One [send] of the router: the publisher has the class of the message
    and the topic of that class under the thing. *)
Lemma typed_send t thing_id m :
  class_of m = t ->
  keeps typed (fun e => well_typed e /\ under str_of_object thing_id e)
    (send str_of_object t thing_id (suffix_of t) m).
Proof.
  intros Hm w Hw. unfold send, bind, and_then.
  set (n := sanitize_topic_name
              (format str_of_object thing_id ++ "/" ++ suffix_of t)%string).
  destruct (topic_publishers w !! n) as [p|] eqn:E.
  - rewrite (get_or_create_found _ _ _ _ E). cbn.
    split; [exact Hw|]. destruct (Hw n p E) as [Hn Ht].
    repeat constructor; cbn.
    + rewrite Hm. apply Ht, sanitize_ending.
    + by rewrite Hm, Hn.
  - rewrite (get_or_create_fresh _ _ _ E). cbn. fold n. split.
    + intros n' q. cbn [topic_publishers].
      destruct (decide (n = n')) as [<-|Hne].
      * rewrite lookup_insert_eq. intros [= <-]. cbn.
        split; [done|]. intros t' Ht'. by apply (topic_class _ _ _ Ht').
      * rewrite lookup_insert_ne by done. apply Hw.
    + repeat constructor; cbn; by rewrite ?Hm.
Qed.

Lemma registry_send t thing_id m :
  class_of m = t ->
  keeps registry_ok (under str_of_object thing_id)
    (send str_of_object t thing_id (suffix_of t) m).
Proof.
  intros Hm w Hw. unfold send, bind, and_then.
  set (n := sanitize_topic_name
              (format str_of_object thing_id ++ "/" ++ suffix_of t)%string).
  destruct (topic_publishers w !! n) as [p|] eqn:E.
  - rewrite (get_or_create_found _ _ _ _ E). cbn.
    split; [exact Hw|]. repeat constructor. cbn. by rewrite Hm, (Hw n p E).
  - rewrite (get_or_create_fresh _ _ _ E). cbn. fold n. split.
    + by apply registry_ok_insert.
    + repeat constructor; cbn; by rewrite ?Hm.
Qed.

Section Route.
Variable I : World -> Prop.
Variable P : value -> effect -> Prop.
Hypothesis plain_is : forall thing_id e, plain e -> P thing_id e.
Hypothesis keeps_send : forall t thing_id m,
  class_of m = t ->
  keeps I (P thing_id) (send str_of_object t thing_id (suffix_of t) m).

Lemma keeps_float_at Q o k : keeps I Q (float_at o k).
Proof.
  unfold float_at. apply keeps_bind; [ | intros ? _ _]; apply keeps_lift.
Qed.

Lemma keeps_int_at Q o k : keeps I Q (int_at o k).
Proof. unfold int_at. apply keeps_bind; [ | intros ? _ _]; apply keeps_lift. Qed.

Lemma keeps_on_feature Q features name body :
  (forall props, keeps I Q (body props)) ->
  keeps I Q (on_feature features name body).
Proof.
  intros H. unfold on_feature.
  apply keeps_bind; [apply keeps_lift | intros present _ _].
  apply keeps_when.
  apply keeps_bind; [apply keeps_lift | intros feature _ _].
  apply keeps_bind; [apply keeps_lift | intros props _ _]. apply H.
Qed.

Ltac keeps_route thing_id :=
  repeat
    match goal with
    | |- keeps _ _ (send _ ?t _ _ ?m) =>
        exact (keeps_send t thing_id m eq_refl)
    | |- keeps _ _ (float_at _ _) => apply keeps_float_at
    | |- keeps _ _ (int_at _ _) => apply keeps_int_at
    | |- keeps _ _ (on_feature _ _ _) => apply keeps_on_feature; intros ?
    | |- _ => keeps_step (plain_is thing_id)
    end.

Lemma keeps_debug_dump Q line thing :
  (forall e, plain e -> Q e) ->
  keeps I Q (debug_dump debug json_dumps line thing).
Proof. intros HQ. unfold debug_dump. repeat keeps_step HQ. Qed.

Lemma keeps_route_thing thing :
  keeps I (P (thing_id_of thing)) (route debug str_of_object json_dumps thing).
Proof.
  unfold_route.
  apply keeps_bind;
    [apply keeps_debug_dump, plain_is | intros _ _ _].
  apply keeps_bind; [apply keeps_lift | intros thing_id w H].
  assert (thing_id_of thing = thing_id) as ->.
  { unfold thing_id_of. cbn in H. by rewrite H. }
  keeps_route thing_id.
Qed.

Lemma keeps_process_thing thing :
  keeps I (P (thing_id_of thing))
    (process_thing debug str_of_object json_dumps thing).
Proof.
  unfold process_thing. apply keeps_try; [apply keeps_route_thing|].
  intros e.
  repeat first [ apply keeps_debug_dump, plain_is
               | keeps_step (plain_is (thing_id_of thing)) ].
Qed.

End Route.


Lemma plain_well_typed e : plain e -> well_typed e.
Proof. by destruct e. Qed.

Lemma plain_under thing_id e : plain e -> under str_of_object thing_id e.
Proof. by destruct e. Qed.

Lemma typed_process_thing thing :
  keeps typed well_typed (process_thing debug str_of_object json_dumps thing).
Proof.
  apply (keeps_weaken _
           (fun e => well_typed e
                     /\ under str_of_object (thing_id_of thing) e));
    [tauto|].
  apply (keeps_process_thing typed
           (fun thing_id e => well_typed e /\ under str_of_object thing_id e)).
  - intros thing_id e He.
    split; [by apply plain_well_typed | by apply plain_under].
  - intros t thing_id m. apply typed_send.
Qed.

Lemma published_under thing_id effs :
  Forall (under str_of_object thing_id) effs ->
  Forall (fun tm : string * msg =>
            tm.1 = sanitize_topic_name
                     (format str_of_object thing_id ++ "/"
                      ++ suffix_of (class_of tm.2))%string)
    (published effs).
Proof.
  induction 1 as [|e effs He _ IH]; [constructor|].
  destruct e; try exact IH. unfold published. cbn. by constructor.
Qed.

End Discipline.

Section Worker.
Variable debug : bool.
Variable str_of_object : Py.value -> string.
Variable json_dumps : Py.value -> Py.result string.
Variable json_loads : string -> Py.result Py.value.
Variable sse_url : string.
Variable I : World -> Prop.
Variable Q : effect -> Prop.
Hypothesis plain_is : forall e, plain e -> Q e.
Hypothesis keeps_process : forall thing,
  keeps I Q (process_thing debug str_of_object json_dumps thing).

Lemma keeps_consume events :
  keeps I Q (consume debug str_of_object json_dumps json_loads events).
Proof.
  induction events as [|e|event rest IH]; cbn.
  - apply keeps_ret.
  - apply keeps_raise.
  - apply keeps_bind; [ | intros _ _ _; exact IH].
    unfold on_event. repeat first [apply keeps_process | keeps_step plain_is].
Qed.

Lemma keeps_turn r :
  keeps I Q (turn debug str_of_object json_dumps json_loads sse_url r).
Proof.
  unfold turn, attempt.
  repeat first [apply keeps_consume | keeps_step plain_is].
Qed.

Lemma keeps_subscribe script :
  keeps I Q
    (subscribe_to_changes debug str_of_object json_dumps json_loads sse_url
       script).
Proof.
  induction script as [|r rest IH]; cbn.
  - apply keeps_ret.
  - destruct (ok r); [ | apply keeps_ret].
    apply keeps_bind; [apply keeps_turn | intros _ _ _; exact IH].
Qed.

End Worker.

(** X12. Every message goes out through a publisher that was created for
    the class of the message. This holds of all that the worker does on a
    new node, whatever the replies and the payloads, and of the routing of
    one payload from any dictionary whose entries have the classes of their
    topics: no topic of one class of the router is a topic of another. *)
Theorem every_message_through_publisher_of_its_class
    debug str_of_object json_dumps json_loads sse_url :
  (forall script,
      Forall well_typed
        (effects (subscribe_to_changes debug str_of_object json_dumps
                    json_loads sse_url script initial)))
  /\ (forall thing w,
        typed w ->
        typed (after (process_thing debug str_of_object json_dumps thing w))
        /\ Forall well_typed
             (effects (process_thing debug str_of_object json_dumps thing w)))
  /\ (forall x y t t',
        sanitize_topic_name (x ++ "/" ++ suffix_of t)%string
        = sanitize_topic_name (y ++ "/" ++ suffix_of t')%string ->
        t = t').
Proof.
  split; [ | split].
  - intros script.
    apply (keeps_subscribe debug str_of_object json_dumps json_loads sse_url
             typed well_typed plain_well_typed
             (typed_process_thing debug str_of_object json_dumps) script
             initial initial_typed).
  - intros thing w.
    apply (typed_process_thing debug str_of_object json_dumps thing w).
  - intros x y t t' H. apply (topic_class x). rewrite H.
    apply sanitize_ending.
Qed.

(** X13. Whatever the payload, every message that its routing publishes
    goes out on the sanitized topic made of the payload's [thingId], a slash
    and the ending of the message's class: nothing is published outside the
    topics of the thing. *)
Theorem router_publishes_under_thing_id
    debug str_of_object json_dumps thing w :
  registry_ok w ->
  Forall (fun tm : string * Msg.msg =>
            tm.1 = sanitize_topic_name
                     (format str_of_object (thing_id_of thing) ++ "/"
                      ++ suffix_of (class_of tm.2))%string)
    (published
       (effects (process_thing debug str_of_object json_dumps thing w))).
Proof.
  intros Hw. apply published_under.
  apply (keeps_process_thing debug str_of_object json_dumps registry_ok
           (under str_of_object)
           (plain_under str_of_object) (registry_send str_of_object)
           thing w Hw).
Qed.

Lemma router_publishes_under_thing_id_witness :
  Forall (fun tm : string * Msg.msg =>
            tm.1 = sanitize_topic_name
                     ("org.x:dev1" ++ "/" ++ suffix_of (class_of tm.2))%string)
    (published
       (effects (process_thing false (fun _ => EmptyString)
                   (fun _ => Py.Ok EmptyString) temperature_payload
                   initial))).
Proof.
  exact (router_publishes_under_thing_id false (fun _ => EmptyString)
           (fun _ => Py.Ok EmptyString) temperature_payload initial
           initial_registry_ok).
Defined.

(** ** Feature router: payloads it passes over, and payloads it rejects *)

Section RouterEdges.
Import Py Msg.
Variable debug : bool.
Variable str_of_object : value -> string.
Variable json_dumps : value -> Py.result string.

Lemma process_thing_of_route thing w w' effs :
  route debug str_of_object json_dumps thing w =
    {| after := w'; effects := effs; outcome := Ok tt |} ->
  process_thing debug str_of_object json_dumps thing w =
    {| after := w'; effects := effs; outcome := Ok tt |}.
Proof.
  intros H. unfold process_thing.
  rewrite (try_ok _ _ _ tt) by (by rewrite H). exact H.
Qed.

Lemma process_thing_of_failure thing w w' effs e :
  shown debug json_dumps thing ->
  route debug str_of_object json_dumps thing w =
    {| after := w'; effects := effs; outcome := Raise e |} ->
  process_thing debug str_of_object json_dumps thing w =
    {| after := w';
       effects := effs ++ Log Error (ErrorProcessing e)
                          :: dump_line debug json_dumps ThingCausedError thing;
       outcome := Ok tt |}.
Proof.
  intros Hs H. unfold process_thing.
  rewrite (try_raise _ _ _ e) by (by rewrite H). rewrite H.
  unfold log. rewrite bind_emit, debug_dump_run. cbn.
  pose proof (debug_dump_ok debug json_dumps ThingCausedError thing w Hs)
    as Ho.
  rewrite debug_dump_run in Ho. cbn in Ho. by rewrite Ho.
Qed.

Lemma route_start thing w {B} (k : unit -> M B) :
  shown debug json_dumps thing ->
  bind (debug_dump debug json_dumps ProcessingThing thing) k w =
    {| after := after (k tt w);
       effects :=
         dump_line debug json_dumps ProcessingThing thing
         ++ effects (k tt w);
       outcome := outcome (k tt w) |}.
Proof. apply debug_dump_shown. Qed.

Lemma route_not_object thing w :
  shown debug json_dumps thing ->
  (forall d, thing <> VDict d) ->
  route debug str_of_object json_dumps thing w =
    {| after := w;
       effects := dump_line debug json_dumps ProcessingThing thing;
       outcome := Raise AttributeError |}.
Proof.
  intros Hs H. unfold_route. rewrite route_start by exact Hs.
  rewrite (bind_lift_raise _ _ _ AttributeError).
  - cbn. by rewrite app_nil_r.
  - destruct thing; try reflexivity. by destruct (H d).
Qed.

Lemma route_nothing_known thing attributes features w :
  shown debug json_dumps thing ->
  get thing "attributes" (VDict []) = Ok attributes ->
  has "location" attributes = Ok false ->
  get thing "features" (VDict []) = Ok features ->
  Forall (fun name => has name features = Ok false) feature_names ->
  route debug str_of_object json_dumps thing w =
    {| after := w;
       effects := dump_line debug json_dumps ProcessingThing thing;
       outcome := Ok tt |}.
Proof.
  intros Hs Ha Hl Hf Hn. unfold_route. rewrite route_start by exact Hs.
  assert (exists thing_id,
             get thing "thingId" (VStr EmptyString) = Ok thing_id)
    as [thing_id Ht].
  { destruct thing; try discriminate Ha. by eexists. }
  rewrite (bind_lift _ _ _ _ Ht), (bind_lift _ _ _ _ Ha),
    (bind_lift _ _ _ _ Hf).
  rewrite bind_assoc, (bind_lift _ _ _ _ Hl). cbn [when]. rewrite bind_ret.
  unfold feature_names in Hn.
  repeat match type of Hn with
         | Forall _ (_ :: _) => apply Forall_cons in Hn as [? Hn]
         end.
  repeat match goal with
         | H : has ?name features = Ok false |- _ =>
             rewrite (bind_feature_absent features name _ _ _ H); clear H
         end.
  match goal with
  | H : has ?name features = Ok false |- _ =>
      rewrite (on_feature_absent features name _ _ H)
  end.
  cbn. by rewrite app_nil_r.
Qed.

End RouterEdges.

(** X14. A payload that is not a JSON object (a list, a text, a number, a
    truth value or null) is rejected as a whole: whatever [debug] is and
    whatever [json.dumps] does, the routing publishes nothing, creates
    nothing and leaves the node as it was. Where the payload can be shown
    in the debug lines, one error line names the [AttributeError] and no
    exception is raised; where [debug] is on and [json.dumps] raises, the
    one error line names that exception, which then leaves
    [process_thing]. *)
Theorem payload_that_is_no_object_is_rejected
    debug str_of_object json_dumps thing w :
  (forall d, thing <> Py.VDict d) ->
  let r := process_thing debug str_of_object json_dumps thing w in
  after r = w
  /\ published (effects r) = []
  /\ created (effects r) = []
  /\ (shown debug json_dumps thing ->
      r = {| after := w;
             effects :=
               dump_line debug json_dumps ProcessingThing thing
               ++ Log Error (ErrorProcessing Py.AttributeError)
                  :: dump_line debug json_dumps ThingCausedError thing;
             outcome := Py.Ok tt |})
  /\ (forall e,
        debug = true -> json_dumps thing = Py.Raise e ->
        r = {| after := w; effects := [Log Error (ErrorProcessing e)];
               outcome := Py.Raise e |}).
Proof.
  intros H r.
  assert (shown debug json_dumps thing ->
          r = {| after := w;
                 effects :=
                   dump_line debug json_dumps ProcessingThing thing
                   ++ Log Error (ErrorProcessing Py.AttributeError)
                      :: dump_line debug json_dumps ThingCausedError thing;
                 outcome := Py.Ok tt |}) as Hshown.
  { intros Hs. apply process_thing_of_failure; [exact Hs|].
    by apply route_not_object. }
  assert (forall e,
             debug = true -> json_dumps thing = Py.Raise e ->
             r = {| after := w; effects := [Log Error (ErrorProcessing e)];
                    outcome := Py.Raise e |}) as Hfails.
  { intros e. apply process_thing_dump_fails. }
  assert (after r = w /\ published (effects r) = []
          /\ created (effects r) = []) as (H1 & H2 & H3).
  { destruct debug eqn:Hd.
    - destruct (json_dumps thing) as [dump|e] eqn:He.
      + rewrite Hshown by (intros _; by exists dump).
        unfold dump_line. rewrite He. done.
      + by rewrite (Hfails e eq_refl eq_refl).
    - rewrite Hshown by (intros ?; discriminate). done. }
  done.
Qed.

Lemma payload_that_is_no_object_is_rejected_witness :
  process_thing true (fun _ => EmptyString) (fun _ => Py.Ok "[...]")
    (Py.VList [Py.VDict [("thingId", Py.VStr "t1")]]) initial =
    {| after := initial;
       effects := [Log Debug (ProcessingThing "[...]");
                   Log Error (ErrorProcessing Py.AttributeError);
                   Log Debug (ThingCausedError "[...]")];
       outcome := Py.Ok tt |}.
Proof.
  refine (proj1 (proj2 (proj2 (proj2
            (payload_that_is_no_object_is_rejected true
               (fun _ => EmptyString) (fun _ => Py.Ok "[...]")
               (Py.VList [Py.VDict [("thingId", Py.VStr "t1")]]) initial
               _)))) _).
  - discriminate.
  - intros _. by exists "[...]".
Defined.

(** X15. A thing whose attributes hold no location and whose features
    hold none of the fourteen names the router knows is passed over in
    silence: nothing is published, nothing is created, nothing is logged but
    the debug line, and no error is raised. Features under other names are
    never looked at. This with [debug] off, and with [debug] on where
    [json.dumps] makes a text of the payload for the debug line. *)
Theorem thing_without_known_feature_is_passed_over
    debug str_of_object json_dumps thing attributes features w :
  shown debug json_dumps thing ->
  Py.get thing "attributes" (Py.VDict []) = Py.Ok attributes ->
  Py.has "location" attributes = Py.Ok false ->
  Py.get thing "features" (Py.VDict []) = Py.Ok features ->
  Forall (fun name => Py.has name features = Py.Ok false) feature_names ->
  process_thing debug str_of_object json_dumps thing w =
    {| after := w;
       effects := dump_line debug json_dumps ProcessingThing thing;
       outcome := Py.Ok tt |}.
Proof.
  intros Hs Ha Hl Hf Hn. apply process_thing_of_route.
  by apply (route_nothing_known _ _ _ _ attributes features).
Qed.

Lemma thing_without_known_feature_is_passed_over_witness :
  let thing :=
    Py.VDict [("thingId", Py.VStr "t1");
              ("features",
               Py.VDict [("battery",
                          Py.VDict [("properties",
                                     Py.VDict [("level", Py.VInt 80)])])])] in
  process_thing true (fun _ => EmptyString) (fun _ => Py.Ok "{...}") thing
    initial =
    {| after := initial; effects := [Log Debug (ProcessingThing "{...}")];
       outcome := Py.Ok tt |}.
Proof.
  intros thing.
  apply (thing_without_known_feature_is_passed_over true
           (fun _ => EmptyString) (fun _ => Py.Ok "{...}") thing
           (Py.VDict [])
           (Py.VDict [("battery",
                       Py.VDict [("properties",
                                  Py.VDict [("level", Py.VInt 80)])])])
           initial (fun _ => ex_intro _ "{...}" eq_refl)
           eq_refl eq_refl eq_refl).
  repeat constructor.
Defined.

(** ** Feature router: the two loops *)

Section RouterLoops.
Import Py Msg.
Variable debug : bool.
Variable str_of_object : value -> string.
Variable json_dumps : value -> Py.result string.

Lemma bind_float_of_key {B} o key (k : spec_float -> M B) w :
  bind (float_at o key) k w = bind (lift (float_of_key o key)) k w.
Proof.
  rewrite bind_float_at. unfold float_of_key.
  destruct (get o key (VFloat zero)) as [v|e].
  - by rewrite (bind_lift _ _ _ v eq_refl).
  - reflexivity.
Qed.

Lemma bind_int_of_key {B} o key (k : Z -> M B) w :
  bind (int_at o key) k w = bind (lift (int_of_key o key)) k w.
Proof.
  rewrite bind_int_at. unfold int_of_key.
  destruct (get o key (VInt 0)) as [v|e].
  - by rewrite (bind_lift _ _ _ v eq_refl).
  - reflexivity.
Qed.

(** A loop each of whose turns makes a message of its entry and sends it:
    the messages of the entries before the first that fails are published,
    in their order. *)
Lemma for_each_send {A} (conv : A -> result msg) (body : A -> M unit)
    t thing_id suffix (l : list A) :
  (forall a w,
      body a w = match conv a with
                 | Ok m => send str_of_object t thing_id suffix m w
                 | Raise e => raise e w
                 end) ->
  forall w,
    registry_ok w ->
    let r := for_each l body w in
    let n := sanitize_topic_name
               (format str_of_object thing_id ++ "/" ++ suffix)%string in
    published (effects r) = (fun m => (n, m)) <$> (collect (conv <$> l)).1
    /\ outcome r = match (collect (conv <$> l)).2 with
                   | None => Ok tt
                   | Some e => Raise e
                   end
    /\ registry_ok (after r).
Proof.
  intros Hbody. induction l as [|a l IH]; intros w Hw; [done|].
  cbn [for_each fmap list_fmap collect]. unfold bind. rewrite Hbody.
  destruct (conv a) as [m|e]; [ | done].
  destruct (send_run str_of_object t thing_id suffix m w Hw)
    as (Ho & Hp & Hw1).
  unfold and_then. rewrite Ho. cbn [after effects outcome].
  destruct (IH _ Hw1) as (IH1 & IH2 & IH3).
  destruct (collect (conv <$> l)) as [oks failure].
  cbn [fst snd] in *. rewrite published_app, Hp, IH1. done.
Qed.

Lemma alert_turn thing_id (entry : string * value) w :
  (let '(message_id, message) := entry in
   kind <- lift (get message "type" (VStr "unknown")) ;;
   sev <- int_at message "severity" ;;
   send str_of_object TAlert thing_id "alerts"
     (OfAlert {| Msg.message :=
                   (format str_of_object thing_id ++ ":"
                    ++ format str_of_object kind)%string;
                 severity := sev |})) w
  = match alert_message str_of_object thing_id entry with
    | Ok m => send str_of_object TAlert thing_id "alerts" m w
    | Raise e => raise e w
    end.
Proof.
  destruct entry as [message_id message]. unfold alert_message.
  cbn beta iota. cbn [fst snd].
  destruct (get message "type" (VStr "unknown")) as [kind|e].
  - rewrite (bind_lift _ _ _ kind eq_refl), bind_int_of_key.
    destruct (int_of_key message "severity") as [sev|e].
    + by rewrite (bind_lift _ _ _ sev eq_refl).
    + reflexivity.
  - reflexivity.
Qed.

Lemma relationship_turn thing_id (entry : string * value) w :
  (let '(rel_type, rel_data) := entry in
   target <- lift (get rel_data "target" (VStr EmptyString)) ;;
   send str_of_object TRelationship thing_id "relationships"
     (OfRelationship {| child_thing_id := thing_id;
                        parent_thing_id := target;
                        relationship_type := rel_type |})) w
  = match relationship_message thing_id entry with
    | Ok m => send str_of_object TRelationship thing_id "relationships" m w
    | Raise e => raise e w
    end.
Proof.
  destruct entry as [rel_type rel_data]. unfold relationship_message.
  cbn beta iota. cbn [fst snd].
  destruct (get rel_data "target" (VStr EmptyString)) as [target|e].
  - by rewrite (bind_lift _ _ _ target eq_refl).
  - reflexivity.
Qed.

(** A step that has effects, followed by steps that return without any,
    whether the step returns or raises. *)
Lemma bind_then_ret (m : M unit) (k : unit -> M unit) w :
  (forall w', k tt w' = ret tt w') -> bind m k w = m w.
Proof.
  intros Hk. unfold bind, and_then.
  destruct (m w) as [w1 e1 [[]|e]]; cbn; [ | done].
  rewrite Hk. cbn. by rewrite app_nil_r.
Qed.

(** The handler of [process_thing] publishes nothing, whether it returns
    or raises. *)
Lemma published_handler e thing w :
  published
    (effects
       ((log Error (ErrorProcessing e) ;;
         debug_dump debug json_dumps ThingCausedError thing) w)) = [].
Proof.
  unfold log. rewrite bind_emit, debug_dump_run. cbn [effects].
  exact (published_dump_line debug json_dumps ThingCausedError thing).
Qed.

Lemma published_process_thing thing w :
  published (effects (process_thing debug str_of_object json_dumps thing w)) =
  published (effects (route debug str_of_object json_dumps thing w)).
Proof.
  unfold process_thing, try_except.
  destruct (outcome (route debug str_of_object json_dumps thing w)); [done|].
  cbn [effects]. rewrite published_app, published_handler.
  by rewrite app_nil_r.
Qed.

Lemma route_alerts_loop thing_id entries w :
  shown debug json_dumps
    (feature_payload thing_id "alerts"
       (VDict [("properties", VDict entries)])) ->
  route debug str_of_object json_dumps
    (feature_payload thing_id "alerts"
       (VDict [("properties", VDict entries)])) w =
  let r := for_each entries
             (fun '(message_id, message) =>
                kind <- lift (get message "type" (VStr "unknown")) ;;
                sev <- int_at message "severity" ;;
                send str_of_object TAlert (VStr thing_id) "alerts"
                  (OfAlert {| Msg.message :=
                                (thing_id ++ ":"
                                 ++ format str_of_object kind)%string;
                              severity := sev |})) w in
  {| after := after r;
     effects :=
       dump_line debug json_dumps ProcessingThing
         (feature_payload thing_id "alerts"
            (VDict [("properties", VDict entries)]))
       ++ effects r;
     outcome := outcome r |}.
Proof.
  intros Hs. unfold_route. rewrite route_start by exact Hs.
  unfold feature_payload. cbn zeta.
  repeat route_step.
  rewrite bind_then_ret; [reflexivity|].
  intros w'. repeat route_step. reflexivity.
Qed.

Lemma route_relationships_loop thing_id entries w :
  shown debug json_dumps
    (feature_payload thing_id "relationships"
       (VDict [("properties", VDict entries)])) ->
  route debug str_of_object json_dumps
    (feature_payload thing_id "relationships"
       (VDict [("properties", VDict entries)])) w =
  let r := for_each entries
             (fun '(rel_type, rel_data) =>
                target <- lift (get rel_data "target" (VStr EmptyString)) ;;
                send str_of_object TRelationship (VStr thing_id)
                  "relationships"
                  (OfRelationship {| child_thing_id := VStr thing_id;
                                     parent_thing_id := target;
                                     relationship_type := rel_type |})) w in
  {| after := after r;
     effects :=
       dump_line debug json_dumps ProcessingThing
         (feature_payload thing_id "relationships"
            (VDict [("properties", VDict entries)]))
       ++ effects r;
     outcome := outcome r |}.
Proof.
  intros Hs. unfold_route. rewrite route_start by exact Hs.
  unfold feature_payload. cbn zeta.
  repeat route_step.
  rewrite bind_then_ret; [reflexivity|].
  intros w'. repeat route_step. reflexivity.
Qed.

End RouterLoops.

(** X16. The alerts of a thing are published entry by entry, in the order
    of the mapping, all on the topic of [{thingId}/alerts]: each entry that
    is a mapping whose severity [int] accepts gives one message with the
    text [{thingId}:{type}] and that severity. The first entry that is not
    such a mapping ends the routing with its exception: the entries before
    it are published, that entry and those after it are not. This with
    [debug] off, and with [debug] on where [json.dumps] makes a text of the
    payload for the debug line. *)
Theorem alerts_published_up_to_first_bad_entry
    debug str_of_object json_dumps thing_id entries w :
  registry_ok w ->
  NoDup entries.*1 ->
  let thing := feature_payload thing_id "alerts"
                 (Py.VDict [("properties", Py.VDict entries)]) in
  let results := alert_message str_of_object (Py.VStr thing_id) <$> entries in
  shown debug json_dumps thing ->
  published (effects (process_thing debug str_of_object json_dumps thing w)) =
    (fun m => (sanitize_topic_name (thing_id ++ "/alerts")%string, m))
      <$> (collect results).1
  /\ outcome (route debug str_of_object json_dumps thing w) =
     match (collect results).2 with
     | None => Py.Ok tt
     | Some e => Py.Raise e
     end.
Proof.
  intros Hw _ thing results Hs.
  rewrite published_process_thing. unfold thing.
  rewrite route_alerts_loop by exact Hs. cbn zeta. cbn [effects outcome].
  rewrite published_app, published_dump_line.
  destruct (for_each_send str_of_object
              (alert_message str_of_object (Py.VStr thing_id)) _
              Msg.TAlert (Py.VStr thing_id) "alerts" entries
              (alert_turn str_of_object (Py.VStr thing_id)) w Hw)
    as (H1 & H2 & _).
  split; [exact H1 | exact H2].
Qed.

Lemma alerts_published_up_to_first_bad_entry_witness :
  published
    (effects
       (process_thing true (fun _ => EmptyString) (fun _ => Py.Ok "{...}")
          (feature_payload "t1" "alerts"
             (Py.VDict
                [("properties",
                  Py.VDict
                    [("a1", Py.VDict [("type", Py.VStr "fire");
                                      ("severity", Py.VFloat f3_5)]);
                     ("a2", Py.VInt 5);
                     ("a3", Py.VDict [("type", Py.VStr "flood")])])]))
          initial)) =
  [("/t1/alerts",
    Msg.OfAlert {| Msg.message := "t1:fire"; Msg.severity := 3 |})].
Proof.
  refine (proj1 (alerts_published_up_to_first_bad_entry true
                   (fun _ => EmptyString) (fun _ => Py.Ok "{...}") "t1"
                   [("a1", Py.VDict [("type", Py.VStr "fire");
                                     ("severity", Py.VFloat f3_5)]);
                    ("a2", Py.VInt 5);
                    ("a3", Py.VDict [("type", Py.VStr "flood")])]
                   initial initial_registry_ok _ _)).
  - apply (bool_decide_unpack _). vm_compute. exact I.
  - intros _. by exists "{...}".
Defined.

(** X17. The relationships of a thing are published entry by entry, in
    the order of the mapping, all on the topic of [{thingId}/relationships]:
    the key of an entry is the relationship type, its [target], the empty
    text when it has none, is the parent, and the thing is the child. The
    first entry that is not a mapping ends the routing: the entries before
    it are published, that entry and those after it are not. This with
    [debug] off, and with [debug] on where [json.dumps] makes a text of the
    payload for the debug line. *)
Theorem relationships_published_up_to_first_bad_entry
    debug str_of_object json_dumps thing_id entries w :
  registry_ok w ->
  NoDup entries.*1 ->
  let thing := feature_payload thing_id "relationships"
                 (Py.VDict [("properties", Py.VDict entries)]) in
  let results := relationship_message (Py.VStr thing_id) <$> entries in
  shown debug json_dumps thing ->
  published (effects (process_thing debug str_of_object json_dumps thing w)) =
    (fun m => (sanitize_topic_name (thing_id ++ "/relationships")%string, m))
      <$> (collect results).1
  /\ outcome (route debug str_of_object json_dumps thing w) =
     match (collect results).2 with
     | None => Py.Ok tt
     | Some e => Py.Raise e
     end.
Proof.
  intros Hw _ thing results Hs.
  rewrite published_process_thing. unfold thing.
  rewrite route_relationships_loop by exact Hs.
  cbn zeta. cbn [effects outcome].
  rewrite published_app, published_dump_line.
  destruct (for_each_send str_of_object
              (relationship_message (Py.VStr thing_id)) _
              Msg.TRelationship (Py.VStr thing_id) "relationships" entries
              (relationship_turn str_of_object (Py.VStr thing_id)) w Hw)
    as (H1 & H2 & _).
  split; [exact H1 | exact H2].
Qed.

Lemma relationships_published_up_to_first_bad_entry_witness :
  published
    (effects
       (process_thing true (fun _ => EmptyString) (fun _ => Py.Ok "{...}")
          (feature_payload "m1" "relationships"
             (Py.VDict
                [("properties",
                  Py.VDict
                    [("partOf", Py.VDict [("target", Py.VStr "line:1")]);
                     ("feeds", Py.VDict [])])]))
          initial)) =
  [("/m1/relationships",
    Msg.OfRelationship {| Msg.child_thing_id := Py.VStr "m1";
                          Msg.parent_thing_id := Py.VStr "line:1";
                          Msg.relationship_type := "partOf" |});
   ("/m1/relationships",
    Msg.OfRelationship {| Msg.child_thing_id := Py.VStr "m1";
                          Msg.parent_thing_id := Py.VStr EmptyString;
                          Msg.relationship_type := "feeds" |})].
Proof.
  refine (proj1 (relationships_published_up_to_first_bad_entry true
                   (fun _ => EmptyString) (fun _ => Py.Ok "{...}") "m1"
                   [("partOf", Py.VDict [("target", Py.VStr "line:1")]);
                    ("feeds", Py.VDict [])]
                   initial initial_registry_ok _ _)).
  - apply (bool_decide_unpack _). vm_compute. exact I.
  - intros _. by exists "{...}".
Defined.

(** ** Feature router: missing properties, and the location *)

(** The branch of a feature that is there, with properties known by a
    hypothesis. *)
Ltac present_step H :=
  match goal with
  | |- context [bind (on_feature ?f ?name ?body) ?k ?w] =>
      rewrite (bind_feature_present f name body k w _ _ eq_refl eq_refl H)
  | |- context [on_feature ?f ?name ?body ?w] =>
      rewrite (on_feature_present f name body w _ _ eq_refl eq_refl H)
  end.

Ltac default_case Hs H :=
  unfold_route; rewrite route_start by exact Hs;
  unfold feature_payload; cbn zeta;
  repeat first [present_step H | route_step];
  first
    [ rewrite bind_then_ret;
      [ rewrite send_ok; reflexivity
      | intros ?; repeat route_step; reflexivity ]
    | rewrite send_ok; reflexivity ].

Section RouterDefaults.
Import Py Msg.
Variable debug : bool.
Variable str_of_object : value -> string.
Variable json_dumps : value -> Py.result string.

Lemma route_default thing_id nm feature w :
  nm ∈ default_messages (VStr thing_id) ->
  get feature "properties" (VDict []) = Ok (VDict []) ->
  shown debug json_dumps (feature_payload thing_id nm.1 feature) ->
  route debug str_of_object json_dumps
    (feature_payload thing_id nm.1 feature) w =
    (let r := send str_of_object (class_of nm.2) (VStr thing_id)
                (suffix_of (class_of nm.2)) nm.2 w in
     {| after := after r;
        effects :=
          dump_line debug json_dumps ProcessingThing
            (feature_payload thing_id nm.1 feature)
          ++ effects r;
        outcome := Ok tt |}).
Proof.
  unfold default_messages. intros Hin Hf.
  repeat (apply elem_of_cons in Hin as [->|Hin]);
    [ .. | by apply elem_of_nil in Hin];
    cbn [fst snd class_of suffix_of]; intros Hs; default_case Hs Hf.
Qed.

End RouterDefaults.

Section RouterLocation.
Import Py Msg.
Variable debug : bool.
Variable str_of_object : value -> string.
Variable json_dumps : value -> Py.result string.

Lemma thing_id_of_object thing key default v :
  get thing key default = Ok v ->
  get thing "thingId" (VStr EmptyString) = Ok (thing_id_of thing)
  /\ exists features, get thing "features" (VDict []) = Ok features.
Proof.
  destruct thing; try discriminate. intros _. split; [done | by eexists].
Qed.

Lemma route_bad_location thing attributes location e w :
  get thing "attributes" (VDict []) = Ok attributes ->
  has "location" attributes = Ok true ->
  getitem attributes "location" = Ok location ->
  location_point location = Raise e ->
  shown debug json_dumps thing ->
  route debug str_of_object json_dumps thing w =
    {| after := w;
       effects := dump_line debug json_dumps ProcessingThing thing;
       outcome := Raise e |}.
Proof.
  intros Ha Hl Hg He Hs. unfold_route. rewrite route_start by exact Hs.
  destruct (thing_id_of_object _ _ _ _ Ha) as [Ht [features Hf]].
  rewrite (bind_lift _ _ _ _ Ht), (bind_lift _ _ _ _ Ha),
    (bind_lift _ _ _ _ Hf).
  rewrite bind_assoc, (bind_lift _ _ _ _ Hl). cbn [when].
  rewrite bind_assoc, (bind_lift _ _ _ _ Hg).
  rewrite bind_assoc, bind_float_of_key.
  unfold location_point in He.
  destruct (float_of_key location "longitude") as [px|e1].
  2:{ injection He as ->. cbn. by rewrite app_nil_r. }
  rewrite (bind_lift _ _ _ px eq_refl), bind_assoc, bind_float_of_key.
  destruct (float_of_key location "latitude") as [py|e1].
  2:{ injection He as ->. cbn. by rewrite app_nil_r. }
  rewrite (bind_lift _ _ _ py eq_refl), bind_assoc, bind_float_of_key.
  destruct (float_of_key location "elevation") as [pz|e1]; [done|].
  injection He as ->. cbn. by rewrite app_nil_r.
Qed.

Lemma route_good_location thing attributes location pt asset_type w :
  get thing "attributes" (VDict []) = Ok attributes ->
  has "location" attributes = Ok true ->
  getitem attributes "location" = Ok location ->
  location_point location = Ok pt ->
  get attributes "asset_type" (VStr EmptyString) = Ok asset_type ->
  shown debug json_dumps thing ->
  exists rest,
    effects (route debug str_of_object json_dumps thing w) =
    dump_line debug json_dumps ProcessingThing thing
    ++ effects (send str_of_object TAssetMetadata (thing_id_of thing)
                  "metadata"
                  (OfAssetMetadata
                     {| asset_id := thing_id_of thing; type := asset_type;
                        Msg.location := pt |}) w)
    ++ rest.
Proof.
  intros Ha Hl Hg Hp Hk Hs. unfold_route. rewrite route_start by exact Hs.
  destruct (thing_id_of_object _ _ _ _ Ha) as [Ht [features Hf]].
  rewrite (bind_lift _ _ _ _ Ht), (bind_lift _ _ _ _ Ha),
    (bind_lift _ _ _ _ Hf).
  rewrite bind_assoc, (bind_lift _ _ _ _ Hl). cbn [when].
  rewrite bind_assoc, (bind_lift _ _ _ _ Hg).
  rewrite bind_assoc, bind_float_of_key.
  unfold location_point in Hp.
  destruct (float_of_key location "longitude") as [px|e1]; [ | done].
  rewrite (bind_lift _ _ _ px eq_refl), bind_assoc, bind_float_of_key.
  destruct (float_of_key location "latitude") as [py|e1]; [ | done].
  rewrite (bind_lift _ _ _ py eq_refl), bind_assoc, bind_float_of_key.
  destruct (float_of_key location "elevation") as [pz|e1]; [ | done].
  injection Hp as <-.
  rewrite (bind_lift _ _ _ pz eq_refl), bind_assoc, (bind_lift _ _ _ _ Hk).
  rewrite (bind_ok _ _ _ tt (send_ok _ _ _ _ _ _)). cbn [effects].
  eexists. reflexivity.
Qed.

End RouterLocation.

(** X18. A feature that is there without any property, a mapping with no
    properties or with empty ones, is published all the same, with the
    defaults of the router: 0.0 for a number read by [float], 0 for one read
    by [int], false for the valve, the empty text for a text, [unknown] for
    the state of a traffic light. This holds of each of the twelve features
    whose branch publishes one message, with [debug] off, and with [debug]
    on where [json.dumps] makes a text of the payload for the debug line. *)
Theorem feature_without_properties_publishes_defaults
    debug str_of_object json_dumps thing_id w :
  registry_ok w ->
  Forall
    (fun nm : string * Msg.msg =>
       forall feature,
         Py.get feature "properties" (Py.VDict []) = Py.Ok (Py.VDict []) ->
         shown debug json_dumps (feature_payload thing_id nm.1 feature) ->
         let r := process_thing debug str_of_object json_dumps
                    (feature_payload thing_id nm.1 feature) w in
         outcome r = Py.Ok tt
         /\ published (effects r) =
            [(sanitize_topic_name
                (thing_id ++ "/" ++ suffix_of (class_of nm.2))%string, nm.2)])
    (default_messages (Py.VStr thing_id)).
Proof.
  intros Hw. apply Forall_forall. intros nm Hin feature Hf Hs.
  apply (one_send debug str_of_object json_dumps _ (class_of nm.2)
           (Py.VStr thing_id) (suffix_of (class_of nm.2)) nm.2
           (dump_line debug json_dumps ProcessingThing
              (feature_payload thing_id nm.1 feature)) w).
  - by apply route_default.
  - apply published_dump_line.
  - exact Hw.
Qed.

Lemma feature_without_properties_publishes_defaults_witness :
  published
    (effects (process_thing true (fun _ => EmptyString)
                (fun _ => Py.Ok "{...}")
                (feature_payload "farm:pump" "water" (Py.VDict [])) initial))
  = [("/farm_pump/sensor/water",
      Msg.OfWaterManagement
        {| Msg.water_level := Py.zero; Msg.flow_rate := Py.zero;
           Msg.turbidity := Py.zero; Msg.valve_status := false |})].
Proof.
  pose proof (feature_without_properties_publishes_defaults true
                (fun _ => EmptyString) (fun _ => Py.Ok "{...}") "farm:pump"
                initial initial_registry_ok) as H.
  rewrite Forall_forall in H.
  refine (proj2 (H ("water",
                    Msg.OfWaterManagement
                      {| Msg.water_level := Py.zero; Msg.flow_rate := Py.zero;
                         Msg.turbidity := Py.zero;
                         Msg.valve_status := false |})
                   _ (Py.VDict []) eq_refl
                   (fun _ => ex_intro _ "{...}" eq_refl))).
  unfold default_messages. do 9 apply list_elem_of_further.
  apply list_elem_of_here.
Defined.

(** X19. The location is read before any feature is looked at: when the
    attributes hold a location of which a coordinate cannot be read as a
    number, or that is not a mapping, the routing ends there. Nothing is
    published and nothing is created, whatever features the thing has,
    whatever [debug] is and whatever [json.dumps] does, and the node stays
    as it was. Where the payload can be shown in the debug lines, one error
    line names the exception of the location and none is raised. *)
Theorem bad_location_stops_the_routing
    debug str_of_object json_dumps thing attributes location e w :
  Py.get thing "attributes" (Py.VDict []) = Py.Ok attributes ->
  Py.has "location" attributes = Py.Ok true ->
  Py.getitem attributes "location" = Py.Ok location ->
  location_point location = Py.Raise e ->
  let r := process_thing debug str_of_object json_dumps thing w in
  after r = w
  /\ published (effects r) = []
  /\ created (effects r) = []
  /\ (shown debug json_dumps thing ->
      r = {| after := w;
             effects :=
               dump_line debug json_dumps ProcessingThing thing
               ++ Log Error (ErrorProcessing e)
                  :: dump_line debug json_dumps ThingCausedError thing;
             outcome := Py.Ok tt |}).
Proof.
  intros Ha Hl Hg He r.
  assert (shown debug json_dumps thing ->
          r = {| after := w;
                 effects :=
                   dump_line debug json_dumps ProcessingThing thing
                   ++ Log Error (ErrorProcessing e)
                      :: dump_line debug json_dumps ThingCausedError thing;
                 outcome := Py.Ok tt |}) as Hshown.
  { intros Hs. apply process_thing_of_failure; [exact Hs|].
    by apply (route_bad_location _ _ _ _ attributes location). }
  assert (after r = w /\ published (effects r) = []
          /\ created (effects r) = []) as (H1 & H2 & H3).
  { destruct debug eqn:Hd.
    - destruct (json_dumps thing) as [dump|e'] eqn:E.
      + rewrite Hshown by (intros _; by exists dump).
        unfold dump_line. rewrite E. done.
      + unfold r.
        by rewrite (process_thing_dump_fails true str_of_object json_dumps
                      thing e' w eq_refl E).
    - rewrite Hshown by (intros ?; discriminate). done. }
  done.
Qed.

Lemma bad_location_stops_the_routing_witness :
  let thing :=
    Py.VDict
      [("thingId", Py.VStr "t1");
       ("attributes",
        Py.VDict [("location", Py.VDict [("longitude", Py.VStr "east")])]);
       ("features",
        Py.VDict [("temperature",
                   Py.VDict [("properties",
                              Py.VDict [("value", Py.VInt 20)])])])] in
  published
    (effects (process_thing true (fun _ => EmptyString)
                (fun _ => Py.Raise Py.RecursionError) thing initial)) = [].
Proof.
  intros thing.
  exact (proj1 (proj2
           (bad_location_stops_the_routing true (fun _ => EmptyString)
              (fun _ => Py.Raise Py.RecursionError) thing
              (Py.VDict [("location",
                          Py.VDict [("longitude", Py.VStr "east")])])
              (Py.VDict [("longitude", Py.VStr "east")]) Py.ValueError
              initial eq_refl eq_refl eq_refl eq_refl))).
Defined.

(** X20. When the attributes hold a location whose coordinates can be
    read, the first message published is the metadata of the asset, on the
    topic of [{thingId}/metadata]: its point has the longitude as x, the
    latitude as y and the elevation as z, 0.0 standing for a coordinate
    that is missing, and it carries the thing's id and asset type. The
    features come after it. This with [debug] off, and with [debug] on where
    [json.dumps] makes a text of the payload for the debug line. *)
Theorem metadata_is_published_first
    debug str_of_object json_dumps thing attributes location pt asset_type
    w :
  registry_ok w ->
  shown debug json_dumps thing ->
  Py.get thing "attributes" (Py.VDict []) = Py.Ok attributes ->
  Py.has "location" attributes = Py.Ok true ->
  Py.getitem attributes "location" = Py.Ok location ->
  location_point location = Py.Ok pt ->
  Py.get attributes "asset_type" (Py.VStr EmptyString) = Py.Ok asset_type ->
  (exists rest,
      published
        (effects (process_thing debug str_of_object json_dumps thing w)) =
      (sanitize_topic_name
         (format str_of_object (thing_id_of thing) ++ "/metadata")%string,
       Msg.OfAssetMetadata
         {| Msg.asset_id := thing_id_of thing; Msg.type := asset_type;
            Msg.location := pt |}) :: rest)
  /\ forall lon lat,
       location_point
         (Py.VDict [("latitude", Py.VFloat lat); ("longitude", Py.VFloat lon)])
       = Py.Ok {| Msg.x := lon; Msg.y := lat; Msg.z := Py.zero |}.
Proof.
  intros Hw Hs Ha Hl Hg Hp Hk. split; [ | reflexivity].
  rewrite published_process_thing.
  destruct (route_good_location debug str_of_object json_dumps thing
              attributes location pt asset_type w Ha Hl Hg Hp Hk Hs)
    as [rest ->].
  rewrite !published_app, published_dump_line.
  destruct (send_run str_of_object Msg.TAssetMetadata (thing_id_of thing)
              "metadata"
              (Msg.OfAssetMetadata
                 {| Msg.asset_id := thing_id_of thing; Msg.type := asset_type;
                    Msg.location := pt |}) w Hw) as (_ & -> & _).
  by eexists.
Qed.

Lemma metadata_is_published_first_witness :
  let thing :=
    Py.VDict
      [("thingId", Py.VStr "city:lamp1");
       ("attributes",
        Py.VDict [("asset_type", Py.VStr "lamp");
                  ("location",
                   Py.VDict [("latitude", Py.VFloat f3_5);
                             ("longitude", Py.VFloat f21_5)])])] in
  exists rest,
    published
      (effects (process_thing true (fun _ => EmptyString)
                  (fun _ => Py.Ok "{...}") thing initial)) =
    ("/city_lamp1/metadata",
     Msg.OfAssetMetadata
       {| Msg.asset_id := Py.VStr "city:lamp1"; Msg.type := Py.VStr "lamp";
          Msg.location :=
            {| Msg.x := f21_5; Msg.y := f3_5; Msg.z := Py.zero |} |}) :: rest.
Proof.
  intros thing.
  exact (proj1 (metadata_is_published_first true (fun _ => EmptyString)
                  (fun _ => Py.Ok "{...}") thing
                  (Py.VDict [("asset_type", Py.VStr "lamp");
                             ("location",
                              Py.VDict [("latitude", Py.VFloat f3_5);
                                        ("longitude", Py.VFloat f21_5)])])
                  (Py.VDict [("latitude", Py.VFloat f3_5);
                             ("longitude", Py.VFloat f21_5)])
                  {| Msg.x := f21_5; Msg.y := f3_5; Msg.z := Py.zero |}
                  (Py.VStr "lamp") initial initial_registry_ok
                  (fun _ => ex_intro _ "{...}" eq_refl)
                  eq_refl eq_refl eq_refl eq_refl eq_refl)).
Defined.

(** ** From a line of the stream to the router *)

Section DataLine.
Import Py.
Variable debug : bool.
Variable str_of_object : value -> string.
Variable json_dumps : value -> Py.result string.
Variable json_loads : string -> Py.result value.

Lemma lstrip_rstrip s : lstrip (rstrip s) = rstrip (lstrip s).
Proof.
  induction s as [|c s IH]; [reflexivity|].
  destruct (isspace c) eqn:Hc.
  - cbn [lstrip rstrip]. rewrite Hc.
    destruct (rstrip s) as [|d r] eqn:E.
    + rewrite <- IH. reflexivity.
    + cbn [lstrip]. by rewrite Hc.
  - rewrite (rstrip_head _ _ Hc). cbn [lstrip]. rewrite Hc.
    by rewrite (rstrip_head _ _ Hc).
Qed.

Lemma strip_rstrip s : strip (rstrip s) = strip s.
Proof. unfold strip. by rewrite lstrip_rstrip, rstrip_rstrip. Qed.

Lemma strip_data_line payload :
  strip ("data:" ++ payload)%string = ("data:" ++ rstrip payload)%string.
Proof.
  unfold strip. rewrite !append_cons, append_nil. cbn [lstrip].
  change (isspace "d") with false. cbn iota.
  by rewrite !rstrip_head.
Qed.

Lemma one_line_rstrip s : one_line s = true -> one_line (rstrip s) = true.
Proof. apply all_chars_rstrip. Qed.

Lemma sse_parse_data_line payload :
  one_line payload = true ->
  sse_parse (gen_of_list [Utf8 ("data:" ++ payload)%string; Utf8 EmptyString])
  = Yield (<["data" := strip payload]> ∅) Done.
Proof.
  intros H. unfold sse_parse, gen_of_list.
  cbn [gen_app sse_parse_from decode]. rewrite strip_data_line.
  rewrite !append_cons, !append_nil. cbn [nonempty].
  change (strip EmptyString) with EmptyString. cbn [nonempty].
  cbn zeta.
  change (String "d" (String "a" (String "t" (String "a" (String ":"
            (rstrip payload ++ LF))))))%string
    with (("data:" ++ rstrip payload) ++ LF ++ EmptyString)%string.
  rewrite split_line.
  2:{ rewrite !append_cons, append_nil. cbn. by apply one_line_rstrip. }
  unfold parse_lines. cbn [Py.split fold_left].
  rewrite !append_cons, append_nil. cbn [split_once].
  change (Ascii.eqb "d" ":") with false. change (Ascii.eqb "a" ":") with false.
  change (Ascii.eqb "t" ":") with false. change (Ascii.eqb ":" ":") with true.
  cbn iota. rewrite strip_rstrip. change (strip "data") with "data".
  rewrite bool_decide_eq_true_2 by apply insert_non_empty. reflexivity.
Qed.

Lemma consume_one event w :
  consume debug str_of_object json_dumps json_loads (Yield event Done) w =
  on_event debug str_of_object json_dumps json_loads event w.
Proof.
  cbn [consume]. unfold bind, and_then.
  destruct (on_event debug str_of_object json_dumps json_loads event w)
    as [w1 e1 [[]|e]]; cbn; by rewrite ?app_nil_r.
Qed.

End DataLine.

(** X21. The payload of a [data:] line reaches [json.loads] as it was
    sent, but for the white space around it: the line is split at its first
    colon only, so the colons of the JSON text stay. When the blank line
    that ends the event arrives, the text is decoded and the object is
    routed. A text that is not JSON gives one warning, and none when it is
    empty; any other exception of [json.loads], and an exception that
    leaves [process_thing], ends the consumption of the stream. *)
Theorem data_line_is_decoded_and_routed
    debug str_of_object json_dumps json_loads payload w :
  one_line payload = true ->
  let data := Py.strip payload in
  let event : gmap string string := <["data" := data]> ∅ in
  let received := debug_line debug (ReceivedEvent event) in
  let r :=
    consume debug str_of_object json_dumps json_loads
      (sse_parse
         (gen_of_list [Utf8 ("data:" ++ payload)%string; Utf8 EmptyString]))
      w in
  (forall thing,
      json_loads data = Py.Ok thing ->
      let p := process_thing debug str_of_object json_dumps thing w in
      (outcome p = Py.Ok tt ->
       r = {| after := after p; effects := received ++ effects p;
              outcome := Py.Ok tt |})
      /\ (forall e,
            outcome p = Py.Raise e -> is_json_decode_error e = false ->
            r = {| after := after p; effects := received ++ effects p;
                   outcome := Py.Raise e |}))
  /\ (forall e,
        json_loads data = Py.Raise e -> is_json_decode_error e = true ->
        r = {| after := w;
               effects :=
                 received
                 ++ (if nonempty data then [Log Warn (NonJsonData data)]
                     else []);
               outcome := Py.Ok tt |})
  /\ (forall e,
        json_loads data = Py.Raise e -> is_json_decode_error e = false ->
        r = {| after := w; effects := received; outcome := Py.Raise e |}).
Proof.
  intros H data event received r.
  assert (r = on_event debug str_of_object json_dumps json_loads event w)
    as ->.
  { unfold r. by rewrite (sse_parse_data_line _ H), consume_one. }
  assert (event !! "data" = Some data) as Hd by apply lookup_insert_eq.
  split; [ | split].
  - intros thing Hl p. split.
    + intros Hp. by apply (on_event_thing _ _ _ _ _ data).
    + intros e Hp He. by apply (on_event_thing_raise _ _ _ _ _ data).
  - intros e Hl He. by apply (on_event_not_json _ _ _ _ _ data e).
  - intros e Hl He. by apply (on_event_loads_raise _ _ _ _ _ data).
Qed.

Lemma data_line_is_decoded_and_routed_witness :
  published
    (effects
       (consume false (fun _ => EmptyString) (fun _ => Py.Ok EmptyString)
          (fun s => if String.eqb s "{temp:21.5}"
                    then Py.Ok temperature_payload
                    else Py.Raise Py.JSONDecodeError)
          (sse_parse
             (gen_of_list [Utf8 ("data:" ++ " {temp:21.5} ")%string;
                           Utf8 EmptyString]))
          initial))
  = [("/org_x_dev1/sensor/temperature",
      Msg.OfTemperature {| Msg.temperature := f21_5 |})].
Proof.
  rewrite (proj1 (proj1 (data_line_is_decoded_and_routed false
                           (fun _ => EmptyString)
                           (fun _ => Py.Ok EmptyString)
                           (fun s => if String.eqb s "{temp:21.5}"
                                     then Py.Ok temperature_payload
                                     else Py.Raise Py.JSONDecodeError)
                           " {temp:21.5} " initial eq_refl)
                    temperature_payload eq_refl) eq_refl).
  vm_compute. reflexivity.
Defined.

(** ** Stream supervisor: the end of the loop *)

Section WorkerEnd.
Variable debug : bool.
Variable str_of_object : Py.value -> string.
Variable json_dumps : Py.value -> Py.result string.
Variable json_loads : string -> Py.result Py.value.
Variable sse_url : string.

Lemma subscribe_stop pre : forall r rest w,
  ok r = false ->
  Forall (fun r => ok r = true) pre ->
  subscribe_to_changes debug str_of_object json_dumps json_loads sse_url
    (pre ++ r :: rest) w =
  {| after := after (subscribe_to_changes debug str_of_object json_dumps
                       json_loads sse_url pre w);
     effects := effects (subscribe_to_changes debug str_of_object json_dumps
                           json_loads sse_url pre w);
     outcome := Py.Ok Returned |}.
Proof.
  induction pre as [|r0 pre IH]; intros r rest w Hr Hpre.
  - cbn. by rewrite Hr.
  - apply Forall_cons in Hpre as [H0 Hpre].
    rewrite <- app_comm_cons, !(subscribe_cons _ _ _ _ _ _ _ _ H0).
    destruct (turn_run debug str_of_object json_dumps json_loads sse_url
                (answer r0) w) as [Ho _].
    unfold and_then. rewrite Ho. cbn [after effects outcome].
    by rewrite (IH r rest _ Hr Hpre).
Qed.

End WorkerEnd.

(** X22. Once [rclpy.ok()] answers false the worker is done: it returns
    without another request, another delay or any other effect, whatever
    the environment would still have held for it, and it leaves the node as
    the turns before left it. *)
Theorem worker_stops_when_not_ok
    debug str_of_object json_dumps json_loads sse_url pre r rest w :
  ok r = false ->
  Forall (fun r => ok r = true) pre ->
  let worker :=
    subscribe_to_changes debug str_of_object json_dumps json_loads sse_url in
  worker (pre ++ r :: rest) w =
    {| after := after (worker pre w); effects := effects (worker pre w);
       outcome := Py.Ok Returned |}
  /\ requests (effects (worker (pre ++ r :: rest) w)) =
     replicate (length pre) sse_url
  /\ sleeps (effects (worker (pre ++ r :: rest) w)) = replicate (length pre) 5.
Proof.
  intros Hr Hpre worker. unfold worker.
  rewrite (subscribe_stop _ _ _ _ _ _ _ _ _ Hr Hpre). cbn [effects].
  destruct (subscribe_run debug str_of_object json_dumps json_loads sse_url
              pre w Hpre) as (_ & H1 & H2).
  done.
Qed.

Lemma worker_stops_when_not_ok_witness :
  requests
    (effects
       (subscribe_to_changes false (fun _ => EmptyString)
          (fun _ => Py.Ok EmptyString) (fun _ => Py.Raise Py.JSONDecodeError)
          "http://localhost:8080/api/2/things"
          ([ {| ok := true; answer := Response 503 Done |} ]
           ++ {| ok := false; answer := Response 200 Done |}
              :: [ {| ok := true; answer := Response 200 Done |} ])
          initial))
  = ["http://localhost:8080/api/2/things"].
Proof.
  exact (proj1 (proj2
           (worker_stops_when_not_ok false (fun _ => EmptyString)
              (fun _ => Py.Ok EmptyString)
              (fun _ => Py.Raise Py.JSONDecodeError)
              "http://localhost:8080/api/2/things"
              [ {| ok := true; answer := Response 503 Done |} ]
              {| ok := false; answer := Response 200 Done |}
              [ {| ok := true; answer := Response 200 Done |} ]
              initial eq_refl
              ltac:(repeat constructor)))).
Defined.

(** ** Credentials: the header and what the receiver reads back *)

Section Below.

Lemma below_spec n P :
  below n P = true -> forall i, 0 <= i < Z.of_nat n -> P i = true.
Proof.
  unfold below. intros H i Hi.
  rewrite forallb_forall in H. apply H.
  apply in_map_iff. exists (Z.to_nat i). split; [lia|].
  apply in_seq. lia.
Qed.

End Below.

(** Reads a checked conjunction of comparisons back as propositions. *)
Ltac unpack H :=
  repeat match type of H with
         | (_ && _)%bool = true =>
             let H1 := fresh in
             apply andb_prop in H as [H1 H]; unpack H1
         | (_ <=? _) = true => apply Z.leb_le in H
         | (_ <? _) = true => apply Z.ltb_lt in H
         | (_ =? _) = true => apply Z.eqb_eq in H
         end.

Section Octets.

Lemma first_octet a b :
  octet a -> octet b ->
  let s1 := Z.shiftr a 2 in
  let s2 := Z.lor (Z.shiftl (Z.land a 3) 4) (Z.shiftr b 4) in
  (0 <= s1 < 64 /\ 0 <= s2 < 64)
  /\ Z.lor (Z.shiftl s1 2) (Z.shiftr s2 4) = a.
Proof.
  intros Ha Hb.
  assert (below 256 (fun a => below 256 (fun b =>
            let s1 := Z.shiftr a 2 in
            let s2 := Z.lor (Z.shiftl (Z.land a 3) 4) (Z.shiftr b 4) in
            (0 <=? s1) && (s1 <? 64) && (0 <=? s2) && (s2 <? 64)
            && (Z.lor (Z.shiftl s1 2) (Z.shiftr s2 4) =? a))) = true) as H
    by (vm_compute; reflexivity).
  apply (below_spec _ _ H a) in Ha. apply (below_spec _ _ Ha b) in Hb.
  cbn zeta in *. unpack Hb. auto.
Qed.

Lemma low_two a : octet a -> 0 <= Z.land a 3 < 4.
Proof.
  intros Ha.
  assert (below 256 (fun a => (0 <=? Z.land a 3) && (Z.land a 3 <? 4)) = true)
    as H by (vm_compute; reflexivity).
  apply (below_spec _ _ H a) in Ha. unpack Ha. auto.
Qed.

Lemma high_two c : octet c -> 0 <= Z.shiftr c 6 < 4.
Proof.
  intros Hc.
  assert (below 256 (fun c => (0 <=? Z.shiftr c 6) && (Z.shiftr c 6 <? 4))
          = true) as H by (vm_compute; reflexivity).
  apply (below_spec _ _ H c) in Hc. unpack Hc. auto.
Qed.

Lemma second_octet p b q :
  0 <= p < 4 -> octet b -> 0 <= q < 4 ->
  let s2 := Z.lor (Z.shiftl p 4) (Z.shiftr b 4) in
  let s3 := Z.lor (Z.shiftl (Z.land b 15) 2) q in
  0 <= s3 < 64
  /\ Z.lor (Z.shiftl (Z.land s2 15) 4) (Z.shiftr s3 2) = b.
Proof.
  intros Hp Hb Hq.
  assert (below 4 (fun p => below 256 (fun b => below 4 (fun q =>
            let s2 := Z.lor (Z.shiftl p 4) (Z.shiftr b 4) in
            let s3 := Z.lor (Z.shiftl (Z.land b 15) 2) q in
            (0 <=? s3) && (s3 <? 64)
            && (Z.lor (Z.shiftl (Z.land s2 15) 4) (Z.shiftr s3 2) =? b))))
          = true) as H by (vm_compute; reflexivity).
  apply (below_spec _ _ H p) in Hp. apply (below_spec _ _ Hp b) in Hb.
  apply (below_spec _ _ Hb q) in Hq.
  cbn zeta in *. unpack Hq. auto.
Qed.

Lemma third_octet b c :
  octet b -> octet c ->
  let s3 := Z.lor (Z.shiftl (Z.land b 15) 2) (Z.shiftr c 6) in
  let s4 := Z.land c 63 in
  0 <= s4 < 64 /\ Z.lor (Z.shiftl (Z.land s3 3) 6) s4 = c.
Proof.
  intros Hb Hc.
  assert (below 256 (fun b => below 256 (fun c =>
            let s3 := Z.lor (Z.shiftl (Z.land b 15) 2) (Z.shiftr c 6) in
            let s4 := Z.land c 63 in
            (0 <=? s4) && (s4 <? 64)
            && (Z.lor (Z.shiftl (Z.land s3 3) 6) s4 =? c))) = true) as H
    by (vm_compute; reflexivity).
  apply (below_spec _ _ H b) in Hb. apply (below_spec _ _ Hb c) in Hc.
  cbn zeta in *. unpack Hc. auto.
Qed.

(** The character of a number of the table: an ASCII character of a
    Base64 text, not the padding, with that number. *)
Lemma table_entry i :
  0 <= i < 64 ->
  0 <= b64_octet i < 128
  /\ b64_index (ascii_of_Z (b64_octet i)) = Some i
  /\ Ascii.eqb (ascii_of_Z (b64_octet i)) "=" = false
  /\ b64_text_char (ascii_of_Z (b64_octet i)) = true.
Proof.
  intros Hi.
  assert (below 64 (fun i =>
            let o := b64_octet i in
            (0 <=? o) && (o <? 128)
            && match b64_index (ascii_of_Z o) with
               | Some j => j =? i
               | None => false
               end
            && negb (Ascii.eqb (ascii_of_Z o) "=")
            && b64_text_char (ascii_of_Z o)) = true) as H
    by (vm_compute; reflexivity).
  apply (below_spec _ _ H i) in Hi. cbn zeta in Hi.
  apply andb_prop in Hi as [Hi H4]. apply andb_prop in Hi as [Hi H3].
  apply andb_prop in Hi as [Hi H2]. unpack Hi.
  apply negb_true_iff in H3.
  destruct (b64_index (ascii_of_Z (b64_octet i))) as [j|]; [ | done].
  apply Z.eqb_eq in H2 as ->. auto.
Qed.

Lemma decode_octets_ascii o l :
  0 <= o < 128 ->
  decode_octets (o :: l) = option_map (String (ascii_of_Z o)) (decode_octets l).
Proof.
  intros [H1 H2]. cbn [decode_octets].
  apply Z.leb_le in H1. apply Z.ltb_lt in H2. by rewrite H1, H2.
Qed.

Lemma encode_char_octets c : Forall octet (encode_char c).
Proof.
  assert (forallb (fun o => (0 <=? o) && (o <? 256)) (encode_char c) = true)
    as H by (destruct c as [[] [] [] [] [] [] [] []]; reflexivity).
  rewrite forallb_forall in H. apply Forall_forall. intros o Ho.
  apply list_elem_of_In, H in Ho. unpack Ho. by split.
Qed.

Lemma encode_octets s : Forall octet (encode s).
Proof.
  induction s as [|c s IH]; [constructor|].
  cbn [encode]. apply Forall_app. split; [apply encode_char_octets | exact IH].
Qed.

Lemma decode_encode_char c l :
  decode_octets (encode_char c ++ l) =
  option_map (String c) (decode_octets l).
Proof. destruct c as [[] [] [] [] [] [] [] []]; reflexivity. Qed.

Lemma decode_encode s : decode_octets (encode s) = Some s.
Proof.
  induction s as [|c s IH]; [reflexivity|].
  cbn [encode]. by rewrite decode_encode_char, IH.
Qed.

Lemma list_ind3 {A} (P : list A -> Prop) :
  P [] -> (forall a, P [a]) -> (forall a b, P [a; b]) ->
  (forall a b c l, P l -> P (a :: b :: c :: l)) ->
  forall l, P l.
Proof.
  intros H0 H1 H2 H3 l.
  assert (P l /\ (forall a, P (a :: l)) /\ (forall a b, P (a :: b :: l)))
    as [H _]; [ | exact H].
  induction l as [|x l (IH0 & IH1 & IH2)]; [by auto|].
  split; [apply IH1|]. split; [intros a; apply IH2|].
  intros a b. by apply H3.
Qed.

Lemma groups_of_three (n : nat) :
  (4 * ((S (S (S n)) + 2) / 3) = 4 + 4 * ((n + 2) / 3))%nat.
Proof.
  replace (S (S (S n)) + 2)%nat with ((n + 2) + 1 * 3)%nat by lia.
  rewrite Nat.div_add by lia. lia.
Qed.

Lemma b64_round_trip data :
  Forall octet data ->
  exists header,
    decode_octets (b64encode data) = Some header
    /\ b64decode header = Some data
    /\ Py.all_chars b64_text_char header = true
    /\ String.length header = (4 * ((length data + 2) / 3))%nat.
Proof.
  induction data as [|a|a b|a b c data IH] using list_ind3; intros H.
  - by exists EmptyString.
  - apply Forall_cons in H as [Ha _].
    assert (octet 0) as H0 by (unfold octet; lia).
    destruct (first_octet a 0 Ha H0) as ((Hs1 & Hs2) & Hx).
    cbn zeta in *. change (Z.shiftr 0 4) with 0 in *.
    rewrite Z.lor_0_r in *.
    destruct (table_entry _ Hs1) as (A1 & A2 & A3 & A4).
    destruct (table_entry _ Hs2) as (B1 & B2 & B3 & B4).
    eexists. cbn [b64encode].
    rewrite (decode_octets_ascii _ _ A1), (decode_octets_ascii _ _ B1).
    split; [reflexivity|]. cbn [b64decode].
    rewrite A2, B2. cbn. rewrite A4, B4, Hx. done.
  - apply Forall_cons in H as [Ha H]. apply Forall_cons in H as [Hb _].
    assert (0 <= 0 < 4) as H0 by lia.
    destruct (first_octet a b Ha Hb) as ((Hs1 & Hs2) & Hx).
    destruct (second_octet _ b 0 (low_two a Ha) Hb H0) as (Hs3 & Hy).
    cbn zeta in *. rewrite Z.lor_0_r in *.
    destruct (table_entry _ Hs1) as (A1 & A2 & A3 & A4).
    destruct (table_entry _ Hs2) as (B1 & B2 & B3 & B4).
    destruct (table_entry _ Hs3) as (C1 & C2 & C3 & C4).
    eexists. cbn [b64encode].
    rewrite (decode_octets_ascii _ _ A1), (decode_octets_ascii _ _ B1),
      (decode_octets_ascii _ _ C1).
    split; [reflexivity|]. cbn [b64decode].
    rewrite A2, B2, C3, C2. cbn. rewrite A4, B4, C4, Hx, Hy. done.
  - apply Forall_cons in H as [Ha H]. apply Forall_cons in H as [Hb H].
    apply Forall_cons in H as [Hc H].
    destruct (IH H) as (header & I1 & I2 & I3 & I4).
    destruct (first_octet a b Ha Hb) as ((Hs1 & Hs2) & Hx).
    destruct (second_octet _ b _ (low_two a Ha) Hb (high_two c Hc))
      as (Hs3 & Hy).
    destruct (third_octet b c Hb Hc) as (Hs4 & Hz).
    cbn zeta in *.
    destruct (table_entry _ Hs1) as (A1 & A2 & A3 & A4).
    destruct (table_entry _ Hs2) as (B1 & B2 & B3 & B4).
    destruct (table_entry _ Hs3) as (C1 & C2 & C3 & C4).
    destruct (table_entry _ Hs4) as (D1 & D2 & D3 & D4).
    eexists. cbn [b64encode].
    rewrite (decode_octets_ascii _ _ A1), (decode_octets_ascii _ _ B1),
      (decode_octets_ascii _ _ C1), (decode_octets_ascii _ _ D1), I1.
    split; [reflexivity|]. cbn [b64decode].
    rewrite A2, B2, C3, C2, D3, D2, I2, Hx, Hy, Hz.
    split; [reflexivity|]. cbn [Py.all_chars]. rewrite A4, B4, C4, D4, I3.
    split; [reflexivity|].
    change (length (a :: b :: c :: data)) with (S (S (S (length data)))).
    rewrite groups_of_three, <- I4. reflexivity.
Qed.

Lemma basic_auth_header username password :
  exists header,
    get_basic_auth username password = Some header
    /\ b64decode header = Some (encode (username ++ ":" ++ password)%string)
    /\ Py.all_chars b64_text_char header = true
    /\ String.length header =
       (4 * ((length (encode (username ++ ":" ++ password)%string) + 2) / 3))%nat.
Proof. apply b64_round_trip, encode_octets. Qed.

Lemma encode_inj s t : encode s = encode t -> s = t.
Proof.
  intros H. apply (f_equal decode_octets) in H.
  rewrite !decode_encode in H. by injection H.
Qed.

End Octets.

(** X23. The credentials header is always made, whatever the user name
    and the password, and it is a well-formed Base64 text: only letters,
    digits, [+], [/] and the padding [=], four characters for each three
    octets of the encoded credentials, the last group filled up. For the
    defaults of the node, [ditto] and [ditto], it is [ZGl0dG86ZGl0dG8=]. *)
Theorem basic_auth_is_base64_text username password :
  (exists header,
      get_basic_auth username password = Some header
      /\ Py.all_chars b64_text_char header = true
      /\ String.length header =
         (4 * ((length (encode (username ++ ":" ++ password)%string) + 2)
               / 3))%nat)
  /\ get_basic_auth "ditto" "ditto" = Some "ZGl0dG86ZGl0dG8=".
Proof.
  split; [ | vm_compute; reflexivity].
  destruct (basic_auth_header username password) as (h & H1 & _ & H3 & H4).
  by exists h.
Qed.

(** X24. Encoding and decoding are a round trip: the Base64 decoding of
    the header gives back the octets of [{username}:{password}], and their
    UTF-8 decoding gives back that text. *)
Theorem basic_auth_round_trip username password :
  exists header,
    get_basic_auth username password = Some header
    /\ b64decode header = Some (encode (username ++ ":" ++ password)%string)
    /\ decode_octets (encode (username ++ ":" ++ password)%string)
       = Some (username ++ ":" ++ password)%string.
Proof.
  destruct (basic_auth_header username password) as (h & H1 & H2 & _).
  exists h. split; [exact H1|]. split; [exact H2 | apply decode_encode].
Qed.

(** X25. Two pairs of credentials give the same header exactly when they
    give the same text [{username}:{password}]. So the header tells apart
    all credentials whose user names have no colon, but a colon in the user
    name cannot be told from the colon that the method puts in. *)
Theorem basic_auth_same_header username password username' password' :
  (get_basic_auth username password = get_basic_auth username' password'
   <-> (username ++ ":" ++ password)%string
       = (username' ++ ":" ++ password')%string)
  /\ forall x,
       get_basic_auth (username ++ ":" ++ x)%string password
       = get_basic_auth username (x ++ ":" ++ password)%string.
Proof.
  split.
  - split.
    + intros H.
      destruct (basic_auth_header username password) as (h & H1 & H2 & _).
      destruct (basic_auth_header username' password')
        as (h' & H1' & H2' & _).
      rewrite H1, H1' in H. injection H as <-.
      rewrite H2 in H2'. injection H2' as H. by apply encode_inj.
    + unfold get_basic_auth. by intros ->.
  - intros x. unfold get_basic_auth. by rewrite append_assoc.
Qed.

(** ** Feature router: the order of the messages *)

Section Order.

Lemma ranks_app e1 e2 : ranks (e1 ++ e2) = ranks e1 ++ ranks e2.
Proof. unfold ranks. by rewrite published_app, fmap_app. Qed.

Lemma silent_ret {A} (a : A) : silent (ret a).
Proof. by intros w. Qed.

Lemma silent_raise {A} e : silent (@raise A e).
Proof. by intros w. Qed.

Lemma silent_lift {A} (r : Py.result A) : silent (lift r).
Proof. by intros w. Qed.

Lemma silent_log l r : silent (log l r).
Proof. by intros w. Qed.

Lemma silent_bind {A B} (m : M A) (k : A -> M B) :
  silent m -> (forall a, silent (k a)) -> silent (bind m k).
Proof.
  intros Hm Hk w. unfold bind, and_then.
  destruct (outcome (m w)) as [a|e]; cbn; [ | apply Hm].
  by rewrite published_app, Hm, Hk.
Qed.

Lemma silent_when b (m : M unit) : silent m -> silent (when b m).
Proof. intros H. destruct b; [exact H | apply silent_ret]. Qed.

Lemma silent_in_order lo hi {A} (m : M A) : silent m -> in_order lo hi m.
Proof.
  intros H w. unfold ranks. rewrite H. split; constructor.
Qed.

Lemma in_order_bind lo mid hi {A B} (m : M A) (k : A -> M B) :
  (lo <= mid <= hi)%nat ->
  in_order lo mid m -> (forall a, in_order mid hi (k a)) ->
  in_order lo hi (bind m k).
Proof.
  intros Hb Hm Hk w. unfold bind, and_then.
  destruct (Hm w) as [H1 H2].
  destruct (outcome (m w)) as [a|e]; cbn [after effects outcome].
  - destruct (Hk a (after (m w))) as [H3 H4]. rewrite ranks_app. split.
    + apply StronglySorted_app_2; [ | done | done].
      intros x1 x2 Hx1 Hx2.
      rewrite Forall_forall in H2, H4.
      specialize (H2 _ Hx1). specialize (H4 _ Hx2). lia.
    + apply Forall_app. split; (eapply Forall_impl; [eassumption|]);
        cbn; intros; lia.
  - split; [done|]. eapply Forall_impl; [exact H2|]. cbn. intros. lia.
Qed.

Lemma in_order_after lo hi {A B} (m : M A) (k : A -> M B) :
  silent m -> (forall a, in_order lo hi (k a)) -> in_order lo hi (bind m k).
Proof.
  intros Hm Hk w. unfold bind, and_then.
  destruct (outcome (m w)) as [a|e]; cbn [after effects outcome].
  - rewrite ranks_app. unfold ranks at 1 3. rewrite Hm. cbn. apply Hk.
  - unfold ranks. rewrite Hm. split; constructor.
Qed.

Lemma in_order_try lo hi {A} (m : M A) (h : Py.exn -> M A) :
  in_order lo hi m -> (forall e, silent (h e)) ->
  in_order lo hi (try_except m h).
Proof.
  intros Hm Hh w. unfold try_except.
  destruct (outcome (m w)) as [a|e]; cbn [after effects outcome]; [apply Hm|].
  rewrite ranks_app. unfold ranks at 2 4. rewrite Hh. cbn.
  rewrite app_nil_r. apply Hm.
Qed.

Lemma in_order_when lo hi b (m : M unit) :
  in_order lo hi m -> in_order lo hi (when b m).
Proof.
  intros H. destruct b; [exact H | apply silent_in_order, silent_ret].
Qed.

Lemma in_order_weaken lo hi lo' hi' {A} (m : M A) :
  (lo' <= lo)%nat -> (hi <= hi')%nat ->
  in_order lo hi m -> in_order lo' hi' m.
Proof.
  intros Hl Hh Hm w. destruct (Hm w) as [H1 H2]. split; [exact H1|].
  eapply Forall_impl; [exact H2|]. cbn. intros. lia.
Qed.

(** Every turn of a loop publishes one and the same class. *)
Lemma in_order_for_each r {A} (l : list A) (body : A -> M unit) :
  (forall a, in_order r r (body a)) -> in_order r r (for_each l body).
Proof.
  intros H. induction l as [|a l IH]; cbn [for_each].
  - apply silent_in_order, silent_ret.
  - apply (in_order_bind r r r); [lia | apply H | intros _; exact IH].
Qed.

End Order.

Section RouteOrder.
Import Py Msg.
Variable debug : bool.
Variable str_of_object : value -> string.
Variable json_dumps : value -> Py.result string.

Lemma silent_float_at o k : silent (float_at o k).
Proof. apply silent_bind; [ | intros v]; apply silent_lift. Qed.

Lemma silent_int_at o k : silent (int_at o k).
Proof. apply silent_bind; [ | intros v]; apply silent_lift. Qed.

Lemma send_ranks t thing_id suffix m w :
  ranks (effects (send str_of_object t thing_id suffix m w))
  = [rank (class_of m)].
Proof.
  unfold send, bind, and_then.
  destruct (topic_publishers w
              !! sanitize_topic_name
                   (format str_of_object thing_id ++ "/" ++ suffix)%string)
    as [p|] eqn:E.
  - by rewrite (get_or_create_found _ _ _ _ E).
  - by rewrite (get_or_create_fresh _ _ _ E).
Qed.

Lemma in_order_send lo hi t thing_id suffix m :
  class_of m = t -> (lo <= rank t <= hi)%nat ->
  in_order lo hi (send str_of_object t thing_id suffix m).
Proof.
  intros Hm Hb w. rewrite send_ranks, Hm. split.
  - constructor; constructor.
  - constructor; [exact Hb | constructor].
Qed.

Lemma in_order_on_feature lo hi features name body :
  (forall props, in_order lo hi (body props)) ->
  in_order lo hi (on_feature features name body).
Proof.
  intros H. unfold on_feature.
  apply in_order_after; [apply silent_lift | intros present].
  apply in_order_when.
  apply in_order_after; [apply silent_lift | intros feature].
  apply in_order_after; [apply silent_lift | intros props]. apply H.
Qed.

Lemma silent_debug_dump line thing :
  silent (debug_dump debug json_dumps line thing).
Proof.
  unfold debug_dump. apply silent_when.
  apply silent_bind; [apply silent_lift | intros dump; apply silent_log].
Qed.

Ltac order_silent :=
  first [ apply silent_lift | apply silent_float_at | apply silent_int_at
        | apply silent_debug_dump
        | apply silent_when, silent_log | apply silent_log ].

Ltac order_body :=
  repeat
    match goal with
    | |- in_order ?lo ?hi (send _ ?t ?thing_id ?suffix ?m) =>
        apply (in_order_send lo hi t thing_id suffix m eq_refl); cbn; lia
    | |- in_order ?lo ?hi (for_each _ _) =>
        apply (in_order_weaken hi hi lo hi); [lia | lia | ];
        apply in_order_for_each; intros [? ?]; cbn beta iota
    | |- in_order _ _ (when _ _) => apply in_order_when
    | |- in_order _ _ (bind _ _) =>
        apply in_order_after; [order_silent | intros ?]
    end.

Ltac order_block :=
  match goal with
  | |- in_order ?lo ?hi (bind (on_feature _ _ _) _) =>
      apply (in_order_bind lo (S lo) hi);
      [ lia | apply in_order_on_feature; intros ?; order_body | intros _ ]
  | |- in_order ?lo ?hi (on_feature _ _ _) =>
      apply in_order_on_feature; intros ?; order_body
  end.

Lemma in_order_route thing :
  in_order 0 14 (route debug str_of_object json_dumps thing).
Proof.
  unfold_route.
  apply in_order_after; [order_silent | intros _].
  apply in_order_after; [order_silent | intros thing_id].
  apply in_order_after; [order_silent | intros attributes].
  apply in_order_after; [order_silent | intros features].
  apply (in_order_bind 0 0 14); [lia | order_body | intros _].
  repeat order_block.
Qed.

Lemma in_order_process_thing thing :
  in_order 0 14 (process_thing debug str_of_object json_dumps thing).
Proof.
  unfold process_thing. apply in_order_try; [apply in_order_route|].
  intros e. apply silent_bind; [apply silent_log | intros _].
  apply silent_debug_dump.
Qed.

(** What comes before the alerts publishes classes up to the imu, and what
    comes after them classes from the relationships on. *)
Lemma in_order_before_alerts thing :
  in_order 0 5 (before_alerts debug str_of_object json_dumps thing).
Proof.
  unfold before_alerts, location_branch, temperature_branch,
    traffic_light_branch, humidity_branch, pressure_branch, imu_branch.
  apply in_order_after; [order_silent | intros _].
  apply in_order_after; [order_silent | intros thing_id].
  apply in_order_after; [order_silent | intros attributes].
  apply in_order_after; [order_silent | intros features].
  apply (in_order_bind 0 0 5); [lia | order_body | intros _].
  repeat order_block.
Qed.

Lemma in_order_after_alerts thing_id features :
  in_order 7 14 (after_alerts str_of_object thing_id features).
Proof.
  unfold after_alerts, relationships_branch, status_branch,
    environment_branch, traffic_branch, crop_branch, water_branch,
    energy_branch, production_branch.
  apply (in_order_bind 7 7 14);
    [lia | apply in_order_on_feature; intros ?; order_body | intros _].
  repeat order_block.
Qed.

End RouteOrder.

(** X26. The messages of one payload go out in the order in which the
    router deals with the location and the features, whatever the order of
    the keys of the payload: first the metadata, then temperature, traffic
    light, humidity, pressure, imu, the alerts, the relationships, status,
    environment, traffic, crop, water, energy and production. So a payload
    that names the pressure before the temperature has the temperature
    published first. *)
Theorem router_publishes_in_its_own_order
    debug str_of_object json_dumps thing w :
  StronglySorted le
    ((fun tm : string * Msg.msg => rank (class_of tm.2))
       <$> published
             (effects (process_thing debug str_of_object json_dumps thing w)))
  /\ (published
        (effects
           (process_thing false (fun _ => EmptyString)
              (fun _ => Py.Ok EmptyString)
              (Py.VDict
                 [("thingId", Py.VStr "t1");
                  ("features",
                   Py.VDict
                     [("pressure",
                       Py.VDict [("properties",
                                  Py.VDict [("value", Py.VInt 1013)])]);
                      ("temperature",
                       Py.VDict [("properties",
                                  Py.VDict [("value", Py.VStr "21.5")])])])])
              initial))).*1
     = ["/t1/sensor/temperature"; "/t1/sensor/pressure"].
Proof.
  split; [ | vm_compute; reflexivity].
  apply (in_order_process_thing debug str_of_object json_dumps thing w).
Qed.

(** ** Feature router: the registry does not show in what is published *)

Section Steady.

Lemma steady_still {A} (m : M A) :
  (forall w w', outcome (m w) = outcome (m w')) ->
  (forall w, after (m w) = w /\ published (effects (m w)) = []) ->
  steady m.
Proof.
  intros Ho Hm w w' Hw Hw'.
  destruct (Hm w) as [-> ->]. destruct (Hm w') as [-> ->]. by rewrite (Ho w w').
Qed.

Lemma steady_ret {A} (a : A) : steady (ret a).
Proof. by apply steady_still. Qed.

Lemma steady_raise {A} e : steady (@raise A e).
Proof. by apply steady_still. Qed.

Lemma steady_lift {A} (r : Py.result A) : steady (lift r).
Proof. by apply steady_still. Qed.

Lemma steady_log l r : steady (log l r).
Proof. by apply steady_still. Qed.

Lemma steady_bind {A B} (m : M A) (k : A -> M B) :
  steady m -> (forall a, steady (k a)) -> steady (bind m k).
Proof.
  intros Hm Hk w w' Hw Hw'. unfold bind, and_then.
  destruct (Hm w w' Hw Hw') as ((Ho & Hp) & H1 & H1'). rewrite <- Ho.
  destruct (outcome (m w)) as [a|e]; cbn [after effects outcome]; [ | done].
  destruct (Hk a _ _ H1 H1') as ((Ho2 & Hp2) & H2 & H2').
  by rewrite !published_app, Hp, Hp2.
Qed.

Lemma steady_try {A} (m : M A) (h : Py.exn -> M A) :
  steady m -> (forall e, steady (h e)) -> steady (try_except m h).
Proof.
  intros Hm Hh w w' Hw Hw'. unfold try_except.
  destruct (Hm w w' Hw Hw') as ((Ho & Hp) & H1 & H1'). rewrite <- Ho.
  destruct (outcome (m w)) as [a|e] eqn:E; cbn [after effects outcome].
  - by rewrite E.
  - destruct (Hh e _ _ H1 H1') as ((Ho2 & Hp2) & H2 & H2').
    by rewrite !published_app, Hp, Hp2.
Qed.

Lemma steady_when b (m : M unit) : steady m -> steady (when b m).
Proof. intros H. destruct b; [exact H | apply steady_ret]. Qed.

Lemma steady_for_each {A} (l : list A) (body : A -> M unit) :
  (forall a, steady (body a)) -> steady (for_each l body).
Proof.
  intros H. induction l as [|a l IH]; cbn [for_each].
  - apply steady_ret.
  - apply steady_bind; [apply H | intros _; exact IH].
Qed.

End Steady.

Section SteadyRoute.
Import Py Msg.
Variable debug : bool.
Variable str_of_object : value -> string.
Variable json_dumps : value -> Py.result string.

Lemma steady_send t thing_id suffix m :
  steady (send str_of_object t thing_id suffix m).
Proof.
  intros w w' Hw Hw'.
  destruct (send_run str_of_object t thing_id suffix m w Hw) as (-> & -> & H).
  destruct (send_run str_of_object t thing_id suffix m w' Hw')
    as (-> & -> & H').
  done.
Qed.

Lemma steady_float_at o k : steady (float_at o k).
Proof. apply steady_bind; [ | intros v]; apply steady_lift. Qed.

Lemma steady_int_at o k : steady (int_at o k).
Proof. apply steady_bind; [ | intros v]; apply steady_lift. Qed.

Ltac steady_step :=
  match goal with
  | |- steady (send _ _ _ _ _) => apply steady_send
  | |- steady (float_at _ _) => apply steady_float_at
  | |- steady (int_at _ _) => apply steady_int_at
  | |- steady (on_feature _ _ _) => unfold on_feature
  | |- steady (debug_dump _ _ _ _) => unfold debug_dump
  | |- steady (bind _ _) => apply steady_bind; [ | intros ? ]
  | |- steady (when _ _) => apply steady_when
  | |- steady (for_each _ _) =>
      apply steady_for_each; intros [? ?]; cbn beta iota
  | |- steady (lift _) => apply steady_lift
  | |- steady (log _ _) => apply steady_log
  | |- steady (ret _) => apply steady_ret
  end.

Lemma steady_route thing :
  steady (route debug str_of_object json_dumps thing).
Proof. unfold_route. repeat steady_step. Qed.

Lemma steady_process_thing thing :
  steady (process_thing debug str_of_object json_dumps thing).
Proof.
  unfold process_thing. apply steady_try; [apply steady_route|].
  intros e. repeat steady_step.
Qed.

End SteadyRoute.

(** X27. What the routing of a payload publishes, on which topics and
    with which messages, does not depend on the publishers that exist
    already: from any two dictionaries whose entries sit under their topics
    the same messages go out on the same topics and the routing ends the
    same way. The registry only saves creations. *)
Theorem routing_does_not_depend_on_the_registry
    debug str_of_object json_dumps thing w w' :
  registry_ok w -> registry_ok w' ->
  published (effects (process_thing debug str_of_object json_dumps thing w))
  = published (effects (process_thing debug str_of_object json_dumps thing w'))
  /\ outcome (route debug str_of_object json_dumps thing w)
     = outcome (route debug str_of_object json_dumps thing w').
Proof.
  intros Hw Hw'.
  destruct (steady_process_thing debug str_of_object json_dumps thing w w'
              Hw Hw') as ((_ & Hp) & _).
  split; [exact Hp|].
  by destruct (steady_route debug str_of_object json_dumps thing w w' Hw Hw')
    as ((Ho & _) & _).
Qed.

Lemma routing_does_not_depend_on_the_registry_witness :
  let dumps := fun _ : Py.value => Py.Ok EmptyString in
  let w1 := after (process_thing false (fun _ => EmptyString) dumps
                     temperature_payload initial) in
  published (effects (process_thing false (fun _ => EmptyString) dumps
                        temperature_payload initial))
  = published (effects (process_thing false (fun _ => EmptyString) dumps
                          temperature_payload w1)).
Proof.
  intros dumps w1.
  refine (proj1 (routing_does_not_depend_on_the_registry false
                   (fun _ => EmptyString) dumps temperature_payload initial
                   w1 initial_registry_ok _)).
  eapply registry_ok_grown;
    [apply initial_registry_ok | apply grows_process_thing].
Defined.

(** ** Feature router: the alerts among the other messages *)

Section Alerts.
Import Py Msg.
Variable debug : bool.
Variable str_of_object : value -> string.
Variable json_dumps : value -> Py.result string.

Abbreviation before := (before_alerts debug str_of_object json_dumps).
Abbreviation process := (process_thing debug str_of_object json_dumps).

Lemma bind_ext {A B} (m : M A) (k k' : A -> M B) w :
  (forall a w', k a w' = k' a w') -> bind m k w = bind m k' w.
Proof.
  intros H. unfold bind, and_then.
  destruct (outcome (m w)); [ | reflexivity]. by rewrite H.
Qed.

(** The [try] block is what comes before the alerts, the alerts, and what
    comes after them. *)
Lemma route_around_alerts thing thing_id features w :
  get thing "thingId" (VStr EmptyString) = Ok thing_id ->
  get thing "features" (VDict []) = Ok features ->
  route debug str_of_object json_dumps thing w =
    bind (before thing)
      (fun _ =>
         alerts_branch str_of_object thing_id features ;;
         after_alerts str_of_object thing_id features) w.
Proof.
  intros Ht Hf.
  assert (exists attributes,
             get thing "attributes" (VDict []) = Ok attributes)
    as [attributes Ha].
  { destruct thing; try discriminate Ht. by eexists. }
  unfold route, before_alerts.
  rewrite bind_assoc. apply bind_ext. intros _ w1.
  rewrite bind_assoc, !(bind_lift _ _ _ _ Ht).
  rewrite bind_assoc, !(bind_lift _ _ _ _ Ha).
  rewrite bind_assoc, !(bind_lift _ _ _ _ Hf).
  do 5 (rewrite bind_assoc; apply bind_ext; intros _ ?).
  reflexivity.
Qed.

Lemma grows_before_alerts thing : grows (before thing).
Proof.
  unfold before_alerts, location_branch, temperature_branch,
    traffic_light_branch, humidity_branch, pressure_branch, imu_branch.
  repeat first
    [ apply grows_debug_dump | apply grows_send | apply grows_float_at
    | apply grows_int_at | apply grows_on_feature; intros ?
    | grows_step ].
Qed.

Lemma has_of_getitem features name feature :
  getitem features name = Ok feature -> has name features = Ok true.
Proof.
  destruct features; try discriminate. cbn.
  by destruct (lookup_key name d).
Qed.

(** The alerts of a thing, from any dictionary whose entries sit under
    their topics. *)
Lemma alerts_branch_run thing_id features feature entries w :
  registry_ok w ->
  getitem features "alerts" = Ok feature ->
  get feature "properties" (VDict []) = Ok (VDict entries) ->
  let r := alerts_branch str_of_object thing_id features w in
  let results := alert_message str_of_object thing_id <$> entries in
  let n := sanitize_topic_name
             (format str_of_object thing_id ++ "/alerts")%string in
  published (effects r) = (fun m => (n, m)) <$> (collect results).1
  /\ outcome r = match (collect results).2 with
                 | None => Ok tt
                 | Some e => Raise e
                 end
  /\ registry_ok (after r).
Proof.
  intros Hw Hg Hp r results n. unfold r, alerts_branch.
  rewrite (on_feature_present _ _ _ _ _ _ (has_of_getitem _ _ _ Hg) Hg Hp).
  rewrite (bind_lift _ _ _ entries eq_refl).
  exact (for_each_send str_of_object
           (alert_message str_of_object thing_id) _
           TAlert thing_id "alerts" entries
           (alert_turn str_of_object thing_id) w Hw).
Qed.

Lemma alert_rank (tm : string * msg) :
  is_alert tm = true -> rank (class_of tm.2) = 6%nat.
Proof. destruct tm as [n m]. by destruct m. Qed.

(** A method whose classes lie on one side of the alerts publishes no
    alert. *)
Lemma no_alert_in_order lo hi {A} (m : M A) w :
  in_order lo hi m -> (hi < 6 \/ 6 < lo)%nat ->
  List.filter is_alert (published (effects (m w))) = [].
Proof.
  intros Hm Hb. destruct (Hm w) as [_ HF]. unfold ranks in HF.
  rewrite Forall_fmap in HF.
  induction (published (effects (m w))) as [|tm l IH]; [reflexivity|].
  apply Forall_cons in HF as [Htm HF]. cbn [List.filter].
  destruct (is_alert tm) eqn:E; [ | by apply IH].
  apply alert_rank in E. cbn in Htm. lia.
Qed.

Lemma alert_message_is_alert thing_id entry m n :
  alert_message str_of_object thing_id entry = Ok m -> is_alert (n, m) = true.
Proof.
  unfold alert_message.
  destruct (get entry.2 "type" (VStr "unknown")); [ | discriminate].
  destruct (int_of_key entry.2 "severity"); [ | discriminate].
  by intros [= <-].
Qed.

Lemma all_alerts n (l : list (string * value)) thing_id :
  List.filter is_alert
    ((fun m => (n, m))
       <$> (collect (alert_message str_of_object thing_id <$> l)).1)
  = (fun m => (n, m))
      <$> (collect (alert_message str_of_object thing_id <$> l)).1.
Proof.
  induction l as [|entry l IH]; [reflexivity|].
  cbn [fmap list_fmap collect].
  destruct (alert_message str_of_object thing_id entry) as [m|e] eqn:E;
    [ | reflexivity].
  destruct (collect (alert_message str_of_object thing_id <$> l))
    as [oks failure].
  cbn [fst] in *. cbn [fmap list_fmap List.filter] in *.
  rewrite (alert_message_is_alert _ _ _ n E). by rewrite IH.
Qed.

Lemma alert_texts_differ thing_id (a b : string) :
  (thing_id ++ ":" ++ a)%string <> (thing_id ++ ":" ++ b)%string <-> a <> b.
Proof.
  split; intros H E; apply H.
  - by rewrite E.
  - by apply (inj (String.append ":")), (inj (String.append thing_id)).
Qed.

(** The alerts of any payload whose routing gets as far as the alerts:
    the messages of the entries before the first that fails, in their
    order, after what the location and the earlier features publish and
    before what the later features publish, none of which is an alert. *)
Lemma alerts_among thing thing_id features feature entries w :
  registry_ok w ->
  get thing "thingId" (VStr EmptyString) = Ok thing_id ->
  get thing "features" (VDict []) = Ok features ->
  outcome (before thing w) = Ok tt ->
  getitem features "alerts" = Ok feature ->
  get feature "properties" (VDict []) = Ok (VDict entries) ->
  let results := alert_message str_of_object thing_id <$> entries in
  let n := sanitize_topic_name
             (format str_of_object thing_id ++ "/alerts")%string in
  exists later,
    published (effects (process thing w)) =
      published (effects (before thing w))
      ++ ((fun m => (n, m)) <$> (collect results).1) ++ later
    /\ List.filter is_alert (published (effects (before thing w))) = []
    /\ List.filter is_alert later = [].
Proof.
  intros Hw Ht Hf Hb Hg Hp results n.
  rewrite published_process_thing, (route_around_alerts _ _ _ _ Ht Hf).
  rewrite (bind_ok _ _ _ _ Hb). cbn [effects]. rewrite published_app.
  assert (registry_ok (after (before thing w))) as Hw1.
  { eapply registry_ok_grown; [exact Hw | apply grows_before_alerts]. }
  destruct (alerts_branch_run thing_id features feature entries _ Hw1 Hg Hp)
    as (Hpub & Hout & _). fold results n in Hpub, Hout.
  assert (List.filter is_alert (published (effects (before thing w))) = [])
    as Hnone.
  { apply (no_alert_in_order 0 5); [apply in_order_before_alerts | lia]. }
  destruct (collect results).2 as [e|].
  - exists []. rewrite (bind_raise _ _ _ _ Hout). cbn [effects].
    by rewrite Hpub, app_nil_r.
  - rewrite (bind_ok _ _ _ _ Hout). cbn [effects].
    rewrite published_app, Hpub. eexists. split; [reflexivity|].
    split; [exact Hnone|].
    apply (no_alert_in_order 7 14); [apply in_order_after_alerts | lia].
Qed.

End Alerts.

(** C7, as the code has it. For every payload whose routing gets as far
    as the alerts, the debug line, the location and the features before the
    alerts having raised nothing, and whose alerts have two entries, under
    two keys as the entries of a mapping are, each a mapping whose
    severity, 0 when absent, [int] accepts: among all that
    the routing publishes there are exactly two alerts, one right after the
    other, both on the sanitized topic of [{thingId}/alerts]; they carry
    the texts [{thingId}:{type}] of the two entries in their order,
    [unknown] standing for a missing type, and the two texts differ exactly
    when the two types are formatted differently. What the location and the
    earlier features publish comes before them, what the later features
    publish comes after them. *)
Theorem two_alerts_published_on_one_topic
    debug str_of_object json_dumps thing thing_id features feature
    k1 m1 k2 m2 ty1 ty2 v1 v2 s1 s2 w :
  registry_ok w ->
  Py.get thing "thingId" (Py.VStr EmptyString) = Py.Ok thing_id ->
  Py.get thing "features" (Py.VDict []) = Py.Ok features ->
  outcome (before_alerts debug str_of_object json_dumps thing w) = Py.Ok tt ->
  Py.getitem features "alerts" = Py.Ok feature ->
  Py.get feature "properties" (Py.VDict [])
  = Py.Ok (Py.VDict [(k1, m1); (k2, m2)]) ->
  k1 <> k2 ->
  Py.get m1 "type" (Py.VStr "unknown") = Py.Ok ty1 ->
  Py.get m1 "severity" (Py.VInt 0) = Py.Ok v1 -> Py.int_ v1 = Py.Ok s1 ->
  Py.get m2 "type" (Py.VStr "unknown") = Py.Ok ty2 ->
  Py.get m2 "severity" (Py.VInt 0) = Py.Ok v2 -> Py.int_ v2 = Py.Ok s2 ->
  let r := process_thing debug str_of_object json_dumps thing w in
  let earlier :=
    published
      (effects (before_alerts debug str_of_object json_dumps thing w)) in
  let topic :=
    sanitize_topic_name
      (format str_of_object thing_id ++ "/alerts")%string in
  let text1 :=
    (format str_of_object thing_id ++ ":"
     ++ format str_of_object ty1)%string in
  let text2 :=
    (format str_of_object thing_id ++ ":"
     ++ format str_of_object ty2)%string in
  let alerts :=
    [(topic, Msg.OfAlert {| Msg.message := text1; Msg.severity := s1 |});
     (topic, Msg.OfAlert {| Msg.message := text2; Msg.severity := s2 |})] in
  List.filter is_alert (published (effects r)) = alerts
  /\ (exists later,
        published (effects r) = earlier ++ alerts ++ later
        /\ List.filter is_alert earlier = []
        /\ List.filter is_alert later = [])
  /\ (text1 <> text2 <-> format str_of_object ty1 <> format str_of_object ty2).
Proof.
  intros Hw Ht Hf Hb Hg Hp _ Ht1 Hv1 Hs1 Ht2 Hv2 Hs2
    r earlier topic text1 text2 alerts.
  destruct (alerts_among debug str_of_object json_dumps thing thing_id
              features feature [(k1, m1); (k2, m2)] w Hw Ht Hf Hb Hg Hp)
    as (later & Hpub & Hbefore & Hlater).
  assert ((collect (alert_message str_of_object thing_id
                      <$> [(k1, m1); (k2, m2)])).1
          = [Msg.OfAlert {| Msg.message := text1; Msg.severity := s1 |};
             Msg.OfAlert {| Msg.message := text2; Msg.severity := s2 |}])
    as Hsent.
  { cbn [fmap list_fmap collect]. unfold alert_message, int_of_key.
    cbn [fst snd]. by rewrite Ht1, Hv1, Hs1, Ht2, Hv2, Hs2. }
  rewrite Hsent in Hpub. cbn [fmap list_fmap] in Hpub. fold topic in Hpub.
  fold alerts in Hpub.
  split; [ | split].
  - unfold r. rewrite Hpub, !List.filter_app, Hbefore, Hlater.
    reflexivity.
  - exists later. by split.
  - apply alert_texts_differ.
Qed.

(** A thing with a location, a temperature, two alerts and a status: the
    two alerts are published between the temperature and the status. *)
Lemma two_alerts_published_on_one_topic_witness :
  let thing :=
    Py.VDict
      [("thingId", Py.VStr "org.x:dev1");
       ("attributes",
        Py.VDict [("location", Py.VDict [("longitude", Py.VFloat f21_5)])]);
       ("features",
        Py.VDict
          [("status", Py.VDict []);
           ("alerts",
            Py.VDict
              [("properties",
                Py.VDict
                  [("a1", Py.VDict [("type", Py.VStr "fire");
                                    ("severity", Py.VInt 3)]);
                   ("a2", Py.VDict [("type", Py.VStr "flood")])])]);
           ("temperature",
            Py.VDict [("properties",
                       Py.VDict [("value", Py.VStr "21.5")])])])] in
  List.filter is_alert
    (published
       (effects (process_thing true (fun _ => EmptyString)
                   (fun _ => Py.Ok "{...}") thing initial))) =
  [("/org_x_dev1/alerts",
    Msg.OfAlert {| Msg.message := "org.x:dev1:fire"; Msg.severity := 3 |});
   ("/org_x_dev1/alerts",
    Msg.OfAlert {| Msg.message := "org.x:dev1:flood"; Msg.severity := 0 |})].
Proof.
  intros thing.
  refine (proj1 (two_alerts_published_on_one_topic true
                   (fun _ => EmptyString) (fun _ => Py.Ok "{...}") thing
                   (Py.VStr "org.x:dev1")
                   (Py.VDict
                      [("status", Py.VDict []);
                       ("alerts",
                        Py.VDict
                          [("properties",
                            Py.VDict
                              [("a1", Py.VDict [("type", Py.VStr "fire");
                                                ("severity", Py.VInt 3)]);
                               ("a2", Py.VDict [("type", Py.VStr "flood")])])]);
                       ("temperature",
                        Py.VDict [("properties",
                                   Py.VDict [("value", Py.VStr "21.5")])])])
                   (Py.VDict
                      [("properties",
                        Py.VDict
                          [("a1", Py.VDict [("type", Py.VStr "fire");
                                            ("severity", Py.VInt 3)]);
                           ("a2", Py.VDict [("type", Py.VStr "flood")])])])
                   "a1" (Py.VDict [("type", Py.VStr "fire");
                                   ("severity", Py.VInt 3)])
                   "a2" (Py.VDict [("type", Py.VStr "flood")])
                   (Py.VStr "fire") (Py.VStr "flood")
                   (Py.VInt 3) (Py.VInt 0) 3 0 initial
                   initial_registry_ok eq_refl eq_refl _ eq_refl eq_refl _
                   eq_refl eq_refl eq_refl eq_refl eq_refl eq_refl)).
  - vm_compute. reflexivity.
  - discriminate.
Defined.

(** C7 as it is stated fails. Two entries of the same type give two
    messages with the same text. When the severity of the first entry is
    not a number, nothing is published at all. When a feature that is read
    before the alerts cannot be coerced, here the humidity, the two alerts
    are never reached. With [debug] on and a payload that [json.dumps]
    cannot format, nothing is published. And a thing that has a location
    besides its two alerts has three messages published, not two. *)
Lemma two_alerts_same_text_or_none :
  let str := fun _ : Py.value => EmptyString in
  let dumps := fun _ : Py.value => Py.Ok "{...}" in
  let fire := fun sev =>
    Py.VDict [("type", Py.VStr "fire"); ("severity", sev)] in
  let flood := Py.VDict [("type", Py.VStr "flood")] in
  let two := Py.VDict [("properties", Py.VDict [("a1", fire (Py.VInt 1));
                                                 ("a2", flood)])] in
  published
    (effects
       (process_thing false str dumps
          (alerts_payload "t1" "a1" (fire (Py.VInt 1)) "a2" (fire (Py.VInt 2)))
          initial)) =
  [("/t1/alerts",
    Msg.OfAlert {| Msg.message := "t1:fire"; Msg.severity := 1 |});
   ("/t1/alerts",
    Msg.OfAlert {| Msg.message := "t1:fire"; Msg.severity := 2 |})]
  /\ published
       (effects
          (process_thing false str dumps
             (alerts_payload "t1" "a1" (fire (Py.VStr "high")) "a2" flood)
             initial)) = []
  /\ published
       (effects
          (process_thing false str dumps
             (Py.VDict
                [("thingId", Py.VStr "t1");
                 ("features",
                  Py.VDict
                    [("alerts", two);
                     ("humidity",
                      Py.VDict [("properties",
                                 Py.VDict [("value", Py.VStr "damp")])])])])
             initial)) = []
  /\ published
       (effects
          (process_thing true str (fun _ => Py.Raise Py.RecursionError)
             (alerts_payload "t1" "a1" (fire (Py.VInt 1)) "a2" flood)
             initial)) = []
  /\ (published
        (effects
           (process_thing false str dumps
              (Py.VDict
                 [("thingId", Py.VStr "t1");
                  ("attributes", Py.VDict [("location", Py.VDict [])]);
                  ("features", Py.VDict [("alerts", two)])])
              initial))).*1 =
     ["/t1/metadata"; "/t1/alerts"; "/t1/alerts"].
Proof. repeat split; vm_compute; reflexivity. Qed.
